(** * chem-sim: tile narration and the history store

    A shallow embedding of [src/narration.js] and [src/history.js], and
    of the pure computations of [src/inspector.js].

    Conventions of the embedding.
    - A JavaScript number is the rational value of a finite double ([Q]);
      [NaN] and the infinities are not values of the model.  A decimal
      literal is the double nearest to it ([dbl]).  Comparisons of
      doubles are exact and are the comparisons of [Q]; the arithmetic
      operations of the source round their result and are the operations
      of a [JsNumber], of which only the listed facts of IEEE 754 binary64
      arithmetic are used.  The two places where the source uses
      [-Infinity] as a sentinel ([bestScore] in [pickActivity],
      [lastSampleAt] in the history store) are modelled with [option].
    - A property that may be [undefined] is an [option]; [x || 0] and
      [x ?? 0] on numbers are [num_or0].
    - A plain object used as a map ([tile.gas], [tile.species],
      [rx.phases]) is an association list in the enumeration order of its
      keys.
    - The material registry is a total lookup [string -> option Material]
      (the [Map.get] of the source).
    - The reaction index is a plain object: a lookup finds the reactions
      of the catalogue and, for the names every object inherits from
      [Object.prototype], a member of that prototype.
    - A call either returns a value or throws ([completion]). *)

From Stdlib Require Import QArith Qabs Qround ZArith List String Ascii Bool Lia.
From Stdlib Require Import Numbers.DecimalString Sorting.Permutation Lqa.
Import ListNotations.

Open Scope string_scope.
Open Scope Q_scope.

(** ** Numbers *)

(** The arithmetic of JavaScript numbers.  The four operations give the
    double nearest to the exact result; the development relies on the
    following facts of that rounding, for finite results.
    - A difference has the sign of the exact difference (it is zero only
      when the operands are equal), and subtracting a number that is not
      negative does not give more than the first operand.
    - A quotient by a positive number is positive or negative only with
      its dividend, and zero when the dividend is; a positive number
      divided by itself is [1].
    - A product with [1] is the other factor, and a product is within a
      relative error of [2^-50], and [2^-100] in absolute value for the
      results that underflow, of the exact product. *)
Class JsNumber : Type := {
  num_add : Q -> Q -> Q;
  num_sub : Q -> Q -> Q;
  num_mul : Q -> Q -> Q;
  num_div : Q -> Q -> Q;
  num_sub_pos : forall a b, 0 < num_sub a b <-> b < a;
  num_sub_neg : forall a b, num_sub a b < 0 <-> a < b;
  num_sub_le : forall a b, 0 <= b -> num_sub a b <= a;
  num_div_pos : forall a b, 0 < b -> 0 < num_div a b -> 0 < a;
  num_div_neg : forall a b, 0 < b -> num_div a b < 0 -> a < 0;
  num_div_0_l : forall a b, 0 < b -> a == 0 -> num_div a b == 0;
  num_div_diag : forall a b, 0 < b -> a == b -> num_div a b == 1;
  num_mul_1_l : forall a b, a == 1 -> num_mul a b == b;
  num_mul_near : forall a b,
    Qabs (num_mul a b - a * b)
    <= Qabs (a * b) * (1 # 1125899906842624)
       + (1 # 1267650600228229401496703205376)
}.

(** The arithmetic that does not round.  It is the arithmetic of doubles
    wherever the exact result is a double, as for the integers and the
    differences with zero of the examples below; where an example
    multiplies an extent by 100, the integer shown is the same for every
    arithmetic ([intensityOf_bounds]). *)
Definition exact_arith : JsNumber :=
  {| num_add := Qplus;
     num_sub := Qminus;
     num_mul := Qmult;
     num_div := Qdiv;
     num_sub_pos := ltac:(intros; split; intro; lra);
     num_sub_neg := ltac:(intros; split; intro; lra);
     num_sub_le := ltac:(intros; lra);
     num_div_pos := ltac:(intros a b Hb H;
        assert (E : a == (a / b) * b) by (field; lra);
        rewrite E; apply Qmult_lt_0_compat; assumption);
     num_div_neg := ltac:(intros a b Hb H;
        assert (E : a == (a / b) * b) by (field; lra);
        rewrite E; setoid_replace 0 with (0 * b) by ring;
        apply Qmult_lt_compat_r; assumption);
     num_div_0_l := ltac:(intros a b Hb H; rewrite H; field; lra);
     num_div_diag := ltac:(intros a b Hb H; rewrite H; field; lra);
     num_mul_1_l := ltac:(intros a b H; rewrite H; ring);
     num_mul_near := ltac:(intros a b;
        setoid_replace (a * b - a * b) with 0 by ring;
        pose proof (Qabs_nonneg (a * b)); simpl (Qabs 0); nra) |}.

#[global] Existing Instance exact_arith.

Definition pow2 (z : Z) : Z := if (0 <=? z)%Z then (2 ^ z)%Z else 1%Z.

(** The double nearest to a rational, ties going to the even significand:
    what a decimal literal of the source denotes.  With [k] the binary
    exponent of the magnitude, the last bit of the significand weighs
    [2^e] for [e = k - 52], or [2^-1074] for the subnormal numbers; the
    literals of this development are far from the overflow threshold,
    which is left out. *)
Definition dbl (q : Q) : Q :=
  let n := Z.abs (Qnum q) in
  let d := Zpos (Qden q) in
  if (n =? 0)%Z then 0
  else
    let k := (Z.log2 n - Z.log2 d)%Z in
    let k := if (d * pow2 k <=? n * pow2 (- k))%Z then k else (k - 1)%Z in
    let e := Z.max (k - 52) (-1074) in
    let a := (n * pow2 (- e))%Z in
    let b := (d * pow2 e)%Z in
    let m := (a / b)%Z in
    let r := (a mod b)%Z in
    let m := if (2 * r <? b)%Z then m
             else if (b <? 2 * r)%Z then (m + 1)%Z
             else if Z.even m then m else (m + 1)%Z in
    Qmake (Z.sgn (Qnum q) * m * pow2 e) (Z.to_pos (pow2 (- e))).

Arguments dbl : simpl never.

Definition Qltb (x y : Q) : bool := negb (Qle_bool y x).
Definition Qgtb (x y : Q) : bool := Qltb y x.
Definition Qgeb (x y : Q) : bool := Qle_bool y x.

Definition num_or0 (x : option Q) : Q :=
  match x with Some q => q | None => 0 end.

(** [undefined < y], [undefined >= y], ... are all false. *)
Definition opt_cmp (cmp : Q -> Q -> bool) (x : option Q) (y : Q) : bool :=
  match x with Some q => cmp q y | None => false end.

(** [Math.round]: the nearest integer, halves going up; it does not
    round its argument first. *)
Definition Math_round (x : Q) : Z := Qfloor (x + (1 # 2)).

Definition Math_min (x y : Q) : Q := if Qle_bool x y then x else y.

(** Decimal rendering of an integer, as a template literal does for an
    integer below 10^21 in absolute value. *)
Definition Z_to_string (z : Z) : string :=
  NilEmpty.string_of_int (Z.to_int z).

(** ** Calls that may throw *)

Inductive Exception : Type := TypeError.

Inductive completion (A : Type) : Type :=
| Returns (a : A)
| Throws (e : Exception).

Arguments Returns {A} a.
Arguments Throws {A} e.

Definition bind {A B : Type} (c : completion A) (k : A -> completion B)
  : completion B :=
  match c with
  | Returns a => k a
  | Throws e => Throws e
  end.

Notation "x <- c ;; k" := (bind c (fun x => k))
  (at level 61, c at next level, right associativity).

(** ** Strings *)

Definition str_eqb (a b : string) : bool := String.eqb a b.

(** [s.startsWith(p)] *)
Definition startsWith (s p : string) : bool := String.prefix p s.

(** [s.includes(k)] *)
Fixpoint includes (s k : string) : bool :=
  String.prefix k s ||
  match s with
  | EmptyString => false
  | String _ r => includes r k
  end.

(** [s] ends with [suf]. *)
Definition endsWith (s suf : string) : bool :=
  let n := String.length s in
  let m := String.length suf in
  (m <=? n)%nat && str_eqb (String.substring (n - m) m s) suf.

(** [xs.join(sep)] *)
Definition join (sep : string) (xs : list string) : string :=
  String.concat sep xs.

Definition truthy_str (s : option string) : bool :=
  match s with Some EmptyString => false | Some _ => true | None => false end.

(** Keep the first occurrence of every string: the order of a [Set]. *)
Fixpoint uniq (xs : list string) : list string :=
  match xs with
  | [] => []
  | x :: r => x :: filter (fun y => negb (str_eqb x y)) (uniq r)
  end.

Definition mem_str (x : string) (xs : list string) : bool :=
  existsb (str_eqb x) xs.

(** [xs.push(x)] *)
Definition push {A : Type} (xs : list A) (x : A) : list A := (xs ++ [x])%list.

(** [if (x) xs.push(x)] for an optional string *)
Definition push_truthy (xs : list string) (x : option string) : list string :=
  if truthy_str x
  then match x with Some s => push xs s | None => xs end
  else xs.

(** Lookup in an object used as a map. *)
Fixpoint obj_get {A : Type} (o : list (string * A)) (k : string) : option A :=
  match o with
  | [] => None
  | (k', v) :: r => if str_eqb k' k then Some v else obj_get r k
  end.

(** ** Sorting

    [Array.prototype.sort] is stable; with a comparator [b.key - a.key]
    it orders by decreasing key and keeps equal keys in their original
    order.  Only the sign of the comparator counts, and the difference of
    two doubles has the sign of the exact difference: the keys are
    compared. *)

Section SortDesc.
Context {A : Type} (key : A -> Q).

Fixpoint insert_desc (x : A) (l : list A) : list A :=
  match l with
  | [] => [x]
  | y :: r => if Qltb (key x) (key y) then y :: insert_desc x r
              else x :: y :: r
  end.

Definition sort_desc (l : list A) : list A :=
  fold_right insert_desc [] l.
End SortDesc.

(** ** History samples and trends ([narration.js], lines 4-53) *)

Record Sample : Type := mkSample {
  s_t : Q;
  s_temp : option Q;
  s_pressure : option Q;
  s_pH : option Q;
  s_gasSum : option Q
}.

(** [sample[field]] *)
Definition sample_get (s : Sample) (field : string) : option Q :=
  if str_eqb field "t" then Some (s_t s)
  else if str_eqb field "temp" then s_temp s
  else if str_eqb field "pressure" then s_pressure s
  else if str_eqb field "pH" then s_pH s
  else if str_eqb field "gasSum" then s_gasSum s
  else None.

Definition lastN (history : option (list Sample)) (n : nat)
  : option (list Sample) :=
  match history with
  | None => None
  | Some h =>
      if (List.length h <? 2)%nat then None
      else let k := Nat.min n (List.length h) in
           Some (skipn (List.length h - k) h)
  end.

Inductive Trend : Type := up | down | flat.

Definition last_sample (h : list Sample) : option Sample :=
  nth_error h (List.length h - 1).

Definition trendOf {ops : JsNumber} (history : option (list Sample))
           (field : string) (eps : Q) : Trend :=
  match lastN history 3 with
  | None => flat
  | Some h =>
      if (List.length h <? 2)%nat then flat
      else
        match nth_error h 0, last_sample h with
        | Some first, Some last =>
            let dt := num_div (num_sub (s_t last) (s_t first)) 1000 in
            if Qle_bool dt 0 then flat
            else
              let dv := num_sub (num_or0 (sample_get last field))
                                (num_or0 (sample_get first field)) in
              let slope := num_div dv dt in
              if Qgtb slope eps then up
              else if Qltb slope (- eps) then down
              else flat
        | _, _ => flat
        end
  end.

Definition trendLabelTemp {ops : JsNumber} (history : option (list Sample))
  : string :=
  match trendOf history "temp" (dbl 0.05) with
  | up => " (heating up)"
  | down => " (cooling)"
  | flat => ""
  end.

Definition trendLabelPressure {ops : JsNumber}
           (history : option (list Sample)) : option string :=
  match trendOf history "pressure" (dbl 0.02) with
  | up => Some "pressure building"
  | down => Some "venting"
  | flat => None
  end.

Definition trendLabelPH {ops : JsNumber} (history : option (list Sample))
  : option string :=
  match lastN history 3 with
  | None => None
  | Some h =>
      if (List.length h <? 2)%nat then None
      else
        match nth_error h 0, last_sample h with
        | Some f, Some l =>
            match s_pH f, s_pH l with
            | Some first, Some last =>
                let delta := num_sub last first in
                if Qltb (Qabs delta) (dbl 0.02) then None
                else if Qgtb last (dbl 6.8) && Qltb last (dbl 7.2)
                then Some "neutralizing"
                else if Qgtb delta 0 then Some "becoming more basic"
                else Some "becoming more acidic"
            | _, _ => None
            end
        | _, _ => None
        end
  end.

Definition trendLabelGas {ops : JsNumber} (history : option (list Sample))
  : option string :=
  match trendOf history "gasSum" (dbl 0.01) with
  | up => Some "gas building"
  | down => Some "gas dissipating"
  | flat => None
  end.

(** ** Data model *)

(** An entry of the material registry. *)
Record Material : Type := mkMaterial {
  m_displayName : option string;
  m_phaseSTP : option string;
  m_corrosivity : option string;
  m_hazardTags : list string;
  m_flammability : option string;
  m_toxicity : option string;
  m_color : option string
}.

(** [rx.effects || {}]; [emitGas] and [pressurePulse] are only tested for
    truthiness. *)
Record Effects : Type := mkEffects {
  fx_heatPerUnit : option Q;
  fx_emitGas : bool;
  fx_pressurePulse : bool
}.

Definition no_effects : Effects := mkEffects None false false.

(** What a lookup in the reaction index gives: a reaction of the
    catalogue or a member of [Object.prototype], read through the fields
    of a reaction; [rx_reactants] is
    [Object.keys(rx.stoich?.reactants || {})], and [rx_phases] is the
    plain object [rx.phases], when there is one. *)
Record Reaction : Type := mkReaction {
  rx_id : option string;
  rx_equation : option string;
  rx_reactants : list string;
  rx_phases : option (list (string * string));
  rx_effects : Effects;
  rx_tags : list string
}.

Record Product : Type := mkProduct {
  p_id : string;
  p_qty : option Q
}.

(** An entry of [tile._activity].  The back-reference [_tile] that
    [narrateTile] attaches is read only as [tile?.gas]; since the object
    graph is cyclic, the entry keeps the gas map of the tile it points
    to. *)
Record Activity : Type := mkActivity {
  e_id : string;
  e_extent : option Q;
  e_limiter : option string;
  e_heat : bool;
  e_products : list Product;
  e_tile : option (list (string * Q))
}.

(** [_historyMeta.lastSampleAt]; [None] is [-Infinity]. *)
Record HistoryMeta : Type := mkMeta { lastSampleAt : option Q }.

Record Tile : Type := mkTile {
  tile_temp : option Q;
  tile_pH : option Q;
  tile_moisture : option Q;
  tile_pressure : option Q;
  tile_gas : list (string * Q);
  tile_species : list (string * Q);
  tile_history : option (list Sample);
  tile_historyMeta : option HistoryMeta;
  tile_activity : list (option Activity)
}.

(** ** [niceName]'s textual clean-up

    [id.replace(/_g$|_l$|\(.*?\)|_/g, s => s === '_' ? ' ' : '').trim()],
    on strings of ASCII characters: the line terminators that [.] refuses
    are line feed and carriage return, and the white space that [trim]
    removes is the ASCII white space. *)

Definition is_line_terminator (c : ascii) : bool :=
  (c =? "010")%char || (c =? "013")%char.

Definition is_ws (c : ascii) : bool :=
  (c =? " ")%char || (c =? "009")%char || (c =? "010")%char ||
  (c =? "011")%char || (c =? "012")%char || (c =? "013")%char.

(** After an opening parenthesis: is there a closing one before the end of
    the line, i.e. does [\(.*?\)] match here? *)
Fixpoint closes (r : string) : bool :=
  match r with
  | EmptyString => false
  | String c r' =>
      if (c =? ")")%char then true
      else if is_line_terminator c then false
      else closes r'
  end.

(** One left-to-right pass of the global replace; [skipping] holds inside
    a parenthesised group that is being removed. *)
Fixpoint strip_id (skipping : bool) (s : string) : string :=
  match s with
  | EmptyString => EmptyString
  | String c r =>
      if skipping then
        if (c =? ")")%char then strip_id false r else strip_id true r
      else if (c =? "_")%char then
        if str_eqb r "g" || str_eqb r "l" then EmptyString
        else String " " (strip_id false r)
      else if (c =? "(")%char && closes r then strip_id true r
      else String c (strip_id false r)
  end.

Fixpoint trimStart (s : string) : string :=
  match s with
  | String c r => if is_ws c then trimStart r else s
  | EmptyString => EmptyString
  end.

Fixpoint trimEnd (s : string) : string :=
  match s with
  | EmptyString => EmptyString
  | String c r =>
      match trimEnd r with
      | EmptyString => if is_ws c then EmptyString else String c EmptyString
      | r' => String c r'
      end
  end.

Definition trim (s : string) : string := trimEnd (trimStart s).

Definition clean_id (id : string) : string := trim (strip_id false id).

(** ** The narrator ([createNarrator]) *)

Section Narrator.

Context {ops : JsNumber}.
Variable materialRegistry : string -> option Material.
Variable reactions : list Reaction.

(** The property key that [Object.fromEntries] makes of [r.id]. *)
Definition rx_key (r : Reaction) : string :=
  match rx_id r with Some id => id | None => "undefined" end.

(** The property names that a plain object inherits from
    [Object.prototype]. *)
Definition inherited_names : list string :=
  ["constructor"; "__defineGetter__"; "__defineSetter__"; "hasOwnProperty";
   "__lookupGetter__"; "__lookupSetter__"; "isPrototypeOf";
   "propertyIsEnumerable"; "toString"; "valueOf"; "__proto__";
   "toLocaleString"].

(** An inherited member read as a reaction: it is truthy, and [id],
    [equation], [stoich], [phases], [effects] and [tags] are all
    [undefined] on it. *)
Definition inherited_member : Reaction :=
  mkReaction None None [] None no_effects [].

(** [rxIndex[id]] for
    [rxIndex = Object.fromEntries(reactions.map(r => [r.id, r]))]: a later
    reaction with the same id overwrites an earlier one, and a name that
    no reaction carries is looked up in the prototype. *)
Definition rxIndex (id : string) : option Reaction :=
  match find (fun r => str_eqb (rx_key r) id) (rev reactions) with
  | Some r => Some r
  | None => if mem_str id inherited_names then Some inherited_member else None
  end.

Definition tag (rx : Reaction) (key : string) : bool :=
  existsb (fun t => includes t key) (rx_tags rx).

Definition exoLevel (rx : Reaction) : option string :=
  find (fun t => startsWith t "exothermic") (rx_tags rx).

Definition niceName (id : string) : string :=
  match materialRegistry id with
  | Some m =>
      if truthy_str (m_displayName m)
      then match m_displayName m with Some d => d | None => clean_id id end
      else clean_id id
  | None => clean_id id
  end.

Definition is_str (x : option string) (v : string) : bool :=
  match x with Some s => str_eqb s v | None => false end.

Definition add_tag (t : string) (tags : list string) : list string :=
  if mem_str t tags then tags else (tags ++ [t])%list.

Definition hazardsFor (id : string) : list string :=
  match materialRegistry id with
  | None => []
  | Some m =>
      let tags := uniq (m_hazardTags m) in
      let tags := if is_str (m_flammability m) "high"
                  then add_tag "flammable" tags else tags in
      let tags := if is_str (m_corrosivity m) "base"
                     || is_str (m_corrosivity m) "acid"
                  then add_tag "caustic" tags else tags in
      let tags := if is_str (m_corrosivity m) "oxidizer"
                     || mem_str "oxidizer" tags
                  then add_tag "oxidizer" tags else tags in
      let tags := if is_str (m_toxicity m) "high"
                  then add_tag "toxic" tags else tags in
      tags
  end.

Definition colorWord (id : string) : option string :=
  match materialRegistry id with
  | Some m => if truthy_str (m_color m) then m_color m else None
  | None => None
  end.

Definition phaseSTPOf (id : string) : option string :=
  match materialRegistry id with
  | Some m => m_phaseSTP m
  | None => None
  end.

(** [rx?.phases?.[id] || materialRegistry.get(id)?.phaseSTP], as far as it
    is compared with a phase.  The lookup in [rx.phases] finds, for a name
    that is not a key of the object but is inherited from
    [Object.prototype], the inherited member: it is truthy, so that the
    registry is not consulted, and it is no phase. *)
Definition phaseOf (id : string) (rx : Reaction) : option string :=
  match rx_phases rx with
  | Some phases =>
      match obj_get phases id with
      | Some ph => if truthy_str (Some ph) then Some ph else phaseSTPOf id
      | None => if mem_str id inherited_names then None else phaseSTPOf id
      end
  | None => phaseSTPOf id
  end.

Definition isGasProduct (id : string) (rx : Reaction) : bool :=
  is_str (phaseOf id rx) "g" || endsWith id "_g" || endsWith id "(g)".

Definition isSolidProduct (id : string) (rx : Reaction) : bool :=
  is_str (phaseOf id rx) "s" || endsWith id "(s)".

Definition corrosivityOf (id : string) : option string :=
  match materialRegistry id with
  | Some m => m_corrosivity m
  | None => None
  end.

Definition isBasicProduct (id : string) : bool :=
  is_str (corrosivityOf id) "base".

Definition isAcidicProduct (id : string) : bool :=
  is_str (corrosivityOf id) "acid".

(** *** The causal selector *)

Definition PickState : Type := (option (Activity * Reaction) * option Q)%type.

(** [score > bestScore], where [bestScore] starts at [-Infinity]. *)
Definition beats (score : Q) (bestScore : option Q) : bool :=
  match bestScore with
  | None => true
  | Some b => Qgtb score b
  end.

Definition pick_step (predicate : option (Activity -> Reaction -> bool))
           (st : PickState) (entry : option Activity) : PickState :=
  match entry with
  | None => st
  | Some e =>
      if Qle_bool (num_or0 (e_extent e)) 0 then st
      else
        match rxIndex (e_id e) with
        | None => st
        | Some rx =>
            if match predicate with
               | Some p => negb (p e rx)
               | None => false
               end
            then st
            else
              let score := num_or0 (e_extent e) in
              if beats score (snd st) then (Some (e, rx), Some score)
              else st
        end
  end.

Definition pickActivity (tile : Tile)
           (predicate : option (Activity -> Reaction -> bool))
  : option (Activity * Reaction) :=
  fst (fold_left (pick_step predicate) (tile_activity tile) (None, None)).

(** *** The four causal questions *)

Definition heatPredicate (e : Activity) (rx : Reaction) : bool :=
  e_heat e
  || Qgtb (num_or0 (fx_heatPerUnit (rx_effects rx))) 0
  || existsb (fun t => startsWith t "exothermic") (rx_tags rx).

(** [niceName(rx.id)]: the registry holds no entry for [undefined], and
    [id.replace] on [undefined] throws. *)
Definition niceName_of (id : option string) : completion string :=
  match id with
  | Some id => Returns (niceName id)
  | None => Throws TypeError
  end.

Definition becauseTemp (tile : Tile) : completion (option string) :=
  match pickActivity tile (Some heatPredicate) with
  | None => Returns None
  | Some (entry, rx) =>
      let reactants := firstn 2 (map niceName (rx_reactants rx)) in
      head <- match reactants with
              | [a; b] => Returns (a ++ " and " ++ b)
              | [a] => Returns a
              | _ => niceName_of (rx_id rx)
              end ;;
      Returns
        (Some ("temperature rising because " ++ head
               ++ " react exothermically"))
  end.

Definition phProduct (dir : string) (p : Product) : bool :=
  if str_eqb dir "up" then isBasicProduct (p_id p)
  else isAcidicProduct (p_id p).

Definition phPredicate (dir : string) (e : Activity) (rx : Reaction) : bool :=
  existsb (phProduct dir) (e_products e).

Definition becausePH (tile : Tile) (dir : string) : option string :=
  match pickActivity tile (Some (phPredicate dir)) with
  | None => None
  | Some (entry, rx) =>
      let prods := filter (phProduct dir) (e_products entry) in
      let label := match prods with
                   | p :: _ => niceName (p_id p)
                   | [] => "products"
                   end in
      if str_eqb dir "up"
      then Some ("pH increasing because " ++ label ++ " (basic) is forming")
      else Some ("pH decreasing because " ++ label ++ " (acidic) is forming")
  end.

Definition gasPredicate (e : Activity) (rx : Reaction) : bool :=
  if fx_emitGas (rx_effects rx) then true
  else existsb (fun p => isGasProduct (p_id p) rx) (e_products e)
       || tag rx "gas_evolution".

(** The loop shared by [becauseGas] and [becausePressure]: the gas
    product of largest positive quantity. *)
Definition topGas_step (rx : Reaction) (st : option string * Q) (p : Product)
  : option string * Q :=
  if isGasProduct (p_id p) rx then
    let q := num_or0 (p_qty p) in
    if Qgtb q (snd st) then (Some (p_id p), q) else st
  else st.

Definition topGas (entry : Activity) (rx : Reaction) : option string :=
  fst (fold_left (topGas_step rx) (e_products entry) (None, 0)).

Definition hazardFlair (hz : list string) : string :=
  if mem_str "flammable" hz then " (flammable)"
  else if mem_str "toxic" hz then " (toxic)"
  else if mem_str "oxidizer" hz then " (oxidizer)"
  else "".

Definition becauseGas (tile : Tile) : option string :=
  match pickActivity tile (Some gasPredicate) with
  | None => None
  | Some (entry, rx) =>
      let gasId := topGas entry rx in
      let gasName := match gasId with
                     | Some g => if str_eqb g "" then "gas" else niceName g
                     | None => "gas"
                     end in
      let hz := match gasId with
                | Some g => if str_eqb g "" then [] else hazardsFor g
                | None => []
                end in
      Some ("gas increasing because " ++ gasName ++ hazardFlair hz
            ++ " is being released")
  end.

Definition pressurePredicate (e : Activity) (rx : Reaction) : bool :=
  if fx_pressurePulse (rx_effects rx) then true
  else existsb (fun p => isGasProduct (p_id p) rx) (e_products e)
       || tag rx "gas_evolution".

Definition becausePressure (tile : Tile) : option string :=
  match pickActivity tile (Some pressurePredicate) with
  | None => None
  | Some (entry, rx) =>
      let gasId := topGas entry rx in
      let gasName := match gasId with
                     | Some g => if str_eqb g "" then "gas" else niceName g
                     | None => "gas"
                     end in
      Some ("pressure building because " ++ gasName ++ " is accumulating")
  end.

(** *** Phrase library *)

Definition describeLimiter (limiter : option string) : string :=
  match limiter with
  | Some l =>
      if str_eqb l "" || str_eqb l "rate" then "rate-limited"
      else "limited by " ++ niceName l
  | None => "rate-limited"
  end.

Definition qtyOf (p : Product) : Q := num_or0 (p_qty p).

Definition describeProducts (products : list Product) (rx : Reaction)
  : option string :=
  match products with
  | [] => None
  | _ =>
      let sorted := sort_desc qtyOf products in
      let top := map (fun p => niceName (p_id p)) (firstn 3 sorted) in
      Some (join ", " top)
  end.

Definition describeHeat (rx : Reaction) (fx : Effects) : option string :=
  match exoLevel rx with
  | Some _ => Some "heating the tile"
  | None =>
      if Qgtb (num_or0 (fx_heatPerUnit fx)) 0 then Some "heating the tile"
      else None
  end.

(** The product loop of [describeGas]: the first gas product, replaced by
    any later gas product of strictly larger quantity. *)
Definition productGas_step (rx : Reaction) (st : option string * Q)
           (p : Product) : option string * Q :=
  if isGasProduct (p_id p) rx then
    let qty := num_or0 (p_qty p) in
    if negb (truthy_str (fst st)) || Qgtb qty (snd st)
    then (Some (p_id p), qty) else st
  else st.

Definition productGasOf (rx : Reaction) (products : list Product)
  : option string * Q :=
  fold_left (productGas_step rx) products (None, 0).

(** [Object.entries(tile?.gas || {}).filter(...).sort(...)[0]] *)
Definition tileGasOf (tile : option (list (string * Q)))
  : option (string * Q) :=
  match tile with
  | None => None
  | Some g =>
      hd_error (sort_desc snd (filter (fun kv => Qgtb (snd kv) (dbl 0.05)) g))
  end.

Definition describeGas (rx : Reaction) (fx : Effects)
           (products : list Product) (tile : option (list (string * Q)))
  : option string :=
  let rxSaysGas := tag rx "gas_evolution" in
  let fxAddsGas := fx_emitGas fx in
  let productGas := fst (productGasOf rx products) in
  let productGasQty := snd (productGasOf rx products) in
  let label :=
    match tileGasOf tile with
    | Some (id, val) =>
        if negb (truthy_str productGas)
           || Qgtb val (num_mul productGasQty 1.25)
        then Some id else None
    | None => None
    end in
  let label :=
    if negb (truthy_str label) && truthy_str productGas then productGas
    else label in
  if truthy_str label then
    match label with
    | Some l =>
        Some ("releasing " ++ niceName l ++ hazardFlair (hazardsFor l))
    | None => None
    end
  else if rxSaysGas || fxAddsGas || truthy_str productGas
  then Some "releasing gas"
  else None.

Fixpoint replace_underscores (s : string) : string :=
  match s with
  | EmptyString => EmptyString
  | String c r =>
      String (if (c =? "_")%char then " "%char else c) (replace_underscores r)
  end.

Definition reactionLabel (rx : Reaction) : string :=
  if truthy_str (rx_equation rx)
  then match rx_equation rx with Some e => e | None => "" end
  else replace_underscores
         (if truthy_str (rx_id rx)
          then match rx_id rx with Some id => id | None => "" end
          else "reaction").

(** *** Production insights *)

Definition Source : Type := (Activity * Reaction)%type.

(** [productions.set(id, (productions.get(id) || []).concat(src))] on a
    [Map], which keeps the keys in insertion order. *)
Fixpoint productions_add (m : list (string * list Source)) (id : string)
         (src : Source) : list (string * list Source) :=
  match m with
  | [] => [(id, [src])]
  | (k, arr) :: r =>
      if str_eqb k id then (k, (arr ++ [src])%list) :: r
      else (k, arr) :: productions_add r id src
  end.

Definition productions_entry (m : list (string * list Source))
           (entry : option Activity) : list (string * list Source) :=
  match entry with
  | None => m
  | Some e =>
      if Qle_bool (num_or0 (e_extent e)) 0 then m
      else
        match rxIndex (e_id e) with
        | None => m
        | Some rx =>
            fold_left
              (fun m prod =>
                 if Qle_bool (num_or0 (p_qty prod)) 0 then m
                 else productions_add m (p_id prod) (e, rx))
              (e_products e) m
        end
  end.

Definition productionLine (prodId : string) (sources : list Source)
  : list string :=
  match sources with
  | [] => []
  | (entry, rx) :: _ =>
      let prodName := niceName prodId in
      let sourceLabels := uniq (map (fun s => reactionLabel (snd s)) sources) in
      let limiter :=
        match e_limiter entry with
        | Some l =>
            if str_eqb l "" || str_eqb l "rate" then None
            else Some (niceName l)
        | None => None
        end in
      let reactants := map niceName (rx_reactants rx) in
      let increase :=
        if truthy_str limiter
        then "adding more "
             ++ match limiter with Some l => l | None => "" end
        else match reactants with
             | [] => "supplying more reactants"
             | _ => "supplying more " ++ join ", " reactants
             end in
      let decrease :=
        match reactants with
        | [] => "reducing the available reactants"
        | _ => "removing " ++ join ", " reactants
        end in
      [prodName ++ " is being produced by " ++ join " and " sourceLabels
       ++ ". Increase production by " ++ increase
       ++ ". Reduce it by " ++ decrease ++ "."]
  end.

Definition buildProductionInsights (tile : Tile) : list string :=
  let productions := fold_left productions_entry (tile_activity tile) [] in
  flat_map (fun kv => productionLine (fst kv) (snd kv)) productions.

(** *** Per-reaction sentence *)

Definition isWaterId (id : string) : bool :=
  str_eqb id "H2O" || str_eqb id "H2O_g" || str_eqb id "H2O(g)"
  || str_eqb id "H2O(l)".

Definition isAcidReactant (id : string) : bool :=
  match materialRegistry id with
  | Some m => is_str (m_corrosivity m) "acid" || mem_str "acid" (m_hazardTags m)
  | None => false
  end.

Definition isBaseReactant (id : string) : bool :=
  match materialRegistry id with
  | Some m => is_str (m_corrosivity m) "base" || mem_str "base" (m_hazardTags m)
  | None => false
  end.

Definition isMetalReactant (id : string) : bool :=
  match materialRegistry id with
  | Some m => is_str (m_phaseSTP m) "s"
              && mem_str "water_reactive" (m_hazardTags m)
  | None => false
  end.

Definition actorPhrase (rx : Reaction) : string :=
  let rcts := rx_reactants rx in
  let hasWater := existsb isWaterId rcts in
  let hasAcid := existsb isAcidReactant rcts in
  let hasBase := existsb isBaseReactant rcts in
  let hasMetal := existsb isMetalReactant rcts in
  if hasAcid && hasBase then "The acid is neutralizing the base"
  else if hasMetal && hasWater then "The metal is reacting with water"
  else if hasAcid then "The acid is reacting with a reactant"
  else if hasBase then "The base is reacting with a reactant"
  else "A reaction is proceeding".

(** [consequences.splice(consequences.indexOf(old), 1, new)] when [old]
    occurs. *)
Fixpoint replace_first (old new : string) (l : list string) : list string :=
  match l with
  | [] => []
  | x :: r => if str_eqb x old then new :: r
              else x :: replace_first old new r
  end.

Definition opt_to_list (o : option string) : list string :=
  match o with Some s => [s] | None => [] end.

Definition intensityOf (entry : Activity) : Z :=
  Math_round (num_mul (Math_min 1 (num_or0 (e_extent entry))) 100).

Definition describeReactionEntry (entry : Activity) : option string :=
  match rxIndex (e_id entry) with
  | None => None
  | Some rx =>
      let fx := rx_effects rx in
      let heat := describeHeat rx fx in
      let gas := describeGas rx fx (e_products entry) (e_tile entry) in
      let consequences := (opt_to_list heat ++ opt_to_list gas)%list in
      let prods := describeProducts (e_products entry) rx in
      let consequences :=
        if truthy_str prods then
          match gas with
          | None =>
              match find (fun p => isSolidProduct (p_id p) rx)
                         (e_products entry) with
              | Some solid =>
                  let label := niceName (p_id solid) in
                  match colorWord (p_id solid) with
                  | Some col =>
                      push consequences
                        ("forming a " ++ col ++ " precipitate ("
                         ++ label ++ ")")
                  | None =>
                      push consequences
                        ("forming a precipitate (" ++ label ++ ")")
                  end
              | None =>
                  push consequences
                    ("forming "
                     ++ match prods with Some s => s | None => "" end)
              end
          | Some _ =>
              match find (fun p => isGasProduct (p_id p) rx)
                         (e_products entry) with
              | Some gasName =>
                  replace_first "releasing gas"
                    ("releasing " ++ niceName (p_id gasName)) consequences
              | None => consequences
              end
          end
        else consequences in
      let limiter := describeLimiter (e_limiter entry) in
      let intensity := intensityOf entry in
      let consText :=
        match consequences with
        | [] => ""
        | _ => ", " ++ join " and " consequences
        end in
      Some (actorPhrase rx ++ consText ++ ". Intensity "
            ++ Z_to_string intensity ++ "%, " ++ limiter ++ ".")
  end.

(** *** Tile summary *)

Definition tempWordOf (tile : Tile) : string :=
  let tempWord :=
    if opt_cmp Qgeb (tile_temp tile) 120 then "very hot"
    else if opt_cmp Qgeb (tile_temp tile) 60 then "hot"
    else if opt_cmp Qle_bool (tile_temp tile) 0 then "freezing"
    else if opt_cmp Qltb (tile_temp tile) 20 then "cool"
    else "" in
  if str_eqb tempWord "" then "temperate" else tempWord.

Definition pHWordOf (tile : Tile) : string :=
  if opt_cmp Qle_bool (tile_pH tile) 2 then "strongly acidic"
  else if opt_cmp Qltb (tile_pH tile) 6 then "slightly acidic"
  else if opt_cmp Qgtb (tile_pH tile) 8 && opt_cmp Qltb (tile_pH tile) 12
  then "slightly basic"
  else if opt_cmp Qgeb (tile_pH tile) 12 then "strongly basic"
  else "near neutral".

(** [Object.values(tile.gas || {}).reduce((a, v) => a + (v || 0), 0)] *)
Definition gasLevelOf (tile : Tile) : Q :=
  fold_left (fun a kv => num_add a (snd kv)) (tile_gas tile) 0.

Definition summaryBits (tile : Tile) : list string :=
  let bits := [tempWordOf tile ++ trendLabelTemp (tile_history tile)] in
  let bits := push bits (pHWordOf tile) in
  let bits := if Qgtb (gasLevelOf tile) 1 then push bits "gassy"
              else if Qgtb (gasLevelOf tile) (dbl 0.1)
              then push bits "traces of gas"
              else bits in
  if Qgtb (num_or0 (tile_pressure tile)) 4 then push bits "pressurized"
  else bits.

(** [xs.filter(Boolean)] on optional strings *)
Fixpoint filter_truthy (xs : list (option string)) : list string :=
  match xs with
  | [] => []
  | x :: r =>
      if truthy_str x
      then match x with
           | Some s => s :: filter_truthy r
           | None => filter_truthy r
           end
      else filter_truthy r
  end.

Definition trendBitsOf (tile : Tile) : list string :=
  filter_truthy [trendLabelPressure (tile_history tile);
                 trendLabelPH (tile_history tile);
                 trendLabelGas (tile_history tile)].

Definition summaryHead (tile : Tile) : string :=
  match summaryBits tile with
  | [] => "stable"
  | bits => join ", " bits
  end
  ++ match trendBitsOf tile with
     | [] => ""
     | trendBits => "; " ++ join ", " trendBits
     end.

Definition phDirection (phTrend : string) : option string :=
  if includes phTrend "basic" then Some "up"
  else if includes phTrend "acidic" then Some "down"
  else None.

Definition becauseBitsOf (tile : Tile) : completion (list string) :=
  let tempTrend := trendLabelTemp (tile_history tile) in
  let pTrend := trendLabelPressure (tile_history tile) in
  let phTrend := trendLabelPH (tile_history tile) in
  let gTrend := trendLabelGas (tile_history tile) in
  let becauseBits : list string := [] in
  becauseBits <-
    (if includes tempTrend "heating up"
     then because <- becauseTemp tile ;;
          Returns (push_truthy becauseBits because)
     else Returns becauseBits) ;;
  let becauseBits :=
    if is_str pTrend "pressure building"
    then push_truthy becauseBits (becausePressure tile)
    else becauseBits in
  let becauseBits :=
    if truthy_str phTrend then
      match phTrend with
      | Some ph =>
          match phDirection ph with
          | Some dir => push_truthy becauseBits (becausePH tile dir)
          | None => becauseBits
          end
      | None => becauseBits
      end
    else becauseBits in
  Returns
    (if is_str gTrend "gas building"
     then push_truthy becauseBits (becauseGas tile)
     else becauseBits).

Definition becauseTextOf (tile : Tile) : completion string :=
  becauseBits <- becauseBitsOf tile ;;
  Returns
    match becauseBits with
    | [] => ""
    | _ => " Because: " ++ join "; " becauseBits ++ "."
    end.

Definition speciesPairsOf (tile : Tile) : list string :=
  map (fun kv => niceName (fst kv))
      (firstn 2
         (sort_desc snd
            (filter (fun kv => Qgtb (snd kv) (dbl 0.0001))
                    (tile_species tile)))).

Definition speciesTextOf (tile : Tile) : string :=
  match speciesPairsOf tile with
  | [] => ""
  | speciesPairs => " Notable species: " ++ join ", " speciesPairs ++ "."
  end.

Definition summarizeTile (tile : Tile) : completion string :=
  becauseText <- becauseTextOf tile ;;
  Returns
    ("This tile is " ++ summaryHead tile ++ "." ++ becauseText
     ++ speciesTextOf tile).

(** *** Entry point *)

Definition extentOf (a : Activity) : Q := num_or0 (e_extent a).

(** [xs.filter(Boolean)] on optional entries *)
Fixpoint filter_Boolean {A : Type} (xs : list (option A)) : list A :=
  match xs with
  | [] => []
  | Some x :: r => x :: filter_Boolean r
  | None :: r => filter_Boolean r
  end.

(** [a._tile = tile] *)
Definition setTile (a : Activity) (tile : Tile) : Activity :=
  mkActivity (e_id a) (e_extent a) (e_limiter a) (e_heat a) (e_products a)
             (Some (tile_gas tile)).

Definition topActs (tile : Tile) : list Activity :=
  firstn 3 (sort_desc extentOf (filter_Boolean (tile_activity tile))).

Definition narrate_step (tile : Tile) (lines : list string) (a : Activity)
  : list string :=
  push_truthy lines (describeReactionEntry (setTile a tile)).

Definition narrateTile (tile : Tile) : completion (list string) :=
  summary <- summarizeTile tile ;;
  let lines := [summary] in
  let acts := topActs tile in
  let lines := fold_left (narrate_step tile) acts lines in
  let productionLines := buildProductionInsights tile in
  let lines := (lines ++ productionLines)%list in
  Returns
    (if (List.length acts =? 0)%nat && (List.length productionLines =? 0)%nat
     then push lines "No active reactions detected."
     else lines).

End Narrator.

(** ** The history store ([history.js]) *)

Definition HISTORY_DURATION_MS : Q := 10000.
Definition HISTORY_SAMPLE_MS : Q := 150.

Definition setHistory (tile : Tile) (h : option (list Sample))
           (m : option HistoryMeta) : Tile :=
  mkTile (tile_temp tile) (tile_pH tile) (tile_moisture tile)
         (tile_pressure tile) (tile_gas tile) (tile_species tile)
         h m (tile_activity tile).

(** The effect of [ensureHistoryBuffer] on the tile. *)
Definition ensureHistoryBuffer (tile : Tile) : Tile :=
  setHistory tile
    (match tile_history tile with None => Some [] | h => h end)
    (match tile_historyMeta tile with
     | None => Some (mkMeta None)
     | m => m
     end).

Definition subscribeHistory (tile : Tile) : Tile := ensureHistoryBuffer tile.

(** The effect of [unsubscribeHistory] on the tile. *)
Definition unsubscribeHistory (tile : Tile) (clear : bool) : Tile :=
  setHistory tile
    (match tile_history tile with
     | Some h => if clear then Some [] else Some h
     | None => None
     end)
    (match tile_historyMeta tile with
     | Some _ => Some (mkMeta None)
     | None => None
     end).

(** [historySubscribers.clear()] *)
Definition clearSubscribers (historySubscribers : list Tile) : list Tile := [].

(** [now - (meta.lastSampleAt || -Infinity) < HISTORY_SAMPLE_MS]; a last
    sample time of [0] is falsy and reads as [-Infinity]. *)
Definition tooSoon {ops : JsNumber} (now : Q) (meta : option HistoryMeta)
  : bool :=
  match meta with
  | None => false
  | Some m =>
      match lastSampleAt m with
      | None => false
      | Some l =>
          if Qeq_bool l 0 then false
          else Qltb (num_sub now l) HISTORY_SAMPLE_MS
      end
  end.

(** [while (history.length && history[0].t < cutoff) history.shift()] *)
Fixpoint expire (cutoff : Q) (h : list Sample) : list Sample :=
  match h with
  | [] => []
  | s :: r => if Qltb (s_t s) cutoff then expire cutoff r else h
  end.

(** [{ t: now, temp: tile.temp, pressure: tile.pressure || 0 }] *)
Definition sampleOf (now : Q) (tile : Tile) : Sample :=
  mkSample now (tile_temp tile) (Some (num_or0 (tile_pressure tile))) None None.

(** The body of the loop of [recordSubscribedHistories] for one tile. *)
Definition recordTile {ops : JsNumber} (now : Q) (tile : Tile) : Tile :=
  let cutoff := num_sub now HISTORY_DURATION_MS in
  let tile := ensureHistoryBuffer tile in
  match tile_history tile with
  | None => tile
  | Some history =>
      let meta := tile_historyMeta tile in
      if tooSoon now meta then tile
      else
        let history := push history (sampleOf now tile) in
        let meta := match meta with
                    | Some _ => Some (mkMeta (Some now))
                    | None => None
                    end in
        let history := expire cutoff history in
        let history := if (200 <? List.length history)%nat then tl history
                       else history in
        setHistory tile (Some history) meta
  end.

(** The subscriber set, in insertion order, with the state of each tile. *)
Definition recordSubscribedHistories {ops : JsNumber} (now : Q)
           (historySubscribers : list Tile) : list Tile :=
  match historySubscribers with
  | [] => []
  | _ => map (recordTile now) historySubscribers
  end.

(** Whether the call at [now] appends a sample to the tile's history. *)
Definition appends {ops : JsNumber} (now : Q) (tile : Tile) : bool :=
  negb (tooSoon now (tile_historyMeta (ensureHistoryBuffer tile))).

Definition historyOf (tile : Tile) : list Sample :=
  match tile_history tile with Some h => h | None => [] end.

(** ** The inspector ([inspector.js])

    The pure computations of the inspector panel: the clamp of a
    percentage, the colour of a species row and, of [_updateSpeciesList],
    the rows it lists with the width and the colour of their bars.  The
    markup, the cached signatures and the rendering of numbers with
    [toFixed] are not part of the embedding. *)

(** [Math.max] *)
Definition Math_max (x y : Q) : Q := if Qle_bool x y then y else x.

Definition clampPercent (value : Q) : Q := Math_max 0 (Math_min 100 value).

Module SPECIES_COLORS.
Definition acid : string := "#ff6e6b".
Definition base : string := "#5fa7ff".
Definition gas : string := "#b8ff66".
Definition solid : string := "#eaeff5".
Definition neutral : string := "#9ea9ff".
End SPECIES_COLORS.

Definition colorForSpecies (id bag : string)
           (materialRegistry : string -> option Material) : string :=
  if str_eqb bag "gas" then SPECIES_COLORS.gas
  else if str_eqb bag "solids" then SPECIES_COLORS.solid
  else
    let mat := materialRegistry id in
    let corrosivity :=
      match mat with
      | Some m => match m_corrosivity m with Some c => c | None => "" end
      | None => ""
      end in
    let tags := match mat with Some m => m_hazardTags m | None => [] end in
    let phaseSTP := match mat with Some m => m_phaseSTP m | None => None end in
    if mem_str "acid" tags || includes corrosivity "acid"
    then SPECIES_COLORS.acid
    else if mem_str "base" tags || includes corrosivity "base"
    then SPECIES_COLORS.base
    else if is_str phaseSTP "g" || endsWith id "_g" || endsWith id "(g)"
    then SPECIES_COLORS.gas
    else if is_str phaseSTP "s" || endsWith id "(s)"
    then SPECIES_COLORS.solid
    else SPECIES_COLORS.neutral.

(** [Object.entries(entries || {}).filter(([, value]) => value > 0.0001)
    .sort((a, b) => b[1] - a[1]).slice(0, 8)] *)
Definition speciesItems (entries : list (string * Q)) : list (string * Q) :=
  firstn 8
    (sort_desc snd (filter (fun kv => Qgtb (snd kv) (dbl 0.0001)) entries)).

(** The rows of [_updateSpeciesList]: the species id, the width of its bar,
    [clampPercent(Math.max(4, (value / items[0][1]) * 100))], and the
    colour of the bar. *)
Definition speciesBars {ops : JsNumber} (entries : list (string * Q))
           (bag : string) (materialRegistry : string -> option Material)
  : list (string * Q * string) :=
  let items := speciesItems entries in
  match items with
  | [] => []
  | (_, top) :: _ =>
      map (fun kv =>
             (fst kv,
              clampPercent (Math_max 4 (num_mul (num_div (snd kv) top) 100)),
              colorForSpecies (fst kv) bag materialRegistry))
          items
  end.

(** ** Vocabulary of the statements *)

(** The tile with another activity list. *)
Definition withActivity (tile : Tile) (acts : list (option Activity)) : Tile :=
  mkTile (tile_temp tile) (tile_pH tile) (tile_moisture tile)
         (tile_pressure tile) (tile_gas tile) (tile_species tile)
         (tile_history tile) (tile_historyMeta tile) acts.





(** Adjacent elements are in decreasing order of their keys. *)
Fixpoint sorted_desc {A : Type} (key : A -> Q) (l : list A) : Prop :=
  match l with
  | [] => True
  | x :: r =>
      match r with
      | [] => True
      | y :: _ => key y <= key x
      end /\ sorted_desc key r
  end.

(** The only length cap of the store: one more [shift] above 200. *)
Definition cap (h : list Sample) : list Sample :=
  if (200 <? List.length h)%nat then tl h else h.

(** Sample times never decrease along the history. *)
Fixpoint ascending (h : list Sample) : Prop :=
  match h with
  | [] => True
  | s :: r => (forall s', In s' r -> s_t s <= s_t s') /\ ascending r
  end.

(** Every call time is at least every earlier one; the list holds the most
    recent call first. *)
Fixpoint nondecreasing_calls (nows : list Q) : Prop :=
  match nows with
  | [] => True
  | now :: earlier =>
      (forall t, In t earlier -> t <= now) /\ nondecreasing_calls earlier
  end.

(** What the store maintains for the history of a subscribed tile, given
    the times of the recording calls made so far. *)
Definition store_good (nows : list Q) (tile : Tile) : Prop :=
  (List.length (historyOf tile) <= 200)%nat
  /\ (forall s, In s (historyOf tile) ->
                In (s_t s) nows /\ s_pH s = None /\ s_gasSum s = None)
  /\ (nondecreasing_calls nows -> ascending (historyOf tile)).

(** Two states of a tile that differ at most outside the history buffer:
    what the simulation changes between two recordings. *)
Definition same_buffer (a b : Tile) : Prop :=
  tile_history a = tile_history b /\ tile_historyMeta a = tile_historyMeta b.

(** The states that the store can reach: the subscriber set (in insertion
    order) and the tiles it has released, which keep their buffers, with
    the times of the recording calls made so far (most recent first). *)
Inductive StoreTrace {ops : JsNumber}
  : list Q -> list Tile -> list Tile -> Prop :=
| trace_empty : StoreTrace [] [] []
| trace_subscribe nows subs idle tile :
    StoreTrace nows subs idle ->
    historyOf tile = [] ->
    StoreTrace nows (subs ++ [subscribeHistory tile]) idle
| trace_unsubscribe nows pre tile post idle clear :
    StoreTrace nows (pre ++ tile :: post) idle ->
    StoreTrace nows (pre ++ post) (unsubscribeHistory tile clear :: idle)
| trace_unsubscribe_idle nows subs pre tile post clear :
    StoreTrace nows subs (pre ++ tile :: post) ->
    StoreTrace nows subs (pre ++ unsubscribeHistory tile clear :: post)
| trace_resubscribe nows subs pre tile post :
    StoreTrace nows subs (pre ++ tile :: post) ->
    StoreTrace nows (subs ++ [subscribeHistory tile]) (pre ++ post)
| trace_clear nows subs idle :
    StoreTrace nows subs idle ->
    StoreTrace nows (clearSubscribers subs) (subs ++ idle)
| trace_simulate nows subs subs' idle idle' :
    StoreTrace nows subs idle ->
    Forall2 same_buffer subs subs' ->
    Forall2 same_buffer idle idle' ->
    StoreTrace nows subs' idle'
| trace_record nows subs idle now :
    StoreTrace nows subs idle ->
    StoreTrace (now :: nows) (recordSubscribedHistories now subs) idle.

(** What an activity entry contributes to the production insights: one
    pair of a product id and the entry with its reaction for every product
    of positive quantity, when the entry counts. *)
Definition contributionsOf (reactions : list Reaction)
           (entry : option Activity) : list (string * Source) :=
  match entry with
  | None => []
  | Some e =>
      if Qle_bool (extentOf e) 0 then []
      else match rxIndex reactions (e_id e) with
           | None => []
           | Some rx =>
               map (fun p => (p_id p, (e, rx)))
                   (filter (fun p => negb (Qle_bool (qtyOf p) 0))
                           (e_products e))
           end
  end.

Definition contributions (reactions : list Reaction) (tile : Tile)
  : list (string * Source) :=
  flat_map (contributionsOf reactions) (tile_activity tile).

(** The sources of one product among the contributions, in their order. *)
Definition sourcesOf (id : string) (cs : list (string * Source))
  : list Source :=
  map snd (filter (fun c => str_eqb (fst c) id) cs).

(** The contributions grouped by product id, the ids in the order of their
    first occurrence. *)
Definition grouped (cs : list (string * Source))
  : list (string * list Source) :=
  map (fun id => (id, sourcesOf id cs)) (uniq (map fst cs)).

Definition isUp (t : Trend) : bool :=
  match t with up => true | _ => false end.

(** A causal clause that is asked for only when its trend fired, and that
    is present only when a cause was found. *)
Definition gate (fired : bool) (because : option string) : list string :=
  if fired then
    match because with Some s => [s] | None => [] end
  else [].

(** The clause of a question that may throw: the question is asked only
    when its trend fired. *)
Definition gated (fired : bool) (because : completion (option string))
  : completion (list string) :=
  if fired then (b <- because ;; Returns (gate true b)) else Returns [].

(** What the loop of [becauseGas] and [becausePressure] knows after the
    products [seen]: no gas product of positive quantity so far, or the
    first gas product of greatest quantity. *)
Definition gas_best (materialRegistry : string -> option Material)
           (rx : Reaction) (seen : list Product) (st : option string * Q)
  : Prop :=
  match fst st with
  | None =>
      snd st = 0
      /\ forall p, In p seen ->
                   isGasProduct materialRegistry (p_id p) rx = true ->
                   ~ 0 < qtyOf p
  | Some g =>
      exists pre p post,
        seen = (pre ++ p :: post)%list
        /\ p_id p = g
        /\ isGasProduct materialRegistry (p_id p) rx = true
        /\ snd st = qtyOf p
        /\ 0 < qtyOf p
        /\ (forall x, In x pre ->
                      isGasProduct materialRegistry (p_id x) rx = true ->
                      qtyOf x < qtyOf p)
        /\ (forall x, In x post ->
                      isGasProduct materialRegistry (p_id x) rx = true ->
                      qtyOf x <= qtyOf p)
  end.

(** ** Example data *)

Module Examples.

Definition registry (id : string) : option Material :=
  if str_eqb id "HCl"
  then Some (mkMaterial None (Some "l") (Some "acid") [] None None None)
  else if str_eqb id "NaOH"
  then Some (mkMaterial None (Some "s") (Some "base") [] None None None)
  else if str_eqb id "H2O"
  then Some (mkMaterial (Some "water") (Some "l") None [] None None None)
  else None.

(** The cell of the first scenario. *)
Definition quietCell : Tile :=
  mkTile (Some 25) (Some 7.0) (Some 0.5) (Some 0) [] [] (Some []) None [].

Definition neutralization : Reaction :=
  mkReaction (Some "neutralize") None ["HCl"; "NaOH"] None no_effects [].

(** The same reaction, tagged as the catalogue tags heat release. *)
Definition exoNeutralization : Reaction :=
  mkReaction (Some "neutralize") None ["HCl"; "NaOH"] None no_effects
             ["exothermic"].

Definition neutralizing : Activity :=
  mkActivity "neutralize" (Some (dbl 0.8)) None false
             [mkProduct "H2O" (Some 2.0)] None.

(** A reaction that only carries the gas-evolution tag. *)
Definition fizzing : Reaction :=
  mkReaction (Some "fizz") None [] None no_effects ["gas_evolution"].

Definition fizzingNow : Activity :=
  mkActivity "fizz" (Some 0.5) None false [] None.

(** A heat-releasing entry whose reaction id is a name that every object
    inherits. *)
Definition inheritedHeat : Activity :=
  mkActivity "constructor" (Some 0.5) None true [] None.

(** A cell that warms from 20 to 25 degrees in five seconds, with that
    entry. *)
Definition warmingCell : Tile :=
  mkTile (Some 25) (Some 7.0) (Some 0.5) (Some 0) [] []
         (Some [mkSample 0 (Some 20) (Some 0) None None;
                mkSample 5000 (Some 25) (Some 0) None None])
         None [Some inheritedHeat].

(** An entry whose reaction is not in the catalogue. *)
Definition stale : Activity :=
  mkActivity "ghost" (Some 0.5) None false [] None.

Definition staleCell : Tile := withActivity quietCell [Some stale].

(** The store after the quiet cell is subscribed and recorded once. *)
Definition storeAt1000 : list Tile :=
  recordSubscribedHistories 1000 ([] ++ [subscribeHistory quietCell]).

(** The quiet cell recorded at 20000, then released and subscribed again,
    and recorded at 5000. *)
Definition storeAt20000 : list Tile :=
  recordSubscribedHistories 20000 ([] ++ [subscribeHistory quietCell]).

Definition storeAt5000 : list Tile :=
  recordSubscribedHistories 5000
    (([] ++ [])
     ++ map (fun tile => subscribeHistory (unsubscribeHistory tile false))
            storeAt20000).

Definition neutralizingAt (extent : Q) : Activity :=
  mkActivity "neutralize" (Some extent) None false
             [mkProduct "H2O" (Some 2.0)] None.

(** Four entries, the stale one among the three of highest extent. *)
Definition crowdedCell : Tile :=
  withActivity quietCell
    [Some stale; Some (neutralizingAt (dbl 0.8));
     Some (neutralizingAt (dbl 0.7)); Some (neutralizingAt (dbl 0.1))].

(** A window whose pH drifts by exactly 0.02. *)
Definition driftWindow : list Sample :=
  [mkSample 0 None None (Some 0) None;
   mkSample 1000 None None (Some (dbl 0.02)) None].

Definition warming : list Sample :=
  [mkSample 0 (Some 20) (Some 0) None None;
   mkSample 5000 (Some 25) (Some 0) None None].

End Examples.

(** ** Comparisons *)

Lemma Qltb_true (x y : Q) : Qltb x y = true <-> x < y.
Proof.
  unfold Qltb. rewrite negb_true_iff. split.
  - intro H. apply Qnot_le_lt. intro Hle.
    apply Qle_bool_iff in Hle. congruence.
  - intro H. destruct (Qle_bool y x) eqn:E; [|reflexivity].
    apply Qle_bool_iff in E. exfalso. exact (Qlt_not_le _ _ H E).
Qed.

Lemma Qltb_false (x y : Q) : Qltb x y = false <-> ~ x < y.
Proof.
  rewrite <- Qltb_true. destruct (Qltb x y); split; congruence.
Qed.

Lemma Qle_bool_false (x y : Q) : Qle_bool x y = false <-> ~ x <= y.
Proof.
  rewrite <- Qle_bool_iff. destruct (Qle_bool x y); split; congruence.
Qed.

Lemma Qgtb_true (x y : Q) : Qgtb x y = true <-> y < x.
Proof. apply Qltb_true. Qed.

Lemma Qgtb_false (x y : Q) : Qgtb x y = false <-> ~ y < x.
Proof. apply Qltb_false. Qed.

(** ** The window of a trend query *)

(** The [lastN] window of a history of at least two samples: it starts at
    index [length - min 3 length] and ends with the last sample. *)
Lemma lastN_window (h : list Sample) (d : Sample) :
  (2 <= List.length h)%nat ->
  exists w,
    lastN (Some h) 3 = Some w
    /\ w = skipn (List.length h - Nat.min 3 (List.length h)) h
    /\ (List.length w <? 2)%nat = false
    /\ nth_error w 0
       = Some (nth (List.length h - Nat.min 3 (List.length h)) h d)
    /\ last_sample w = Some (nth (List.length h - 1) h d).
Proof.
  intro Hn. unfold lastN.
  assert (E : (List.length h <? 2)%nat = false) by (apply Nat.ltb_ge; lia).
  rewrite E. eexists. split; [reflexivity|]. split; [reflexivity|].
  set (k := Nat.min 3 (List.length h)).
  assert (Hk : (2 <= k <= List.length h)%nat) by (unfold k; lia).
  assert (Hw : List.length (skipn (List.length h - k) h) = k)
    by (rewrite length_skipn; lia).
  split; [apply Nat.ltb_ge; lia|]. split.
  - rewrite nth_error_skipn, Nat.add_0_r. apply nth_error_nth'. lia.
  - unfold last_sample. rewrite Hw, nth_error_skipn.
    replace (List.length h - k + (k - 1))%nat with (List.length h - 1)%nat
      by lia.
    apply nth_error_nth'. lia.
Qed.

Lemma lastN_short (h : list Sample) (n : nat) :
  (List.length h < 2)%nat -> lastN (Some h) n = None.
Proof.
  intro H. unfold lastN.
  assert (E : (List.length h <? 2)%nat = true) by (apply Nat.ltb_lt; lia).
  now rewrite E.
Qed.

(** A query on the window alone selects the same window. *)
Lemma lastN_idempotent (h : list Sample) :
  lastN (Some (skipn (List.length h - Nat.min 3 (List.length h)) h)) 3
  = lastN (Some h) 3.
Proof.
  destruct (Nat.lt_ge_cases (List.length h) 2) as [Hs|Hl].
  - rewrite (lastN_short h) by exact Hs. apply lastN_short.
    rewrite length_skipn. lia.
  - unfold lastN. rewrite length_skipn.
    assert (E1 : (List.length h <? 2)%nat = false) by (apply Nat.ltb_ge; lia).
    assert (E2 : (List.length h
                  - (List.length h - Nat.min 3 (List.length h)) <? 2)%nat
                 = false) by (apply Nat.ltb_ge; lia).
    rewrite E1, E2. f_equal.
    set (n := List.length h) in *.
    destruct (Nat.min_spec 3 n) as [[Hlt Hm]|[Hge Hm]]; rewrite !Hm.
    + replace (n - (n - 3))%nat with 3%nat by lia.
      replace (n - (n - 3) - Nat.min 3 3)%nat with 0%nat by lia.
      reflexivity.
    + replace (n - (n - n))%nat with n by lia. rewrite Hm.
      replace (n - n)%nat with 0%nat by lia. reflexivity.
Qed.

(** ** The embedding on small inputs *)

Example dbl_samples :
  dbl (1 # 2) == 1 # 2
  /\ dbl 100 == 100
  /\ dbl 0.1 == 3602879701896397 # 36028797018963968
  /\ dbl 0.02 == 5764607523034235 # 288230376151711744
  /\ dbl 6.8 == 7656119366529843 # 1125899906842624
  /\ dbl 9007199254740993 == 9007199254740992
  /\ dbl 9007199254740995 == 9007199254740996
  /\ dbl (dbl 0.1) == dbl 0.1
  /\ dbl (- 0.1) == - dbl 0.1.
Proof. repeat split. Qed.

(** The lookup in the reaction index of one reaction. *)
Example rxIndex_samples :
  rxIndex [Examples.neutralization] "neutralize" = Some Examples.neutralization
  /\ rxIndex [Examples.neutralization] "ghost" = None
  /\ rxIndex [Examples.neutralization] "constructor" = Some inherited_member
  /\ rxIndex [Examples.neutralization] "toString" = Some inherited_member
  /\ rxIndex [mkReaction (Some "toString") None [] None no_effects []]
             "toString"
     = Some (mkReaction (Some "toString") None [] None no_effects []).
Proof. repeat split. Qed.

(** An entry whose reaction id is an inherited name gets a sentence. *)
Example describeReactionEntry_inherited :
  describeReactionEntry Examples.registry []
    (mkActivity "constructor" (Some 0.5) None false [] None)
  = Some "A reaction is proceeding. Intensity 50%, rate-limited.".
Proof. reflexivity. Qed.

Example clean_id_samples :
  clean_id "CO2_g" = "CO2"
  /\ clean_id "Na_OH(aq)_l" = "Na OH"
  /\ clean_id " (x)a_b(" = "a b("
  /\ clean_id "H2O" = "H2O".
Proof. repeat split. Qed.

Example trendOf_samples :
  trendOf (Some Examples.warming) "temp" (dbl 0.05) = up
  /\ trendOf (Some (rev Examples.warming)) "temp" (dbl 0.05) = flat
  /\ trendOf (Some Examples.warming) "pressure" (dbl 0.02) = flat
  /\ trendOf (Some [mkSample 0 (Some 25) None None None;
                    mkSample 5000 (Some 20) None None None]) "temp" (dbl 0.05)
     = down.
Proof. repeat split. Qed.

Example pickActivity_tie :
  pickActivity [Examples.neutralization]
    (withActivity Examples.quietCell
       [Some Examples.stale;
        Some (mkActivity "neutralize" (Some 0.5) (Some "HCl") false [] None);
        Some (mkActivity "neutralize" (Some 0.5) (Some "NaOH") false [] None)])
    None
  = Some (mkActivity "neutralize" (Some 0.5) (Some "HCl") false [] None,
          Examples.neutralization).
Proof. reflexivity. Qed.

Example narrateTile_crowded :
  narrateTile Examples.registry [Examples.neutralization] Examples.crowdedCell
  = Returns
      ["This tile is temperate, near neutral.";
       "The acid is neutralizing the base, forming water. Intensity 80%, rate-limited.";
       "The acid is neutralizing the base, forming water. Intensity 70%, rate-limited.";
       "water is being produced by neutralize. Increase production by supplying more HCl, NaOH. Reduce it by removing HCl, NaOH."].
Proof. reflexivity. Qed.

Example recordSubscribedHistories_samples :
  map historyOf Examples.storeAt1000
  = [[mkSample 1000 (Some 25) (Some 0) None None]]
  /\ map historyOf (recordSubscribedHistories 1100 Examples.storeAt1000)
     = [[mkSample 1000 (Some 25) (Some 0) None None]]
  /\ map historyOf (recordSubscribedHistories 20000 Examples.storeAt1000)
     = [[mkSample 20000 (Some 25) (Some 0) None None]].
Proof. repeat split. Qed.

(** ** The first scenario and the shape of the output *)

(** C1. For the cell with temperature 25, pH 7.0, moisture 0.5, pressure 0,
    no gas, no aqueous species, no activity and an empty history,
    [narrateTile] returns exactly the summary "This tile is temperate,
    near neutral." followed by "No active reactions detected.", whatever
    the registry and the reaction catalogue. *)
Theorem narrateTile_quiet_cell {ops : JsNumber}
        (materialRegistry : string -> option Material)
        (reactions : list Reaction) :
  narrateTile materialRegistry reactions Examples.quietCell
  = Returns ["This tile is temperate, near neutral.";
             "No active reactions detected."].
Proof. reflexivity. Qed.

(** The lines of [narrateTile], without the accumulator of the loop. *)
Lemma narrate_fold {ops : JsNumber}
      (materialRegistry : string -> option Material)
      (reactions : list Reaction) (tile : Tile) (acts : list Activity) :
  forall lines,
    fold_left (narrate_step materialRegistry reactions tile) acts lines
    = (lines
       ++ filter_truthy
            (map (fun a => describeReactionEntry materialRegistry reactions
                             (setTile a tile)) acts))%list.
Proof.
  induction acts as [|a acts IH]; intro lines; simpl.
  - now rewrite app_nil_r.
  - rewrite IH. unfold narrate_step, push_truthy, push.
    destruct (truthy_str _) eqn:E.
    + destruct (describeReactionEntry _ _ _); [|discriminate].
      now rewrite <- app_assoc.
    + reflexivity.
Qed.

Lemma narrateTile_lines {ops : JsNumber}
      (materialRegistry : string -> option Material)
      (reactions : list Reaction) (tile : Tile) :
  narrateTile materialRegistry reactions tile
  = (summary <- summarizeTile materialRegistry reactions tile ;;
     Returns
       (summary
        :: filter_truthy
             (map (fun a => describeReactionEntry materialRegistry reactions
                              (setTile a tile)) (topActs tile))
        ++ buildProductionInsights materialRegistry reactions tile
        ++ (if (List.length (topActs tile) =? 0)%nat
               && (List.length
                     (buildProductionInsights materialRegistry reactions tile)
                   =? 0)%nat
            then ["No active reactions detected."] else []))%list).
Proof.
  unfold narrateTile.
  destruct (summarizeTile materialRegistry reactions tile) as [summary|e];
    [|reflexivity].
  simpl. rewrite narrate_fold. unfold push.
  destruct (_ && _); simpl.
  - now rewrite <- app_assoc.
  - now rewrite app_nil_r.
Qed.

Lemma prefix_append (p r : string) : String.prefix p (p ++ r) = true.
Proof.
  induction p as [|c p IH]; simpl.
  - destruct r; reflexivity.
  - destruct (ascii_dec c c) as [_|Hne]; [exact IH|now elim Hne].
Qed.

(** ** The trend analyzer *)

(** [trendOf] on a history of at least two samples, in terms of the first
    and the last sample of its window. *)
Lemma trendOf_run {ops : JsNumber} (h : list Sample) (field : string)
      (eps : Q) (d : Sample) :
  (2 <= List.length h)%nat ->
  let first := nth (List.length h - Nat.min 3 (List.length h)) h d in
  let last := nth (List.length h - 1) h d in
  let dt := num_div (num_sub (s_t last) (s_t first)) 1000 in
  let slope := num_div (num_sub (num_or0 (sample_get last field))
                                (num_or0 (sample_get first field))) dt in
  trendOf (Some h) field eps
  = if Qle_bool dt 0 then flat
    else if Qgtb slope eps then up
         else if Qltb slope (- eps) then down else flat.
Proof.
  intro Hn. unfold trendOf.
  destruct (lastN_window h d Hn) as (w & Hw & _ & Hlen & Hfirst & Hlast).
  rewrite Hw, Hlen, Hfirst, Hlast. reflexivity.
Qed.

(** C2. [trendOf] reads only the last [min 3 length] samples.  It is flat
    for fewer than two samples, and flat when the elapsed seconds between
    the first and the last sample of that window are not positive.
    Otherwise, with missing field values read as 0 and the slope taken as
    the difference of the values over the elapsed seconds, it is up when
    the slope exceeds epsilon, down when (not up and) the slope is below
    minus epsilon, and flat in the remaining case.  The elapsed seconds and
    the slope are the numbers that the arithmetic of doubles gives for
    these two expressions, whatever its rounding. *)
Theorem trendOf_spec {ops : JsNumber} (h : list Sample) (field : string)
        (eps : Q) (d : Sample) :
  let n := List.length h in
  let k := Nat.min 3 n in
  let first := nth (n - k) h d in
  let last := nth (n - 1) h d in
  let elapsedSeconds := num_div (num_sub (s_t last) (s_t first)) 1000 in
  let slope := num_div (num_sub (num_or0 (sample_get last field))
                                (num_or0 (sample_get first field)))
                       elapsedSeconds in
  trendOf None field eps = flat
  /\ trendOf (Some h) field eps = trendOf (Some (skipn (n - k) h)) field eps
  /\ ((n < 2)%nat -> trendOf (Some h) field eps = flat)
  /\ ((2 <= n)%nat -> elapsedSeconds <= 0 -> trendOf (Some h) field eps = flat)
  /\ ((2 <= n)%nat -> 0 < elapsedSeconds ->
      (eps < slope -> trendOf (Some h) field eps = up)
      /\ (~ eps < slope -> slope < - eps -> trendOf (Some h) field eps = down)
      /\ (0 <= eps -> slope < - eps -> trendOf (Some h) field eps = down)
      /\ (~ eps < slope -> ~ slope < - eps ->
          trendOf (Some h) field eps = flat)).
Proof.
  intros n k first last elapsedSeconds slope.
  split; [reflexivity|].
  split; [unfold trendOf, k, n; now rewrite lastN_idempotent|].
  split; [intro Hn; unfold trendOf; now rewrite lastN_short|].
  assert (Hrun := trendOf_run h field eps d).
  cbv zeta in Hrun.
  fold n k first last elapsedSeconds slope in Hrun.
  split.
  - intros Hn Hel. rewrite (Hrun Hn).
    apply Qle_bool_iff in Hel. now rewrite Hel.
  - intros Hn Hel. rewrite (Hrun Hn).
    assert (E : Qle_bool elapsedSeconds 0 = false)
      by (apply Qle_bool_false; now apply Qlt_not_le).
    rewrite E. repeat split.
    + intro Hup. apply Qgtb_true in Hup. now rewrite Hup.
    + intros Hnup Hdown. apply Qgtb_false in Hnup. apply Qltb_true in Hdown.
      now rewrite Hnup, Hdown.
    + intros Heps Hdown.
      assert (Hnup : ~ eps < slope).
      { intro Hup. apply (Qlt_irrefl slope).
        apply Qlt_le_trans with (- eps); [exact Hdown|].
        apply Qle_trans with 0.
        - apply (Qopp_le_compat 0 eps) in Heps. exact Heps.
        - apply Qle_trans with eps; [exact Heps|]. now apply Qlt_le_weak. }
      apply Qgtb_false in Hnup. apply Qltb_true in Hdown.
      now rewrite Hnup, Hdown.
    + intros Hnup Hndown. apply Qgtb_false in Hnup.
      apply Qltb_false in Hndown. now rewrite Hnup, Hndown.
Qed.

Lemma trendOf_spec_witness :
  trendOf (Some Examples.warming) "temp" (dbl 0.05) = up.
Proof.
  destruct (trendOf_spec Examples.warming "temp" (dbl 0.05)
                         (mkSample 0 None None None None))
    as (_ & _ & _ & _ & H).
  destruct H as (Hup & _).
  - simpl. lia.
  - vm_compute. reflexivity.
  - apply Hup. vm_compute. reflexivity.
Defined.

(** ** The pH trend clause *)

(** [trendLabelPH] on a history of at least two samples, in terms of the
    first and the last sample of its window. *)
Lemma trendLabelPH_run {ops : JsNumber} (h : list Sample) (d : Sample) :
  (2 <= List.length h)%nat ->
  trendLabelPH (Some h)
  = match s_pH (nth (List.length h - Nat.min 3 (List.length h)) h d),
          s_pH (nth (List.length h - 1) h d) with
    | Some first, Some last =>
        if Qltb (Qabs (num_sub last first)) (dbl 0.02) then None
        else if Qgtb last (dbl 6.8) && Qltb last (dbl 7.2)
        then Some "neutralizing"
        else if Qgtb (num_sub last first) 0 then Some "becoming more basic"
        else Some "becoming more acidic"
    | _, _ => None
    end.
Proof.
  intro Hn. unfold trendLabelPH.
  destruct (lastN_window h d Hn) as (w & Hw & _ & Hlen & Hfirst & Hlast).
  rewrite Hw, Hlen, Hfirst, Hlast. reflexivity.
Qed.

(** C5, the claim as stated fails: over a window whose pH goes from 0 to
    0.02 the net drift is exactly 0.02 (the difference with zero does not
    round), which does not exceed 0.02, and yet the clause "becoming more
    basic" is emitted. *)
Lemma trendLabelPH_drift_of_exactly_002 :
  map s_pH Examples.driftWindow = [Some 0; Some (dbl 0.02)]
  /\ ~ dbl 0.02 < Qabs (num_sub (dbl 0.02) 0)
  /\ trendLabelPH (Some Examples.driftWindow) = Some "becoming more basic".
Proof.
  split; [reflexivity|]. split; [|reflexivity].
  intro H. vm_compute in H. discriminate.
Qed.

(** C5, amended.  With pH defined on the first and the last sample of the
    window, a pH clause is emitted if and only if the net drift, the
    difference of the two pH values as the arithmetic of doubles gives it,
    is at least 0.02 in absolute value; an emitted clause is "neutralizing"
    when the last pH lies strictly between 6.8 and 7.2, and otherwise
    "becoming more basic" for a positive drift and "becoming more acidic"
    for a negative one.  The drift is positive exactly when the last pH is
    above the first, and negative exactly when it is below.  With pH
    missing on either of the two samples, or with fewer than two samples,
    no clause is emitted. *)
Theorem trendLabelPH_spec {ops : JsNumber} (h : list Sample) (d : Sample) :
  let n := List.length h in
  let k := Nat.min 3 n in
  let first := nth (n - k) h d in
  let last := nth (n - 1) h d in
  ((n < 2)%nat -> trendLabelPH (Some h) = None)
  /\ ((2 <= n)%nat -> s_pH first = None \/ s_pH last = None ->
      trendLabelPH (Some h) = None)
  /\ (forall firstPH lastPH,
         (2 <= n)%nat ->
         s_pH first = Some firstPH -> s_pH last = Some lastPH ->
         let delta := num_sub lastPH firstPH in
         (trendLabelPH (Some h) <> None <-> dbl 0.02 <= Qabs delta)
         /\ (dbl 0.02 <= Qabs delta ->
             dbl 6.8 < lastPH /\ lastPH < dbl 7.2 ->
             trendLabelPH (Some h) = Some "neutralizing")
         /\ (dbl 0.02 <= Qabs delta ->
             ~ (dbl 6.8 < lastPH /\ lastPH < dbl 7.2) ->
             0 < delta ->
             trendLabelPH (Some h) = Some "becoming more basic")
         /\ (dbl 0.02 <= Qabs delta ->
             ~ (dbl 6.8 < lastPH /\ lastPH < dbl 7.2) ->
             delta < 0 ->
             trendLabelPH (Some h) = Some "becoming more acidic")
         /\ (0 < delta <-> firstPH < lastPH)
         /\ (delta < 0 <-> lastPH < firstPH)).
Proof.
  intros n k first last.
  split.
  { intro Hn. unfold trendLabelPH. now rewrite lastN_short. }
  split.
  { intros Hn Hmiss. rewrite (trendLabelPH_run h d Hn).
    fold n k first last.
    destruct Hmiss as [E|E]; rewrite E; [reflexivity|].
    now destruct (s_pH first). }
  intros firstPH lastPH Hn Hf Hl delta.
  rewrite (trendLabelPH_run h d Hn). fold n k first last.
  rewrite Hf, Hl. fold delta.
  assert (Hband : Qgtb lastPH (dbl 6.8) && Qltb lastPH (dbl 7.2) = true
                  <-> (dbl 6.8) < lastPH /\ lastPH < (dbl 7.2)).
  { rewrite andb_true_iff, Qgtb_true, Qltb_true. reflexivity. }
  assert (Hsign : (0 < delta <-> firstPH < lastPH)
                  /\ (delta < 0 <-> lastPH < firstPH)).
  { split; [apply num_sub_pos|apply num_sub_neg]. }
  destruct (Qltb (Qabs delta) (dbl 0.02)) eqn:Esmall.
  - apply Qltb_true in Esmall.
    assert (Hno : ~ (dbl 0.02) <= Qabs delta) by (now apply Qlt_not_le).
    split; [|split; [|split; [|split; [|exact Hsign]]]];
      try (intro Hbig; now elim Hno).
    split; [intro H; now elim H|intro Hbig; now elim Hno].
  - apply Qltb_false in Esmall. apply Qnot_lt_le in Esmall.
    split; [|split; [|split; [|split; [|exact Hsign]]]].
    + split; [intros _; exact Esmall|intros _].
      destruct (_ && _); [discriminate|].
      destruct (Qgtb delta 0); discriminate.
    + intros _ Hin. apply Hband in Hin. now rewrite Hin.
    + intros _ Hout Hpos.
      destruct (Qgtb lastPH (dbl 6.8) && Qltb lastPH (dbl 7.2)) eqn:E.
      * elim Hout. now apply Hband.
      * apply Qgtb_true in Hpos. now rewrite Hpos.
    + intros _ Hout Hneg.
      destruct (Qgtb lastPH (dbl 6.8) && Qltb lastPH (dbl 7.2)) eqn:E.
      * elim Hout. now apply Hband.
      * assert (E0 : Qgtb delta 0 = false).
        { apply Qgtb_false. intro Hpos.
          exact (Qlt_irrefl _ (Qlt_trans _ _ _ Hpos Hneg)). }
        now rewrite E0.
Qed.

Lemma trendLabelPH_spec_witness :
  trendLabelPH (Some Examples.driftWindow) = Some "becoming more basic".
Proof.
  destruct (trendLabelPH_spec Examples.driftWindow
                              (mkSample 0 None None None None))
    as (_ & _ & H).
  destruct (H 0 (dbl 0.02)) as (_ & _ & Hbasic & _).
  - simpl. lia.
  - reflexivity.
  - reflexivity.
  - apply Hbasic.
    + vm_compute. discriminate.
    + intros [H68 _]. vm_compute in H68. discriminate.
    + vm_compute. reflexivity.
Defined.

(** ** The pressure question *)

Lemma pressurePredicate_run (materialRegistry : string -> option Material)
      (e : Activity) (rx : Reaction) :
  pressurePredicate materialRegistry e rx = true
  <-> fx_pressurePulse (rx_effects rx) = true
      \/ (exists p, In p (e_products e)
                    /\ isGasProduct materialRegistry (p_id p) rx = true)
      \/ (exists t, In t (rx_tags rx) /\ includes t "gas_evolution" = true).
Proof.
  unfold pressurePredicate, tag.
  destruct (fx_pressurePulse (rx_effects rx)).
  - split; [now left|reflexivity].
  - rewrite orb_true_iff, !existsb_exists. split.
    + intros [H|H]; right; [left|right]; exact H.
    + intros [H|[H|H]]; [discriminate|now left|now right].
Qed.

(** C6, the claim as stated fails: an activity of a reaction that only
    carries the tag [gas_evolution], without a pressure pulse and without
    any product, is accepted by the pressure predicate and is the cause
    that [becausePressure] reports. *)
Lemma pressurePredicate_accepts_tag_only :
  fx_pressurePulse (rx_effects Examples.fizzing) = false
  /\ e_products Examples.fizzingNow = []
  /\ pressurePredicate Examples.registry Examples.fizzingNow Examples.fizzing
     = true
  /\ becausePressure Examples.registry [Examples.fizzing]
       (withActivity Examples.quietCell [Some Examples.fizzingNow])
     = Some "pressure building because gas is accumulating".
Proof. repeat split. Qed.

(** C6, amended.  The pressure predicate accepts an activity if and only
    if its reaction has a pressure-pulse effect, or the product list of the
    activity contains a gas-phase product, or one of the reaction's tags
    contains [gas_evolution]; [becausePressure] answers exactly when the
    causal selector finds a candidate under this predicate. *)
Theorem pressurePredicate_spec (materialRegistry : string -> option Material)
        (reactions : list Reaction) (e : Activity) (rx : Reaction) :
  (pressurePredicate materialRegistry e rx = true
   <-> fx_pressurePulse (rx_effects rx) = true
       \/ (exists p, In p (e_products e)
                     /\ isGasProduct materialRegistry (p_id p) rx = true)
       \/ (exists t, In t (rx_tags rx) /\ includes t "gas_evolution" = true))
  /\ forall tile,
       becausePressure materialRegistry reactions tile = None
       <-> pickActivity reactions tile
             (Some (pressurePredicate materialRegistry)) = None.
Proof.
  split; [apply pressurePredicate_run|].
  intro tile. unfold becausePressure.
  destruct (pickActivity _ _ _) as [[entry rx']|]; split;
    congruence || discriminate.
Qed.

(** ** The reaction index *)

(** A lookup in the reaction index fails exactly for a name that no
    reaction of the catalogue carries and that a plain object does not
    inherit. *)
Lemma rxIndex_None (reactions : list Reaction) (id : string) :
  rxIndex reactions id = None
  <-> (forall r, In r reactions -> rx_key r <> id)
      /\ ~ In id inherited_names.
Proof.
  unfold rxIndex.
  destruct (find (fun r => str_eqb (rx_key r) id) (rev reactions))
    as [r|] eqn:E.
  - split; [discriminate|]. intros [Hno _]. exfalso.
    apply find_some in E. destruct E as [Hin Hk].
    apply String.eqb_eq in Hk. apply (Hno r); [|exact Hk].
    now apply in_rev.
  - assert (Hno : forall r, In r reactions -> rx_key r <> id).
    { intros r Hin Hk. apply in_rev in Hin.
      apply (find_none _ _ E) in Hin. apply String.eqb_neq in Hin.
      now elim Hin. }
    destruct (mem_str id inherited_names) eqn:Em.
    + split; [discriminate|]. intros [_ Hni]. exfalso. apply Hni.
      unfold mem_str in Em. apply existsb_exists in Em.
      destruct Em as (x & Hx & Ex). apply String.eqb_eq in Ex. now subst x.
    + split; [|reflexivity]. intros _. split; [exact Hno|].
      intro Hin. assert (Et : mem_str id inherited_names = true).
      { unfold mem_str. apply existsb_exists. exists id.
        split; [exact Hin|apply String.eqb_refl]. }
      congruence.
Qed.

(** What a lookup finds is a reaction of the catalogue under its key, or,
    for an inherited name that no reaction carries, the inherited
    member. *)
Lemma rxIndex_Some (reactions : list Reaction) (id : string) (rx : Reaction) :
  rxIndex reactions id = Some rx ->
  (In rx reactions /\ rx_key rx = id)
  \/ (rx = inherited_member /\ In id inherited_names
      /\ forall r, In r reactions -> rx_key r <> id).
Proof.
  unfold rxIndex.
  destruct (find (fun r => str_eqb (rx_key r) id) (rev reactions))
    as [r|] eqn:E.
  - intro H. inversion H; subst r. left.
    apply find_some in E. destruct E as [Hin Hk].
    apply String.eqb_eq in Hk. split; [now apply in_rev|exact Hk].
  - destruct (mem_str id inherited_names) eqn:Em; [|discriminate].
    intro H. inversion H. right. split; [reflexivity|]. split.
    + unfold mem_str in Em. apply existsb_exists in Em.
      destruct Em as (x & Hx & Ex). apply String.eqb_eq in Ex. now subst x.
    + intros r Hin Hk. apply in_rev in Hin.
      apply (find_none _ _ E) in Hin. apply String.eqb_neq in Hin.
      now elim Hin.
Qed.

(** ** The causal selector *)

Section Selector.

Variable reactions : list Reaction.
Variable predicate : option (Activity -> Reaction -> bool).






End Selector.


(** ** The per-reaction sentence of a neutralization *)

(** C7, the claim as stated fails: a neutralization of an acid and a base
    with extent 0.8, no limiter and the single product H2O (neither gas nor
    solid) whose reaction carries the tag [exothermic] is described with a
    heat clause before the product clause. *)
Lemma describeReactionEntry_exothermic_neutralization :
  rxIndex [Examples.exoNeutralization] (e_id Examples.neutralizing)
  = Some Examples.exoNeutralization
  /\ existsb (isAcidReactant Examples.registry)
             (rx_reactants Examples.exoNeutralization) = true
  /\ existsb (isBaseReactant Examples.registry)
             (rx_reactants Examples.exoNeutralization) = true
  /\ e_extent Examples.neutralizing = Some (dbl 0.8)
  /\ e_limiter Examples.neutralizing = None
  /\ e_products Examples.neutralizing = [mkProduct "H2O" (Some 2.0)]
  /\ isGasProduct Examples.registry "H2O" Examples.exoNeutralization = false
  /\ isSolidProduct Examples.registry "H2O" Examples.exoNeutralization = false
  /\ describeReactionEntry Examples.registry [Examples.exoNeutralization]
       Examples.neutralizing
     = Some ("The acid is neutralizing the base, heating the tile and "
             ++ "forming water. Intensity 80%, rate-limited.")
  /\ describeReactionEntry Examples.registry [Examples.exoNeutralization]
       Examples.neutralizing
     <> Some ("The acid is neutralizing the base, forming "
              ++ niceName Examples.registry "H2O"
              ++ ". Intensity 80%, rate-limited.").
Proof. repeat split. discriminate. Qed.

Lemma niceName_H2O_truthy (materialRegistry : string -> option Material) :
  truthy_str (Some (niceName materialRegistry "H2O")) = true.
Proof.
  unfold niceName. destruct (materialRegistry "H2O") as [m|]; [|reflexivity].
  destruct (m_displayName m) as [[|c s]|]; reflexivity.
Qed.

(** The integer part of a rational between two consecutive integers. *)
Lemma Qfloor_between (z : Z) (x : Q) :
  inject_Z z <= x -> x < inject_Z (z + 1) -> Qfloor x = z.
Proof.
  intros Hlo Hhi.
  assert (H1 := Qfloor_le x). assert (H2 := Qlt_floor x).
  assert (L : (Qfloor x < z + 1)%Z).
  { rewrite Zlt_Qlt. now apply Qle_lt_trans with x. }
  assert (U : (z < Qfloor x + 1)%Z).
  { rewrite Zlt_Qlt. now apply Qle_lt_trans with x. }
  lia.
Qed.

(** A product of doubles, within the accuracy of the multiplication. *)
Lemma num_mul_bounds {ops : JsNumber} (a b : Q) :
  a * b - (Qabs (a * b) * (1 # 1125899906842624)
           + (1 # 1267650600228229401496703205376))
  <= num_mul a b
  /\ num_mul a b
     <= a * b + (Qabs (a * b) * (1 # 1125899906842624)
                 + (1 # 1267650600228229401496703205376)).
Proof.
  assert (H := num_mul_near a b). apply Qabs_Qle_condition in H.
  destruct H as [H1 H2]. split; lra.
Qed.

(** An extent of eight tenths, as a decimal or as the double nearest to
    it, shows as eighty percent. *)
Lemma intensity_of_080 {ops : JsNumber} (extent : Q) :
  Qabs (extent - 8 / 10) <= 1 # 1000000000000000 ->
  Math_round (num_mul (Math_min 1 (num_or0 (Some extent))) 100) = 80%Z.
Proof.
  intro Hnear. apply Qabs_Qle_condition in Hnear. destruct Hnear as [N1 N2].
  assert (E8 : 8 / 10 == 8 # 10) by reflexivity. rewrite E8 in N1, N2.
  simpl num_or0.
  assert (Em : Math_min 1 extent = extent).
  { unfold Math_min.
    destruct (Qle_bool 1 extent) eqn:E; [|reflexivity].
    apply Qle_bool_iff in E. exfalso. lra. }
  rewrite Em.
  destruct (num_mul_bounds extent 100) as [Hlo Hhi].
  assert (Ea : Qabs (extent * 100) == extent * 100)
    by (apply Qabs_pos; lra).
  rewrite Ea in Hlo, Hhi.
  unfold Math_round. apply Qfloor_between.
  - change (inject_Z 80) with 80. lra.
  - change (inject_Z (80 + 1)) with 81. lra.
Qed.

Lemma tileGasOf_none (tile : option (list (string * Q))) :
  (forall g kv, tile = Some g -> In kv g -> ~ dbl 0.05 < snd kv) ->
  tileGasOf tile = None.
Proof.
  intro H. unfold tileGasOf. destruct tile as [g|]; [|reflexivity].
  assert (E : filter (fun kv => Qgtb (snd kv) (dbl 0.05)) g = []).
  { specialize (H g). induction g as [|kv g IH]; [reflexivity|]. simpl.
    assert (E : Qgtb (snd kv) (dbl 0.05) = false).
    { apply Qgtb_false. apply (H kv eq_refl). now left. }
    rewrite E. apply IH. intros kv' _ Hin. apply (H kv' eq_refl). now right. }
  now rewrite E.
Qed.

(** C7, amended.  When, in addition, the reaction has no tag beginning
    with [exothermic], no positive heat-per-unit effect, no emit-gas
    effect and no tag containing [gas_evolution], and the tile the entry
    points to holds no gas above 0.05, the sentence is "The acid is
    neutralizing the base, forming H2O. Intensity 80%, rate-limited.", with
    the display name of H2O in the place of H2O.  The extent 0.8 is the
    double nearest to 0.8, or any number within 10^-15 of 0.8. *)
Theorem describeReactionEntry_neutralization {ops : JsNumber}
        (materialRegistry : string -> option Material)
        (reactions : list Reaction) (entry : Activity) (rx : Reaction) :
  rxIndex reactions (e_id entry) = Some rx ->
  existsb (isAcidReactant materialRegistry) (rx_reactants rx) = true ->
  existsb (isBaseReactant materialRegistry) (rx_reactants rx) = true ->
  (exists extent,
      e_extent entry = Some extent
      /\ Qabs (extent - 8 / 10) <= 1 # 1000000000000000) ->
  e_limiter entry = None ->
  e_products entry = [mkProduct "H2O" (Some 2.0)] ->
  isGasProduct materialRegistry "H2O" rx = false ->
  isSolidProduct materialRegistry "H2O" rx = false ->
  exoLevel rx = None ->
  ~ 0 < num_or0 (fx_heatPerUnit (rx_effects rx)) ->
  fx_emitGas (rx_effects rx) = false ->
  tag rx "gas_evolution" = false ->
  (forall g kv, e_tile entry = Some g -> In kv g -> ~ dbl 0.05 < snd kv) ->
  describeReactionEntry materialRegistry reactions entry
  = Some ("The acid is neutralizing the base, forming "
          ++ niceName materialRegistry "H2O"
          ++ ". Intensity 80%, rate-limited.").
Proof.
  intros Hrx Hacid Hbase Hext Hlim Hprods Hgas Hsolid Hexo Hheat Hemit Htag
         Htile.
  unfold describeReactionEntry. rewrite Hrx.
  assert (Eheat : describeHeat rx (rx_effects rx) = None).
  { unfold describeHeat. rewrite Hexo.
    apply Qgtb_false in Hheat. now rewrite Hheat. }
  assert (Egas : describeGas materialRegistry rx (rx_effects rx)
                   (e_products entry) (e_tile entry) = None).
  { unfold describeGas, productGasOf. rewrite Hprods. simpl.
    unfold productGas_step. simpl. rewrite Hgas. simpl.
    rewrite (tileGasOf_none _ Htile). simpl. now rewrite Htag, Hemit. }
  assert (Eprods : describeProducts materialRegistry (e_products entry) rx
                   = Some (niceName materialRegistry "H2O")).
  { rewrite Hprods. reflexivity. }
  rewrite Eheat, Egas, Eprods, niceName_H2O_truthy.
  rewrite Hprods. simpl. rewrite Hsolid.
  unfold actorPhrase. rewrite Hacid, Hbase.
  unfold describeLimiter, intensityOf. rewrite Hlim.
  destruct Hext as (extent & -> & Hnear).
  rewrite (intensity_of_080 extent Hnear). reflexivity.
Qed.

Lemma describeReactionEntry_neutralization_witness :
  describeReactionEntry Examples.registry [Examples.neutralization]
    Examples.neutralizing
  = Some "The acid is neutralizing the base, forming water. Intensity 80%, rate-limited.".
Proof.
  apply (describeReactionEntry_neutralization
           Examples.registry [Examples.neutralization] Examples.neutralizing
           Examples.neutralization);
    try reflexivity.
  - exists (dbl 0.8). split; [reflexivity|]. vm_compute. discriminate.
  - intro H. vm_compute in H. discriminate.
  - intros g kv H. discriminate.
Defined.

(** ** Stable sorting and the removal of one element *)

Section SortRemove.

Context {A : Type} (key : A -> Q).

Lemma insert_desc_sorted (x : A) (l : list A) :
  sorted_desc key l -> sorted_desc key (insert_desc key x l).
Proof.
  induction l as [|y r IH]; intro Hs; simpl.
  - now split.
  - destruct (Qltb (key x) (key y)) eqn:E.
    + destruct Hs as [Hy Hr]. specialize (IH Hr). simpl. split; [|exact IH].
      destruct r as [|z r']; simpl.
      * apply Qltb_true in E. now apply Qlt_le_weak.
      * destruct (Qltb (key x) (key z)); [exact Hy|].
        apply Qltb_true in E. now apply Qlt_le_weak.
    + apply Qltb_false in E. apply Qnot_lt_le in E. simpl. now split.
Qed.

Lemma sort_desc_sorted (l : list A) : sorted_desc key (sort_desc key l).
Proof.
  induction l as [|x l IH]; simpl; [exact I|].
  now apply insert_desc_sorted.
Qed.

Lemma sorted_desc_app_r (l1 l2 : list A) :
  sorted_desc key (l1 ++ l2) -> sorted_desc key l2.
Proof.
  induction l1 as [|x l1 IH]; simpl; [trivial|].
  intros [_ H]. now apply IH.
Qed.

Lemma insert_desc_split (x : A) (l : list A) :
  exists s1 s2,
    insert_desc key x l = (s1 ++ x :: s2)%list /\ l = (s1 ++ s2)%list.
Proof.
  induction l as [|y r (s1 & s2 & H1 & H2)]; simpl.
  - now exists [], [].
  - destruct (Qltb (key x) (key y)).
    + exists (y :: s1), s2. simpl. now rewrite H1, H2.
    + now exists [], (y :: r).
Qed.

(** Inserting into a sorted list commutes with the removal of one of its
    elements. *)
Lemma insert_desc_remove (a x : A) (s1 s2 : list A) :
  sorted_desc key (s1 ++ x :: s2) ->
  exists t1 t2,
    insert_desc key a (s1 ++ x :: s2) = (t1 ++ x :: t2)%list
    /\ insert_desc key a (s1 ++ s2) = (t1 ++ t2)%list.
Proof.
  induction s1 as [|y s1 IH]; simpl; intro Hs.
  - destruct (Qltb (key a) (key x)) eqn:E.
    + now exists [], (insert_desc key a s2).
    + exists [a], s2. split; [reflexivity|].
      destruct s2 as [|z s2]; [reflexivity|]. simpl.
      assert (Ez : Qltb (key a) (key z) = false).
      { apply Qltb_false in E. apply Qnot_lt_le in E.
        apply Qltb_false. apply Qle_not_lt.
        destruct Hs as [Hz _]. now apply Qle_trans with (key x). }
      now rewrite Ez.
  - destruct (Qltb (key a) (key y)).
    + destruct Hs as [_ Hs]. destruct (IH Hs) as (t1 & t2 & H1 & H2).
      exists (y :: t1), t2. simpl. now rewrite H1, H2.
    + now exists (a :: y :: s1), s2.
Qed.

(** Sorting commutes with the removal of one element: stability makes
    the other elements keep their relative order. *)
Lemma sort_desc_remove (l1 : list A) (x : A) (l2 : list A) :
  exists s1 s2,
    sort_desc key (l1 ++ x :: l2) = (s1 ++ x :: s2)%list
    /\ sort_desc key (l1 ++ l2) = (s1 ++ s2)%list.
Proof.
  induction l1 as [|a l1 (s1 & s2 & H1 & H2)]; simpl.
  - destruct (insert_desc_split x (sort_desc key l2)) as (s1 & s2 & H1 & H2).
    exists s1, s2. now split.
  - fold (sort_desc key (l1 ++ x :: l2)). fold (sort_desc key (l1 ++ l2)).
    rewrite H1, H2. apply insert_desc_remove.
    rewrite <- H1. apply sort_desc_sorted.
Qed.

Lemma sort_desc_length (l : list A) :
  List.length (sort_desc key l) = List.length l.
Proof.
  induction l as [|x l IH]; simpl; [reflexivity|].
  destruct (insert_desc_split x (sort_desc key l)) as (s1 & s2 & H1 & H2).
  unfold sort_desc in *. rewrite H1. rewrite <- IH, H2.
  rewrite !length_app. simpl. lia.
Qed.

End SortRemove.

(** ** Entries of unknown reactions *)

Lemma filter_Boolean_app {A : Type} (l1 l2 : list (option A)) :
  filter_Boolean (l1 ++ l2) = (filter_Boolean l1 ++ filter_Boolean l2)%list.
Proof.
  induction l1 as [|[x|] l1 IH]; simpl; [reflexivity| |exact IH].
  now rewrite IH.
Qed.

Lemma filter_truthy_app (l1 l2 : list (option string)) :
  filter_truthy (l1 ++ l2) = (filter_truthy l1 ++ filter_truthy l2)%list.
Proof.
  induction l1 as [|x l1 IH]; simpl; [reflexivity|].
  destruct (truthy_str x); [|exact IH].
  destruct x; [|exact IH]. simpl. now rewrite IH.
Qed.

Section UnknownReaction.

Context {ops : JsNumber}.
Variable materialRegistry : string -> option Material.
Variable reactions : list Reaction.
Variables (tile : Tile) (pre post : list (option Activity)) (e : Activity).

Hypothesis Hacts : tile_activity tile = (pre ++ Some e :: post)%list.
Hypothesis Hunknown : rxIndex reactions (e_id e) = None.

Lemma unknown_no_sentence :
  describeReactionEntry materialRegistry reactions (setTile e tile) = None.
Proof. unfold describeReactionEntry. simpl. now rewrite Hunknown. Qed.

Lemma unknown_pickActivity predicate :
  pickActivity reactions tile predicate
  = pickActivity reactions (withActivity tile (pre ++ post)) predicate.
Proof.
  unfold pickActivity. simpl. rewrite Hacts, !fold_left_app. simpl.
  unfold pick_step at 2. rewrite Hunknown.
  now destruct (Qle_bool (num_or0 (e_extent e)) 0).
Qed.

Lemma unknown_summary :
  summarizeTile materialRegistry reactions tile
  = summarizeTile materialRegistry reactions (withActivity tile (pre ++ post)).
Proof.
  assert (HT : becauseTemp materialRegistry reactions tile
               = becauseTemp materialRegistry reactions (withActivity tile (pre ++ post)))
    by (unfold becauseTemp; now rewrite unknown_pickActivity).
  assert (HP : becausePressure materialRegistry reactions tile
               = becausePressure materialRegistry reactions (withActivity tile (pre ++ post)))
    by (unfold becausePressure; now rewrite unknown_pickActivity).
  assert (HH : forall dir,
             becausePH materialRegistry reactions tile dir
             = becausePH materialRegistry reactions (withActivity tile (pre ++ post)) dir)
    by (intro dir; unfold becausePH; now rewrite unknown_pickActivity).
  assert (HG : becauseGas materialRegistry reactions tile
               = becauseGas materialRegistry reactions (withActivity tile (pre ++ post)))
    by (unfold becauseGas; now rewrite unknown_pickActivity).
  unfold summarizeTile, becauseTextOf, becauseBitsOf.
  rewrite HT, HP, HG. clear HT HP HG.
  change (tile_history (withActivity tile (pre ++ post))) with (tile_history tile).
  destruct (includes (trendLabelTemp (tile_history tile)) "heating up");
    [destruct (becauseTemp _ _ _) as [because|x]; [|reflexivity]|];
    cbn [bind];
    (destruct (trendLabelPH (tile_history tile)) as [ph|]; [|reflexivity];
     destruct (truthy_str (Some ph)); [|reflexivity];
     destruct (phDirection ph) as [dir|]; [|reflexivity];
     now rewrite HH).
Qed.

Lemma unknown_production :
  buildProductionInsights materialRegistry reactions tile
  = buildProductionInsights materialRegistry reactions (withActivity tile (pre ++ post)).
Proof.
  unfold buildProductionInsights. simpl.
  rewrite Hacts, !fold_left_app. simpl.
  unfold productions_entry at 2. rewrite Hunknown.
  now destruct (Qle_bool (num_or0 (e_extent e)) 0).
Qed.

Lemma unknown_narration :
  (List.length (filter_Boolean (tile_activity tile)) <= 3)%nat ->
  filter_Boolean (pre ++ post) <> [] ->
  narrateTile materialRegistry reactions tile
  = narrateTile materialRegistry reactions (withActivity tile (pre ++ post)).
Proof.
  intros Hfew Hothers.
  rewrite !narrateTile_lines, <- unknown_summary, <- unknown_production.
  unfold topActs. simpl tile_activity.
  rewrite Hacts in *. rewrite !filter_Boolean_app in *.
  simpl filter_Boolean in *.
  destruct (sort_desc_remove extentOf (filter_Boolean pre) e
                             (filter_Boolean post))
    as (s1 & s2 & H1 & H2).
  assert (L1 := sort_desc_length extentOf
                  (filter_Boolean pre ++ e :: filter_Boolean post)).
  assert (L2 := sort_desc_length extentOf
                  (filter_Boolean pre ++ filter_Boolean post)).
  rewrite length_app in Hfew, L1, L2. simpl in Hfew, L1.
  rewrite firstn_all2 by (rewrite L1; lia).
  rewrite firstn_all2 by (rewrite L2; lia).
  rewrite H1, H2 in *.
  assert (Hne : (s1 ++ s2)%list <> []).
  { intro Hnil. rewrite Hnil in L2. simpl in L2.
    destruct (filter_Boolean pre), (filter_Boolean post);
      simpl in L2; try discriminate. now elim Hothers. }
  destruct (summarizeTile materialRegistry reactions tile) as [summary|x];
    [|reflexivity].
  cbn [bind]. f_equal. f_equal. f_equal.
  - rewrite !map_app, !filter_truthy_app. simpl map.
    change (setTile e (withActivity tile (pre ++ post))) with (setTile e tile).
    simpl filter_truthy. rewrite unknown_no_sentence. reflexivity.
  - f_equal.
    destruct s1; simpl; [|reflexivity].
    destruct s2; [now elim Hne|reflexivity].
Qed.

End UnknownReaction.

(** C4, the claim as stated fails, in two ways.  A cell whose only entry
    names an unknown reaction gets no fallback line, while the cell without
    the entry gets "No active reactions detected.".  And among four
    entries, an unknown one of high extent takes one of the three
    per-reaction places, so that the cell without it gets one sentence
    more. *)
Lemma narrateTile_unknown_entry_counts :
  (tile_activity Examples.staleCell = [Some Examples.stale]
   /\ rxIndex [] (e_id Examples.stale) = None
   /\ narrateTile Examples.registry [] Examples.staleCell
      = Returns ["This tile is temperate, near neutral."]
   /\ narrateTile Examples.registry [] (withActivity Examples.staleCell [])
      = Returns ["This tile is temperate, near neutral.";
                 "No active reactions detected."])
  /\ (tile_activity Examples.crowdedCell
      = Some Examples.stale
        :: [Some (Examples.neutralizingAt (dbl 0.8));
            Some (Examples.neutralizingAt (dbl 0.7));
            Some (Examples.neutralizingAt (dbl 0.1))]
      /\ rxIndex [Examples.neutralization] (e_id Examples.stale) = None
      /\ (exists summary s1 s2 production,
            narrateTile Examples.registry [Examples.neutralization]
              Examples.crowdedCell
            = Returns [summary; s1; s2; production])
      /\ (exists summary s1 s2 s3 production,
            narrateTile Examples.registry [Examples.neutralization]
              (withActivity Examples.crowdedCell
                 [Some (Examples.neutralizingAt (dbl 0.8));
                  Some (Examples.neutralizingAt (dbl 0.7));
                  Some (Examples.neutralizingAt (dbl 0.1))])
            = Returns [summary; s1; s2; s3; production])).
Proof. repeat split; repeat eexists; reflexivity. Qed.

(** C4, amended.  An activity entry whose reaction id is absent from the
    reaction index (the lookup in the index finds nothing for it) yields no
    per-reaction sentence and no production-insight line and is never a
    candidate of the causal selector, so that the summary and the
    production-insight lines are those of the cell without the entry, and
    the summary throws for the one exactly when it throws for the other.  The entry still counts among the listed activities: the
    whole output equals that of the cell without the entry when the cell
    has at most three entries that are not falsy and another such entry
    remains. *)
Theorem narrateTile_unknown_reaction {ops : JsNumber}
        (materialRegistry : string -> option Material)
        (reactions : list Reaction) (tile : Tile)
        (pre post : list (option Activity)) (e : Activity) :
  tile_activity tile = (pre ++ Some e :: post)%list ->
  rxIndex reactions (e_id e) = None ->
  let tile' := withActivity tile (pre ++ post) in
  describeReactionEntry materialRegistry reactions (setTile e tile) = None
  /\ (forall predicate,
         pickActivity reactions tile predicate
         = pickActivity reactions tile' predicate)
  /\ summarizeTile materialRegistry reactions tile
     = summarizeTile materialRegistry reactions tile'
  /\ buildProductionInsights materialRegistry reactions tile
     = buildProductionInsights materialRegistry reactions tile'
  /\ ((List.length (filter_Boolean (tile_activity tile)) <= 3)%nat ->
      filter_Boolean (pre ++ post) <> [] ->
      narrateTile materialRegistry reactions tile
      = narrateTile materialRegistry reactions tile').
Proof.
  intros Hacts Hunknown tile'.
  split; [now apply unknown_no_sentence|].
  split; [intro predicate; now apply unknown_pickActivity with (e := e)|].
  split; [now apply unknown_summary with (e := e)|].
  split; [now apply unknown_production with (e := e)|].
  now apply unknown_narration with (e := e).
Qed.

Lemma narrateTile_unknown_reaction_witness :
  narrateTile Examples.registry [Examples.neutralization]
    (withActivity Examples.quietCell
       [Some Examples.stale; Some (Examples.neutralizingAt (dbl 0.8))])
  = narrateTile Examples.registry [Examples.neutralization]
      (withActivity Examples.quietCell [Some (Examples.neutralizingAt (dbl 0.8))]).
Proof.
  apply (narrateTile_unknown_reaction
           Examples.registry [Examples.neutralization]
           (withActivity Examples.quietCell
              [Some Examples.stale; Some (Examples.neutralizingAt (dbl 0.8))])
           [] [Some (Examples.neutralizingAt (dbl 0.8))] Examples.stale
           eq_refl eq_refl).
  - simpl. lia.
  - discriminate.
Defined.

(** ** The history store *)

Lemma recordSubscribedHistories_map {ops : JsNumber} (now : Q) (subs : list Tile) :
  recordSubscribedHistories now subs = map (recordTile now) subs.
Proof. now destruct subs. Qed.

Lemma historyOf_ensure (tile : Tile) :
  historyOf (ensureHistoryBuffer tile) = historyOf tile.
Proof. unfold historyOf. simpl. now destruct (tile_history tile). Qed.

(** The history after one recording of a tile. *)
Lemma recordTile_history {ops : JsNumber} (now : Q) (tile : Tile) :
  historyOf (recordTile now tile)
  = if appends now tile
    then cap (expire (num_sub now HISTORY_DURATION_MS)
                     (push (historyOf tile) (sampleOf now tile)))
    else historyOf tile.
Proof.
  unfold recordTile, appends.
  destruct (tile_history (ensureHistoryBuffer tile)) as [h|] eqn:Eh.
  - assert (Hh : historyOf tile = h).
    { rewrite <- historyOf_ensure. unfold historyOf. now rewrite Eh. }
    destruct (tooSoon now _); simpl.
    + apply historyOf_ensure.
    + unfold historyOf at 1. simpl. now rewrite Hh.
  - simpl in Eh. now destruct (tile_history tile).
Qed.

Lemma expire_suffix (cutoff : Q) (h : list Sample) :
  exists dropped, h = (dropped ++ expire cutoff h)%list.
Proof.
  induction h as [|s r (dropped & IH)]; simpl.
  - now exists [].
  - destruct (Qltb (s_t s) cutoff).
    + exists (s :: dropped). simpl. now rewrite <- IH.
    + now exists [].
Qed.

Lemma cap_suffix (h : list Sample) :
  exists dropped, h = (dropped ++ cap h)%list.
Proof.
  unfold cap. destruct (200 <? List.length h)%nat.
  - destruct h as [|s r]; [now exists []|now exists [s]].
  - now exists [].
Qed.

Lemma cap_length (h : list Sample) :
  (List.length h <= 201)%nat -> (List.length (cap h) <= 200)%nat.
Proof.
  unfold cap. intro H. destruct (200 <? List.length h)%nat eqn:E.
  - destruct h; simpl in *; lia.
  - apply Nat.ltb_ge in E. exact E.
Qed.

Lemma ascending_app_r (h1 h2 : list Sample) :
  ascending (h1 ++ h2) -> ascending h2.
Proof.
  induction h1 as [|s h1 IH]; simpl; [trivial|]. intros [_ H]. now apply IH.
Qed.

Lemma ascending_push (h : list Sample) (s : Sample) :
  ascending h -> (forall s', In s' h -> s_t s' <= s_t s) ->
  ascending (push h s).
Proof.
  unfold push. induction h as [|a h IH]; simpl; intros Hasc Hle.
  - split; [intros s' []|exact I].
  - destruct Hasc as [Ha Hasc]. split.
    + intros s' Hin. apply in_app_or in Hin.
      destruct Hin as [Hin|[<-|[]]]; [now apply Ha|]. apply Hle. now left.
    + apply IH; [exact Hasc|]. intros s' Hin. apply Hle. now right.
Qed.

(** After a push onto an ascending history, the expiry loop leaves
    nothing older than the cutoff, whatever the time of the new sample
    that is not itself older than the cutoff. *)
Lemma expire_window (cutoff : Q) (h : list Sample) (new : Sample) :
  ascending h -> ~ s_t new < cutoff ->
  forall s, In s (expire cutoff (push h new)) -> cutoff <= s_t s.
Proof.
  intros Hasc Hnew. apply Qnot_lt_le in Hnew. unfold push.
  induction h as [|a r IH]; simpl.
  - destruct (Qltb (s_t new) cutoff); [intros s []|].
    now intros s [<-|[]].
  - destruct Hasc as [Ha Hr].
    destruct (Qltb (s_t a) cutoff) eqn:E; [now apply IH|].
    apply Qltb_false in E. apply Qnot_lt_le in E.
    intros s [<-|Hin]; [exact E|].
    apply in_app_or in Hin. destruct Hin as [Hin|[<-|[]]]; [|exact Hnew].
    apply Qle_trans with (s_t a); [exact E|]. now apply Ha.
Qed.

(** The sample just pushed survives the expiry loop and the cap. *)
Lemma expire_keeps_last (cutoff : Q) (h : list Sample) (s : Sample) :
  ~ s_t s < cutoff ->
  exists kept, expire cutoff (push h s) = (kept ++ [s])%list.
Proof.
  intro Hs. apply Qltb_false in Hs. unfold push.
  induction h as [|a r (kept & IH)]; simpl.
  - rewrite Hs. now exists [].
  - destruct (Qltb (s_t a) cutoff); [now exists kept|].
    now exists (a :: r).
Qed.

Lemma cap_keeps_last (kept : list Sample) (s : Sample) :
  exists kept', cap (kept ++ [s]) = (kept' ++ [s])%list.
Proof.
  unfold cap. destruct (200 <? List.length (kept ++ [s]))%nat eqn:E.
  - destruct kept as [|a kept]; [discriminate|]. now exists kept.
  - now exists kept.
Qed.

Lemma now_after_cutoff {ops : JsNumber} (now : Q) : ~ now < num_sub now HISTORY_DURATION_MS.
Proof.
  apply Qle_not_lt. apply num_sub_le. discriminate.
Qed.

(** What remains after a recording was in the history or is the new
    sample. *)
Lemma recordTile_In {ops : JsNumber} (now : Q) (tile : Tile) (s : Sample) :
  In s (historyOf (recordTile now tile)) ->
  In s (historyOf tile) \/ (appends now tile = true /\ s = sampleOf now tile).
Proof.
  rewrite recordTile_history. destruct (appends now tile); [|now left].
  set (h1 := push (historyOf tile) (sampleOf now tile)).
  destruct (expire_suffix (num_sub now HISTORY_DURATION_MS) h1) as (d1 & E1).
  destruct (cap_suffix (expire (num_sub now HISTORY_DURATION_MS) h1)) as (d2 & E2).
  intro Hs.
  assert (H1 : In s h1).
  { rewrite E1. apply in_or_app. right.
    rewrite E2. apply in_or_app. now right. }
  unfold h1, push in H1. apply in_app_or in H1.
  destruct H1 as [H1|[H1|[]]]; [now left|right; now split].
Qed.

Lemma recordTile_length {ops : JsNumber} (now : Q) (tile : Tile) :
  (List.length (historyOf tile) <= 200)%nat ->
  (List.length (historyOf (recordTile now tile)) <= 200)%nat.
Proof.
  intro Hlen. rewrite recordTile_history.
  destruct (appends now tile); [|exact Hlen].
  set (h1 := push (historyOf tile) (sampleOf now tile)).
  destruct (expire_suffix (num_sub now HISTORY_DURATION_MS) h1) as (d1 & E1).
  apply cap_length.
  assert (L : List.length h1 = S (List.length (historyOf tile)))
    by (unfold h1, push; rewrite length_app; simpl; lia).
  rewrite E1, length_app in L. lia.
Qed.

Lemma recordTile_ascending {ops : JsNumber} (now : Q) (tile : Tile) :
  ascending (historyOf tile) ->
  (forall s, In s (historyOf tile) -> s_t s <= now) ->
  ascending (historyOf (recordTile now tile))
  /\ forall s, In s (historyOf (recordTile now tile)) -> s_t s <= now.
Proof.
  intros Hasc Hle. split.
  - rewrite recordTile_history. destruct (appends now tile); [|exact Hasc].
    set (h1 := push (historyOf tile) (sampleOf now tile)).
    destruct (expire_suffix (num_sub now HISTORY_DURATION_MS) h1) as (d1 & E1).
    destruct (cap_suffix (expire (num_sub now HISTORY_DURATION_MS) h1))
      as (d2 & E2).
    assert (A1 : ascending h1) by now apply ascending_push.
    rewrite E1 in A1. apply ascending_app_r in A1.
    rewrite E2 in A1. now apply ascending_app_r in A1.
  - intros s Hs. apply recordTile_In in Hs.
    destruct Hs as [Hs|[_ ->]]; [now apply Hle|apply Qle_refl].
Qed.

Lemma recordTile_window {ops : JsNumber} (now : Q) (tile : Tile) :
  ascending (historyOf tile) ->
  appends now tile = true ->
  (exists kept,
      historyOf (recordTile now tile) = (kept ++ [sampleOf now tile])%list)
  /\ forall s, In s (historyOf (recordTile now tile)) ->
               num_sub now HISTORY_DURATION_MS <= s_t s.
Proof.
  intros Hasc Happ. rewrite recordTile_history, Happ.
  set (cutoff := num_sub now HISTORY_DURATION_MS).
  split.
  - destruct (expire_keeps_last cutoff (historyOf tile) (sampleOf now tile))
      as (kept & Ek); [apply now_after_cutoff|].
    rewrite Ek. apply cap_keeps_last.
  - intros s Hs.
    apply (expire_window cutoff (historyOf tile) (sampleOf now tile) Hasc
                         (now_after_cutoff now)).
    destruct (cap_suffix
                (expire cutoff (push (historyOf tile) (sampleOf now tile))))
      as (d2 & E2).
    rewrite E2. apply in_or_app. now right.
Qed.

Lemma recordTile_good {ops : JsNumber} (now : Q) (nows : list Q) (tile : Tile) :
  store_good nows tile -> store_good (now :: nows) (recordTile now tile).
Proof.
  intros (Hlen & Hin & Hasc). split; [now apply recordTile_length|]. split.
  - intros s Hs. apply recordTile_In in Hs. destruct Hs as [Hs|[_ ->]].
    + destruct (Hin s Hs) as (Ht & Hp & Hg). repeat split; auto. now right.
    + repeat split. now left.
  - intros [Hnow Hcalls]. apply recordTile_ascending; [now apply Hasc|].
    intros s Hs. apply Hnow. now apply Hin.
Qed.

Lemma same_buffer_good (nows : list Q) (a b : Tile) :
  same_buffer a b -> store_good nows a -> store_good nows b.
Proof.
  intros [Hh _]. unfold store_good, historyOf. now rewrite Hh.
Qed.

Lemma store_good_later (now : Q) (nows : list Q) (tile : Tile) :
  store_good nows tile -> store_good (now :: nows) tile.
Proof.
  intros (Hlen & Hin & Hasc). split; [exact Hlen|]. split.
  - intros s Hs. destruct (Hin s Hs) as (Ht & Hp & Hg).
    repeat split; auto. now right.
  - intros [_ Hcalls]. now apply Hasc.
Qed.

Lemma subscribe_good (nows : list Q) (tile : Tile) :
  store_good nows tile -> store_good nows (subscribeHistory tile).
Proof.
  unfold store_good, subscribeHistory. now rewrite historyOf_ensure.
Qed.

Lemma unsubscribe_good (nows : list Q) (tile : Tile) (clear : bool) :
  store_good nows tile -> store_good nows (unsubscribeHistory tile clear).
Proof.
  intros (Hlen & Hin & Hasc).
  assert (E : historyOf (unsubscribeHistory tile clear)
              = if clear then [] else historyOf tile).
  { unfold historyOf, unsubscribeHistory. simpl.
    destruct (tile_history tile), clear; reflexivity. }
  unfold store_good. rewrite E. destruct clear.
  - simpl. split; [lia|]. split; [intros s []|trivial].
  - split; [exact Hlen|]. split; [exact Hin|exact Hasc].
Qed.

Lemma Forall2_same_buffer_good (nows : list Q) (l l' : list Tile) :
  Forall2 same_buffer l l' ->
  Forall (store_good nows) l -> Forall (store_good nows) l'.
Proof.
  induction 1 as [|a b l l' Hab _ IH]; intro H; [constructor|].
  inversion H; subst. constructor.
  - now apply same_buffer_good with a.
  - now apply IH.
Qed.

(** Every reachable state of the store keeps its histories good, those
    of the released tiles included. *)
Lemma trace_good {ops : JsNumber} (nows : list Q) (subs idle : list Tile) :
  StoreTrace nows subs idle ->
  Forall (store_good nows) subs /\ Forall (store_good nows) idle.
Proof.
  induction 1 as [|nows subs idle tile _ [IHs IHi] Hfresh
                  |nows pre tile post idle clear _ [IHs IHi]
                  |nows subs pre tile post clear _ [IHs IHi]
                  |nows subs pre tile post _ [IHs IHi]
                  |nows subs idle _ [IHs IHi]
                  |nows subs subs' idle idle' _ [IHs IHi] Hsubs Hidle
                  |nows subs idle now _ [IHs IHi]].
  - split; constructor.
  - split; [|exact IHi].
    apply Forall_app. split; [exact IHs|]. constructor; [|constructor].
    unfold store_good, subscribeHistory.
    rewrite historyOf_ensure, Hfresh. simpl.
    split; [lia|]. split; [intros s []|trivial].
  - apply Forall_app in IHs. destruct IHs as [Hpre Hpost].
    inversion Hpost; subst. split.
    + apply Forall_app. now split.
    + constructor; [now apply unsubscribe_good|exact IHi].
  - split; [exact IHs|].
    apply Forall_app in IHi. destruct IHi as [Hpre Hpost].
    inversion Hpost; subst.
    apply Forall_app. split; [exact Hpre|].
    constructor; [now apply unsubscribe_good|assumption].
  - apply Forall_app in IHi. destruct IHi as [Hpre Hpost].
    inversion Hpost; subst. split.
    + apply Forall_app. split; [exact IHs|].
      constructor; [now apply subscribe_good|constructor].
    + apply Forall_app. now split.
  - split; [constructor|]. apply Forall_app. now split.
  - split; [now apply Forall2_same_buffer_good with subs
           |now apply Forall2_same_buffer_good with idle].
  - split.
    + rewrite recordSubscribedHistories_map. apply Forall_map.
      apply Forall_impl with (2 := IHs). intro tile. apply recordTile_good.
    + apply Forall_impl with (2 := IHi). intro tile.
      apply store_good_later.
Qed.

Lemma Forall2_impl_Forall {A B : Type} (P : A -> Prop) (R S : A -> B -> Prop)
      (l : list A) (l' : list B) :
  Forall P l -> Forall2 R l l' ->
  (forall a b, P a -> R a b -> S a b) -> Forall2 S l l'.
Proof.
  intros HP HR HS. induction HR; inversion HP; subst; constructor; auto.
Qed.

Lemma Forall2_map_of_Forall {A B : Type} (R : A -> B -> Prop) (f : A -> B)
      (l : list A) :
  Forall (fun a => R a (f a)) l -> Forall2 R l (map f l).
Proof. induction 1; simpl; constructor; assumption. Qed.

Lemma storeAt1000_trace : StoreTrace [1000] Examples.storeAt1000 [].
Proof.
  unfold Examples.storeAt1000. apply trace_record.
  apply trace_subscribe; [apply trace_empty|reflexivity].
Qed.

Lemma storeAt20000_trace : StoreTrace [20000] Examples.storeAt20000 [].
Proof.
  unfold Examples.storeAt20000. apply trace_record.
  apply trace_subscribe; [apply trace_empty|reflexivity].
Qed.

(** C9, the claim as stated fails: a tile is recorded at 20000, released
    and subscribed again (which resets the throttle), and recorded at 5000
    and at 30000.  The last call appends a sample, and the sample of time
    5000 is retained although 5000 is below 30000 - 10000: the expiry loop
    stops at the first sample, of time 20000. *)
Lemma recordSubscribedHistories_keeps_an_old_sample :
  StoreTrace [5000; 20000] Examples.storeAt5000 []
  /\ Forall (fun tile => appends 30000 tile = true) Examples.storeAt5000
  /\ map (fun tile => map s_t (historyOf tile))
         (recordSubscribedHistories 30000 Examples.storeAt5000)
     = [[20000; 5000; 30000]]
  /\ ~ num_sub 30000 HISTORY_DURATION_MS <= 5000.
Proof.
  split; [|split; [|split]].
  - unfold Examples.storeAt5000. apply trace_record.
    apply (trace_resubscribe [20000] [] [] _ []).
    apply (trace_unsubscribe [20000] [] _ [] [] false).
    exact storeAt20000_trace.
  - repeat constructor.
  - reflexivity.
  - intro H. vm_compute in H. now apply H.
Qed.

(** C9, amended.  A call of [recordSubscribedHistories] preserves, for
    every subscribed tile, the invariants of the history buffer: a history
    of at most 200 samples stays so; a history with ascending sample times,
    none after [now], stays so; and when the call appends a sample to an
    ascending history, that sample is the last one afterwards and every
    retained sample has a time of at least the cutoff
    [now - HISTORY_DURATION_MS] of the call, where [HISTORY_DURATION_MS] is
    10000.  Hence, along every run of the store (subscriptions of tiles
    with an empty history, releases with or without clearing, renewed
    subscriptions of released tiles, changes of the tiles by the
    simulation, and recording calls), the history of a subscribed tile
    always has at most 200 samples, and when the calls use nondecreasing
    values of [now] its sample times are ascending and every call that
    appends a sample retains only samples of a time of at least its
    cutoff. *)
Theorem recordSubscribedHistories_invariants {ops : JsNumber} :
  HISTORY_DURATION_MS == 10000
  /\ (forall now subs,
         Forall2
           (fun tile tile' =>
              ((List.length (historyOf tile) <= 200)%nat ->
               (List.length (historyOf tile') <= 200)%nat)
              /\ (ascending (historyOf tile) ->
                  (forall s, In s (historyOf tile) -> s_t s <= now) ->
                  ascending (historyOf tile')
                  /\ forall s, In s (historyOf tile') -> s_t s <= now)
              /\ (ascending (historyOf tile) ->
                  appends now tile = true ->
                  (exists kept,
                      historyOf tile' = (kept ++ [sampleOf now tile])%list)
                  /\ s_t (sampleOf now tile) = now
                  /\ forall s, In s (historyOf tile') ->
                               num_sub now HISTORY_DURATION_MS <= s_t s))
           subs (recordSubscribedHistories now subs))
  /\ (forall nows subs idle,
         StoreTrace nows subs idle ->
         Forall (fun tile => (List.length (historyOf tile) <= 200)%nat) subs
         /\ (nondecreasing_calls nows ->
             Forall (fun tile => ascending (historyOf tile)) subs)
         /\ (forall now,
                nondecreasing_calls (now :: nows) ->
                Forall2
                  (fun tile tile' =>
                     (List.length (historyOf tile') <= 200)%nat
                     /\ ascending (historyOf tile')
                     /\ (appends now tile = true ->
                         (exists kept,
                             historyOf tile'
                             = (kept ++ [sampleOf now tile])%list)
                         /\ forall s, In s (historyOf tile') ->
                                      num_sub now HISTORY_DURATION_MS
                                      <= s_t s))
                  subs (recordSubscribedHistories now subs))).
Proof.
  split; [reflexivity|]. split.
  - intros now subs. rewrite recordSubscribedHistories_map.
    apply Forall2_map_of_Forall. apply Forall_forall. intros tile _.
    split; [apply recordTile_length|].
    split; [apply recordTile_ascending|].
    intros Hasc Happ.
    destruct (recordTile_window now tile Hasc Happ) as [Hlast Hwin].
    now repeat split.
  - intros nows subs idle Htrace.
    apply trace_good in Htrace. destruct Htrace as [Htrace _].
    split; [|split].
    + apply Forall_impl with (2 := Htrace). now intros tile (H & _).
    + intro Hcalls. apply Forall_impl with (2 := Htrace).
      intros tile (_ & _ & H). now apply H.
    + intros now [Hnow Hcalls]. rewrite recordSubscribedHistories_map.
      apply Forall2_map_of_Forall. apply Forall_impl with (2 := Htrace).
      intros tile (Hlen & Hin & Hasc). specialize (Hasc Hcalls).
      split; [now apply recordTile_length|]. split.
      * apply recordTile_ascending; [exact Hasc|].
        intros s Hs. apply Hnow. now apply Hin.
      * intro Happ. now apply recordTile_window.
Qed.

Lemma recordSubscribedHistories_invariants_witness :
  Forall (fun tile => (List.length (historyOf tile) <= 200)%nat)
         Examples.storeAt1000
  /\ Forall (fun tile => ascending (historyOf tile)) Examples.storeAt1000
  /\ Forall2
       (fun tile tile' =>
          (List.length (historyOf tile') <= 200)%nat
          /\ (exists kept,
                 historyOf tile' = (kept ++ [sampleOf 2000 tile])%list)
          /\ forall s, In s (historyOf tile') ->
                       num_sub 2000 HISTORY_DURATION_MS <= s_t s)
       Examples.storeAt1000
       (recordSubscribedHistories 2000 Examples.storeAt1000).
Proof.
  destruct recordSubscribedHistories_invariants as (_ & _ & Hrun).
  destruct (Hrun [1000] Examples.storeAt1000 [] storeAt1000_trace)
    as (Hlen & Hasc & Hwin).
  assert (Hcalls : nondecreasing_calls [1000])
    by (simpl; split; [intros t []|exact I]).
  split; [exact Hlen|]. split; [exact (Hasc Hcalls)|].
  assert (Hcalls' : nondecreasing_calls [2000; 1000]).
  { split; [|exact Hcalls]. intros t [<-|[]]. discriminate. }
  apply Forall2_impl_Forall
    with (P := fun tile => appends 2000 tile = true)
         (2 := Hwin 2000 Hcalls').
  - repeat constructor.
  - intros a b Happ (H1 & _ & H3).
    destruct (H3 Happ) as (Hk & Hw). now repeat split.
Defined.

(** ** Histories of the store carry neither pH nor a gas sum *)

Lemma trendLabelPH_without_pH {ops : JsNumber} (h : list Sample) :
  (forall s, In s h -> s_pH s = None) -> trendLabelPH (Some h) = None.
Proof.
  intro Hno. destruct (Nat.lt_ge_cases (List.length h) 2) as [Hs|Hl].
  - unfold trendLabelPH. now rewrite lastN_short.
  - destruct h as [|d r]; [simpl in Hl; lia|].
    rewrite (trendLabelPH_run (d :: r) d Hl).
    rewrite Hno; [reflexivity|]. apply nth_In. simpl. lia.
Qed.

(** The slope of a field that is missing on both samples. *)
Lemma zero_slope_flat {ops : JsNumber} (elapsed eps : Q) :
  0 < elapsed -> 0 < eps ->
  Qgtb (num_div (num_sub 0 0) elapsed) eps = false
  /\ Qltb (num_div (num_sub 0 0) elapsed) (- eps) = false.
Proof.
  intros Hel Heps.
  assert (E0 : num_sub 0 0 == 0).
  { apply Qle_antisym; apply Qnot_lt_le; intro H.
    - exact (Qlt_irrefl 0 (proj1 (num_sub_pos 0 0) H)).
    - exact (Qlt_irrefl 0 (proj1 (num_sub_neg 0 0) H)). }
  assert (E : num_div (num_sub 0 0) elapsed == 0)
    by (now apply num_div_0_l).
  split.
  - apply Qgtb_false. rewrite E. now apply Qle_not_lt, Qlt_le_weak.
  - apply Qltb_false. rewrite E. apply Qle_not_lt.
    apply (Qopp_le_compat 0 eps). now apply Qlt_le_weak.
Qed.

Lemma trendLabelGas_without_gasSum {ops : JsNumber} (h : list Sample) :
  (forall s, In s h -> s_gasSum s = None) -> trendLabelGas (Some h) = None.
Proof.
  intro Hno. unfold trendLabelGas.
  destruct (Nat.lt_ge_cases (List.length h) 2) as [Hs|Hl].
  - unfold trendOf. now rewrite lastN_short.
  - destruct h as [|d r]; [simpl in Hl; lia|].
    rewrite (trendOf_run (d :: r) "gasSum" (dbl 0.01) d Hl). cbv zeta.
    destruct (Qle_bool _ 0) eqn:Edt; [reflexivity|].
    apply Qle_bool_false, Qnot_le_lt in Edt.
    change (sample_get ?s "gasSum") with (s_gasSum s).
    rewrite !Hno by (apply nth_In; simpl; lia). simpl num_or0.
    destruct (zero_slope_flat _ (dbl 0.01) Edt) as [E1 E2]; [reflexivity|].
    now rewrite E1, E2.
Qed.

(** C10. Every sample that [recordSubscribedHistories] appends has only the
    fields [t], [temp] and [pressure]: neither [pH] nor [gasSum].  Hence,
    along every run of the store, the history of a tile that is subscribed
    or was released holds no sample with a pH or a gas sum, [trendLabelPH] and [trendLabelGas] both
    return null on it, and the trend clauses of the summary reduce to the
    pressure clause: no pH clause and no gas clause is emitted. *)
Theorem store_history_has_no_pH_or_gas_trend {ops : JsNumber} (nows : list Q)
        (subs idle : list Tile) :
  StoreTrace nows subs idle ->
  (forall now tile,
      s_pH (sampleOf now tile) = None /\ s_gasSum (sampleOf now tile) = None)
  /\ Forall
       (fun tile =>
          (forall s, In s (historyOf tile) ->
                     s_pH s = None /\ s_gasSum s = None)
          /\ trendLabelPH (tile_history tile) = None
          /\ trendLabelGas (tile_history tile) = None
          /\ trendBitsOf tile
             = filter_truthy [trendLabelPressure (tile_history tile)])
       (subs ++ idle).
Proof.
  intro Htrace. apply trace_good in Htrace.
  apply Forall_app in Htrace.
  split; [now split|].
  apply Forall_impl with (2 := Htrace).
  intros tile (_ & Hin & _).
  assert (HpH : trendLabelPH (tile_history tile) = None).
  { unfold historyOf in Hin.
    destruct (tile_history tile) as [h|]; [|reflexivity].
    apply trendLabelPH_without_pH. intros s Hs. now apply Hin. }
  assert (Hgas : trendLabelGas (tile_history tile) = None).
  { unfold historyOf in Hin.
    destruct (tile_history tile) as [h|]; [|reflexivity].
    apply trendLabelGas_without_gasSum. intros s Hs. now apply Hin. }
  split; [|split; [exact HpH|split; [exact Hgas|]]].
  - intros s Hs. destruct (Hin s Hs) as (_ & Hp & Hg). now split.
  - unfold trendBitsOf. rewrite HpH, Hgas. simpl.
    destruct (truthy_str _); [|reflexivity].
    now destruct (trendLabelPressure _).
Qed.

Lemma store_history_has_no_pH_or_gas_trend_witness :
  Forall
    (fun tile =>
       (forall s, In s (historyOf tile) ->
                  s_pH s = None /\ s_gasSum s = None)
       /\ trendLabelPH (tile_history tile) = None
       /\ trendLabelGas (tile_history tile) = None
       /\ trendBitsOf tile
          = filter_truthy [trendLabelPressure (tile_history tile)])
    (recordSubscribedHistories 2000 Examples.storeAt1000 ++ []).
Proof.
  apply (store_history_has_no_pH_or_gas_trend
           [2000; 1000] (recordSubscribedHistories 2000 Examples.storeAt1000)
           []).
  apply trace_record. unfold Examples.storeAt1000. apply trace_record.
  apply trace_subscribe; [apply trace_empty|reflexivity].
Defined.

(** ** More on the stable sort *)

Section SortMore.

Context {A : Type} (key : A -> Q).

Lemma insert_desc_perm (x : A) (l : list A) :
  Permutation (insert_desc key x l) (x :: l).
Proof.
  destruct (insert_desc_split key x l) as (s1 & s2 & H1 & H2).
  rewrite H1, H2. symmetry. apply Permutation_middle.
Qed.

Lemma sort_desc_perm (l : list A) : Permutation (sort_desc key l) l.
Proof.
  induction l as [|x l IH]; simpl; [constructor|].
  etransitivity; [apply insert_desc_perm|]. now constructor.
Qed.

(** Insertion does not move an element past another of the same key. *)
Lemma insert_desc_filter (q : Q) (x : A) (l : list A) :
  filter (fun a => Qeq_bool (key a) q) (insert_desc key x l)
  = filter (fun a => Qeq_bool (key a) q) (x :: l).
Proof.
  induction l as [|y r IH]; [reflexivity|]. simpl insert_desc.
  destruct (Qltb (key x) (key y)) eqn:E; [|reflexivity].
  apply Qltb_true in E.
  change (filter (fun a => Qeq_bool (key a) q) (y :: insert_desc key x r))
    with (if Qeq_bool (key y) q
          then y :: filter (fun a => Qeq_bool (key a) q) (insert_desc key x r)
          else filter (fun a => Qeq_bool (key a) q) (insert_desc key x r)).
  rewrite IH. simpl.
  destruct (Qeq_bool (key x) q) eqn:Ex, (Qeq_bool (key y) q) eqn:Ey;
    try reflexivity.
  apply Qeq_bool_iff in Ex. apply Qeq_bool_iff in Ey.
  rewrite Ex, Ey in E. now apply Qlt_irrefl in E.
Qed.

Lemma sort_desc_stable (q : Q) (l : list A) :
  filter (fun a => Qeq_bool (key a) q) (sort_desc key l)
  = filter (fun a => Qeq_bool (key a) q) l.
Proof.
  induction l as [|x l IH]; [reflexivity|].
  simpl sort_desc. rewrite insert_desc_filter. simpl.
  fold (sort_desc key l). now rewrite IH.
Qed.

Lemma sorted_desc_head (x : A) (r : list A) :
  sorted_desc key (x :: r) -> forall y, In y r -> key y <= key x.
Proof.
  revert x. induction r as [|z r IH]; intros x Hs y Hy; [destruct Hy|].
  destruct Hs as [Hz Hr]. destruct Hy as [<-|Hy]; [exact Hz|].
  apply Qle_trans with (key z); [|exact Hz]. now apply IH.
Qed.

Lemma sorted_desc_split (l1 l2 : list A) :
  sorted_desc key (l1 ++ l2) ->
  forall a b, In a l1 -> In b l2 -> key b <= key a.
Proof.
  induction l1 as [|x l1 IH]; intros Hs a b Ha Hb; [destruct Ha|].
  destruct Ha as [<-|Ha].
  - apply (sorted_desc_head x (l1 ++ l2) Hs). apply in_or_app. now right.
  - apply IH; auto. simpl in Hs. now destruct Hs.
Qed.

Lemma sorted_desc_app_l (l1 l2 : list A) :
  sorted_desc key (l1 ++ l2) -> sorted_desc key l1.
Proof.
  induction l1 as [|x l1 IH]; simpl; [trivial|].
  intros [Hx Hr]. split; [|now apply IH].
  destruct l1; [exact I|exact Hx].
Qed.

End SortMore.

(** ** The shape of the narration *)

(** X1. The entries that [narrateTile] describes are the first three of
    the non-falsy entries put in descending order of extent by a stable
    sort: at most three, in descending order, every entry left out has an
    extent not above that of any entry kept, and entries of equal extent
    keep the order of the activity list. *)
Theorem topActs_spec (tile : Tile) :
  let entries := filter_Boolean (tile_activity tile) in
  exists sorted,
    topActs tile = firstn 3 sorted
    /\ Permutation sorted entries
    /\ sorted_desc extentOf sorted
    /\ (forall q,
           filter (fun a => Qeq_bool (extentOf a) q) sorted
           = filter (fun a => Qeq_bool (extentOf a) q) entries)
    /\ (List.length (topActs tile) = Nat.min 3 (List.length entries))
    /\ sorted_desc extentOf (topActs tile)
    /\ (forall a b, In a (topActs tile) -> In b (skipn 3 sorted) ->
                    extentOf b <= extentOf a).
Proof.
  intro entries. exists (sort_desc extentOf entries).
  assert (Hs := sort_desc_sorted extentOf entries).
  split; [reflexivity|]. split; [apply sort_desc_perm|].
  split; [exact Hs|]. split; [intro q; apply sort_desc_stable|].
  unfold topActs. fold entries.
  rewrite <- (firstn_skipn 3 (sort_desc extentOf entries)) in Hs.
  split; [|split].
  - rewrite length_firstn, sort_desc_length. reflexivity.
  - now apply sorted_desc_app_l in Hs.
  - now apply sorted_desc_split.
Qed.

Lemma productions_no_entry (reactions : list Reaction)
      (acts : list (option Activity)) :
  filter_Boolean acts = [] ->
  forall m, fold_left (productions_entry reactions) acts m = m.
Proof.
  induction acts as [|[a|] acts IH]; simpl; intros H m;
    [reflexivity|discriminate|now apply IH].
Qed.

Lemma filter_truthy_length (xs : list (option string)) :
  (List.length (filter_truthy xs) <= List.length xs)%nat.
Proof.
  induction xs as [|x xs IH]; simpl; [lia|].
  destruct (truthy_str x); [|lia]. destruct x; simpl; lia.
Qed.

Lemma filter_truthy_In (xs : list (option string)) (s : string) :
  In s (filter_truthy xs) -> In (Some s) xs.
Proof.
  induction xs as [|x xs IH]; simpl; [trivial|].
  destruct (truthy_str x).
  - destruct x as [s'|]; [|now right; apply IH].
    intros [->|H]; [now left|right; now apply IH].
  - intro H. right. now apply IH.
Qed.

Lemma filter_Boolean_In {A : Type} (xs : list (option A)) (a : A) :
  In a (filter_Boolean xs) <-> In (Some a) xs.
Proof.
  induction xs as [|[x|] xs IH]; simpl.
  - reflexivity.
  - rewrite IH. split; (intros [H|H]; [left; congruence|now right]).
  - rewrite IH. split; [now right|]. now intros [H|H].
Qed.

(** Without a non-falsy entry no question finds a cause, and the summary
    is returned. *)
Lemma pickActivity_no_entry (reactions : list Reaction) (tile : Tile)
      (predicate : option (Activity -> Reaction -> bool)) :
  filter_Boolean (tile_activity tile) = [] ->
  pickActivity reactions tile predicate = None.
Proof.
  unfold pickActivity. generalize (tile_activity tile) as acts.
  intros acts H.
  assert (E : forall st, fold_left (pick_step reactions predicate) acts st
                         = st).
  { induction acts as [|[a|] acts IH]; simpl; intro st;
      [reflexivity|discriminate|now apply IH]. }
  now rewrite E.
Qed.

Lemma summarizeTile_no_entry {ops : JsNumber}
      (materialRegistry : string -> option Material)
      (reactions : list Reaction) (tile : Tile) :
  filter_Boolean (tile_activity tile) = [] ->
  exists summary,
    summarizeTile materialRegistry reactions tile = Returns summary.
Proof.
  intro Hnil. unfold summarizeTile, becauseTextOf, becauseBitsOf, becauseTemp.
  rewrite (pickActivity_no_entry reactions tile _ Hnil).
  destruct (includes _ "heating up"); cbn [bind]; eexists; reflexivity.
Qed.

(** X2. Without a non-falsy activity entry, [narrateTile] returns exactly
    the summary followed by "No active reactions detected.".  With one,
    it returns the summary, then at most three per-reaction sentences,
    each the description of a non-falsy entry of the tile, then the
    production-insight lines, and no fallback line; it throws only when
    the summary does. *)
Theorem narrateTile_shape {ops : JsNumber} (materialRegistry : string -> option Material)
        (reactions : list Reaction) (tile : Tile) :
  let entries := filter_Boolean (tile_activity tile) in
  (entries = [] ->
   exists summary,
     summarizeTile materialRegistry reactions tile = Returns summary
     /\ narrateTile materialRegistry reactions tile
        = Returns [summary; "No active reactions detected."])
  /\ (entries <> [] ->
      exists sentences,
        narrateTile materialRegistry reactions tile
        = (summary <- summarizeTile materialRegistry reactions tile ;;
           Returns
             (summary
              :: sentences
              ++ buildProductionInsights materialRegistry reactions tile)
             %list)
        /\ (List.length sentences <= Nat.min 3 (List.length entries))%nat
        /\ forall s, In s sentences ->
             exists a, In (Some a) (tile_activity tile)
                       /\ describeReactionEntry materialRegistry reactions
                            (setTile a tile) = Some s).
Proof.
  intro entries. rewrite narrateTile_lines. split.
  - intro Hnil.
    destruct (summarizeTile_no_entry materialRegistry reactions tile Hnil)
      as (summary & Hsum).
    exists summary. split; [exact Hsum|]. rewrite Hsum. cbn [bind].
    unfold topActs, buildProductionInsights. fold entries.
    rewrite Hnil. simpl.
    now rewrite (productions_no_entry reactions _ Hnil).
  - intro Hne.
    assert (Hlen : List.length (topActs tile)
                   = Nat.min 3 (List.length entries)).
    { unfold topActs. fold entries.
      now rewrite length_firstn, sort_desc_length. }
    exists (filter_truthy
              (map (fun a => describeReactionEntry materialRegistry reactions
                               (setTile a tile)) (topActs tile))).
    split; [|split].
    + destruct (topActs tile) eqn:E.
      * destruct entries; [now elim Hne|discriminate].
      * simpl. now rewrite app_nil_r.
    + rewrite <- Hlen, <- (length_map
                             (fun a => describeReactionEntry materialRegistry
                                         reactions (setTile a tile))).
      apply filter_truthy_length.
    + intros s Hs. apply filter_truthy_In in Hs. apply in_map_iff in Hs.
      destruct Hs as (a & Ha & Hin). exists a. split; [|exact Ha].
      apply filter_Boolean_In. unfold topActs in Hin.
      apply (Permutation_in _ (sort_desc_perm extentOf _)).
      rewrite <- (firstn_skipn 3 (sort_desc extentOf _)).
      apply in_or_app. left. exact Hin.
Qed.

(** X3. The intensity shown for an entry is the integer nearest to the
    product of the extent, capped at 1, and 100 that the multiplication of
    doubles gives, halves going up.  It is never above 100; it is not
    negative when the extent is not negative; and for an extent between 0
    and 1 it is within a half and a billionth of a hundred times the
    extent. *)
Theorem intensityOf_bounds {ops : JsNumber} (entry : Activity) :
  let product := num_mul (Math_min 1 (extentOf entry)) 100 in
  (product - (1 # 2) < inject_Z (intensityOf entry)
   /\ inject_Z (intensityOf entry) <= product + (1 # 2))
  /\ (intensityOf entry <= 100)%Z
  /\ (0 <= extentOf entry -> (0 <= intensityOf entry)%Z)
  /\ (0 <= extentOf entry -> extentOf entry <= 1 ->
      extentOf entry * 100 - ((1 # 2) + (1 # 1000000000))
      < inject_Z (intensityOf entry)
      /\ inject_Z (intensityOf entry)
         <= extentOf entry * 100 + ((1 # 2) + (1 # 1000000000))).
Proof.
  unfold intensityOf, Math_round, extentOf.
  set (x := num_or0 (e_extent entry)). clearbody x.
  assert (Hm : Math_min 1 x <= 1 /\ (0 <= x -> 0 <= Math_min 1 x)
               /\ (x <= 1 -> Math_min 1 x == x)).
  { unfold Math_min. destruct (Qle_bool 1 x) eqn:E.
    - apply Qle_bool_iff in E. split; [lra|]. split; [intros _; lra|].
      intro H1. lra.
    - apply Qle_bool_false in E. split; [lra|]. split; [trivial|].
      intros _. reflexivity. }
  destruct Hm as (Hm1 & Hm0 & Hmx).
  set (m := Math_min 1 x) in *. clearbody m.
  destruct (num_mul_bounds m 100) as [Blo Bhi].
  assert (Hlo := Qfloor_le (num_mul m 100 + (1 # 2))).
  assert (Hhi := Qlt_floor (num_mul m 100 + (1 # 2))).
  rewrite inject_Z_plus in Hhi. change (inject_Z 1) with 1 in Hhi.
  assert (Habs : (0 <= m * 100 /\ Qabs (m * 100) == m * 100)
                 \/ (m * 100 <= 0 /\ Qabs (m * 100) == - (m * 100))).
  { destruct (Qlt_le_dec (m * 100) 0) as [Hn|Hp].
    - right. split; [lra|]. apply Qabs_neg. lra.
    - left. split; [exact Hp|]. now apply Qabs_pos. }
  cbv zeta. split; [split; lra|]. split; [|split].
  - assert (Hx : num_mul m 100 + (1 # 2) < 101)
      by (destruct Habs as [[_ E]|[_ E]]; rewrite E in Bhi; lra).
    assert (L : (Qfloor (num_mul m 100 + (1 # 2)) < 101)%Z).
    { rewrite Zlt_Qlt. change (inject_Z 101) with 101. lra. }
    lia.
  - intro H0. specialize (Hm0 H0).
    assert (Hx : 0 < num_mul m 100 + (1 # 2))
      by (destruct Habs as [[_ E]|[_ E]]; rewrite E in Blo; lra).
    assert (L : (-1 < Qfloor (num_mul m 100 + (1 # 2)))%Z).
    { rewrite Zlt_Qlt. change (inject_Z (-1)) with (-1). lra. }
    lia.
  - intros H0 H1. specialize (Hm0 H0). specialize (Hmx H1).
    destruct Habs as [[_ E]|[_ E]]; rewrite E in Blo, Bhi; split; lra.
Qed.

(** ** Production insights group by product *)

Lemma str_eqb_sym (a b : string) : str_eqb a b = str_eqb b a.
Proof. apply String.eqb_sym. Qed.

Lemma str_eqb_true (a b : string) : str_eqb a b = true <-> a = b.
Proof. apply String.eqb_eq. Qed.

Lemma mem_str_In (x : string) (xs : list string) :
  mem_str x xs = true <-> In x xs.
Proof.
  unfold mem_str. rewrite existsb_exists. split.
  - intros (y & Hy & E). apply str_eqb_true in E. now subst.
  - intro H. exists x. split; [exact H|]. now apply str_eqb_true.
Qed.

Lemma uniq_In (x : string) (xs : list string) : In x (uniq xs) <-> In x xs.
Proof.
  induction xs as [|a xs IH]; simpl; [reflexivity|].
  rewrite filter_In, IH. split.
  - intros [H|[H _]]; [now left|now right].
  - intros [H|H]; [now left|].
    destruct (str_eqb a x) eqn:E.
    + left. now apply str_eqb_true.
    + right. now split.
Qed.

Lemma uniq_NoDup (xs : list string) : NoDup (uniq xs).
Proof.
  induction xs as [|a xs IH]; simpl; constructor.
  - rewrite filter_In. intros [_ H].
    assert (E : str_eqb a a = true) by now apply str_eqb_true.
    now rewrite E in H.
  - now apply NoDup_filter.
Qed.

(** The order of a [Set] after one more [add]. *)
Lemma uniq_snoc (xs : list string) (x : string) :
  uniq (xs ++ [x]) = if mem_str x xs then uniq xs else (uniq xs ++ [x])%list.
Proof.
  induction xs as [|a xs IH]; [reflexivity|].
  simpl. rewrite IH. rewrite (str_eqb_sym x a).
  destruct (str_eqb a x) eqn:E; simpl.
  - destruct (mem_str x xs); [reflexivity|].
    rewrite filter_app. simpl. rewrite E. simpl. now rewrite app_nil_r.
  - destruct (mem_str x xs); [reflexivity|].
    rewrite filter_app. simpl. now rewrite E.
Qed.

Lemma sourcesOf_snoc (k id : string) (src : Source)
      (cs : list (string * Source)) :
  sourcesOf k (cs ++ [(id, src)])
  = if str_eqb id k then (sourcesOf k cs ++ [src])%list else sourcesOf k cs.
Proof.
  unfold sourcesOf. rewrite filter_app. simpl.
  destruct (str_eqb id k); simpl.
  - now rewrite map_app.
  - now rewrite app_nil_r.
Qed.

(** One [productions.set] on a map whose keys are distinct. *)
Lemma productions_add_keys (f : string -> list Source) (ks : list string)
      (id : string) (src : Source) :
  NoDup ks ->
  productions_add (map (fun k => (k, f k)) ks) id src
  = if mem_str id ks
    then map (fun k => (k, if str_eqb id k then (f k ++ [src])%list else f k))
             ks
    else (map (fun k => (k, f k)) ks ++ [(id, [src])])%list.
Proof.
  induction ks as [|k ks IH]; intro Hnd; [reflexivity|].
  inversion Hnd as [|k' ks' Hk Hnd']; subst.
  simpl. rewrite (str_eqb_sym k id).
  destruct (str_eqb id k) eqn:E; simpl.
  - apply str_eqb_true in E. subst k. f_equal.
    apply map_ext_in. intros k Hin.
    destruct (str_eqb id k) eqn:E; [|reflexivity].
    apply str_eqb_true in E. subst k. now elim Hk.
  - rewrite (IH Hnd'). destruct (mem_str id ks); reflexivity.
Qed.

Lemma productions_add_grouped (cs : list (string * Source)) (id : string)
      (src : Source) :
  productions_add (grouped cs) id src = grouped (cs ++ [(id, src)]).
Proof.
  unfold grouped.
  rewrite (productions_add_keys (fun k => sourcesOf k cs))
    by apply uniq_NoDup.
  rewrite map_app. change (map fst [(id, src)]) with [id]. rewrite uniq_snoc.
  assert (Hmem : mem_str id (uniq (map fst cs)) = mem_str id (map fst cs)).
  { destruct (mem_str id (map fst cs)) eqn:E.
    - apply mem_str_In. apply uniq_In. now apply mem_str_In.
    - destruct (mem_str id (uniq (map fst cs))) eqn:E'; [|reflexivity].
      apply (proj1 (mem_str_In _ _)) in E'. apply (proj1 (uniq_In _ _)) in E'.
      apply (proj2 (mem_str_In _ _)) in E'. congruence. }
  rewrite Hmem. destruct (mem_str id (map fst cs)) eqn:E.
  - apply map_ext. intro k. now rewrite sourcesOf_snoc.
  - rewrite map_app. simpl. f_equal.
    + apply map_ext_in. intros k Hk. rewrite sourcesOf_snoc.
      destruct (str_eqb id k) eqn:Ek; [|reflexivity].
      apply str_eqb_true in Ek. subst k.
      apply (proj1 (uniq_In _ _)) in Hk.
      apply (proj2 (mem_str_In _ _)) in Hk. congruence.
    + rewrite sourcesOf_snoc.
      assert (Eid : str_eqb id id = true) by now apply str_eqb_true.
      rewrite Eid.
      assert (Enone : sourcesOf id cs = []).
      { unfold sourcesOf.
        assert (F : filter (fun c => str_eqb (fst c) id) cs = []).
        { clear -E. induction cs as [|c cs IH]; [reflexivity|].
          simpl in *. rewrite (str_eqb_sym (fst c) id).
          destruct (str_eqb id (fst c)); [discriminate|]. now apply IH. }
        now rewrite F. }
      now rewrite Enone.
Qed.

Lemma productions_entry_grouped (reactions : list Reaction)
      (entry : option Activity) (cs : list (string * Source)) :
  productions_entry reactions (grouped cs) entry
  = grouped (cs ++ contributionsOf reactions entry).
Proof.
  unfold productions_entry, contributionsOf, extentOf.
  destruct entry as [e|]; [|now rewrite app_nil_r].
  destruct (Qle_bool (num_or0 (e_extent e)) 0); [now rewrite app_nil_r|].
  destruct (rxIndex reactions (e_id e)) as [rx|]; [|now rewrite app_nil_r].
  generalize (e_products e) as prods. intro prods. revert cs.
  induction prods as [|p prods IH]; intro cs; simpl.
  - now rewrite app_nil_r.
  - unfold qtyOf at 1. destruct (Qle_bool (num_or0 (p_qty p)) 0); simpl.
    + apply IH.
    + rewrite productions_add_grouped, IH. now rewrite <- app_assoc.
Qed.

Lemma productions_fold_grouped (reactions : list Reaction)
      (acts : list (option Activity)) :
  forall cs,
    fold_left (productions_entry reactions) acts (grouped cs)
    = grouped (cs ++ flat_map (contributionsOf reactions) acts).
Proof.
  induction acts as [|entry acts IH]; intro cs; simpl.
  - now rewrite app_nil_r.
  - rewrite productions_entry_grouped, IH. now rewrite <- app_assoc.
Qed.

Lemma str_append_assoc (a b c : string) : (a ++ b) ++ c = a ++ (b ++ c).
Proof.
  induction a as [|ch a IH]; simpl; [reflexivity|]. now rewrite IH.
Qed.

Lemma sourcesOf_nonempty (id : string) (cs : list (string * Source)) :
  In id (map fst cs) -> sourcesOf id cs <> [].
Proof.
  unfold sourcesOf. induction cs as [|c cs IH]; simpl; [intros []|].
  destruct (str_eqb (fst c) id) eqn:E; [discriminate|].
  intros [H|H]; [|now apply IH].
  apply str_eqb_true in H. congruence.
Qed.

Lemma productionLine_single (materialRegistry : string -> option Material)
      (id : string) (sources : list Source) :
  sources <> [] ->
  exists rest,
    productionLine materialRegistry id sources
    = [niceName materialRegistry id ++ " is being produced by " ++ rest].
Proof.
  destruct sources as [|[entry rx] sources]; [now intros []|]. intros _.
  unfold productionLine. eexists. reflexivity.
Qed.

Lemma contributions_In (reactions : list Reaction) (tile : Tile)
      (id : string) :
  In id (map fst (contributions reactions tile))
  <-> exists entry rx p,
        In (Some entry) (tile_activity tile)
        /\ 0 < extentOf entry
        /\ rxIndex reactions (e_id entry) = Some rx
        /\ In p (e_products entry)
        /\ 0 < qtyOf p
        /\ p_id p = id.
Proof.
  unfold contributions. rewrite in_map_iff. split.
  - intros ([id' src] & Hid & Hin). simpl in Hid. subst id'.
    apply in_flat_map in Hin. destruct Hin as (entry & Hentry & Hin).
    unfold contributionsOf in Hin. destruct entry as [e|]; [|destruct Hin].
    destruct (Qle_bool (extentOf e) 0) eqn:E0; [destruct Hin|].
    destruct (rxIndex reactions (e_id e)) as [rx|] eqn:Erx; [|destruct Hin].
    apply in_map_iff in Hin. destruct Hin as (p & Hp & Hin).
    apply filter_In in Hin. destruct Hin as [Hin Hq].
    inversion Hp; subst. exists e, rx, p.
    apply Qle_bool_false in E0. apply Qnot_le_lt in E0.
    apply negb_true_iff, Qle_bool_false in Hq. apply Qnot_le_lt in Hq.
    now repeat split.
  - intros (e & rx & p & Hentry & He & Hrx & Hp & Hq & Hid).
    exists (id, (e, rx)). split; [reflexivity|].
    apply in_flat_map. exists (Some e). split; [exact Hentry|].
    unfold contributionsOf. rewrite Hrx.
    assert (E0 : Qle_bool (extentOf e) 0 = false)
      by (apply Qle_bool_false; now apply Qlt_not_le).
    rewrite E0. apply in_map_iff. exists p. split; [now rewrite Hid|].
    apply filter_In. split; [exact Hp|].
    apply negb_true_iff, Qle_bool_false. now apply Qlt_not_le.
Qed.

(** X4. [buildProductionInsights] gives exactly one line for each distinct
    product id that some counting entry (not falsy, positive extent, a
    reaction id that the lookup in the reaction index finds) produces in
    positive quantity, in the order in which these
    ids are first met; the line of a product begins with its display name
    and is built from all the entries that produce it, in their order. *)
Theorem buildProductionInsights_grouping
        (materialRegistry : string -> option Material)
        (reactions : list Reaction) (tile : Tile) :
  let cs := contributions reactions tile in
  let ids := uniq (map fst cs) in
  buildProductionInsights materialRegistry reactions tile
  = flat_map (fun id => productionLine materialRegistry id (sourcesOf id cs))
             ids
  /\ List.length (buildProductionInsights materialRegistry reactions tile)
     = List.length ids
  /\ NoDup ids
  /\ (forall id,
         In id ids
         <-> exists entry rx p,
               In (Some entry) (tile_activity tile)
               /\ 0 < extentOf entry
               /\ rxIndex reactions (e_id entry) = Some rx
               /\ In p (e_products entry)
               /\ 0 < qtyOf p
               /\ p_id p = id)
  /\ Forall2
       (fun id line =>
          startsWith line
            (niceName materialRegistry id ++ " is being produced by ") = true)
       ids (buildProductionInsights materialRegistry reactions tile).
Proof.
  intros cs ids.
  assert (Hrun : buildProductionInsights materialRegistry reactions tile
                 = flat_map
                     (fun id => productionLine materialRegistry id
                                  (sourcesOf id cs)) ids).
  { unfold buildProductionInsights.
    change (@nil (string * list Source)) with (grouped []).
    rewrite productions_fold_grouped. simpl app. fold (contributions reactions tile).
    fold cs. unfold grouped. fold ids.
    induction ids as [|id ids' IH]; [reflexivity|]. simpl.
    now rewrite IH. }
  assert (Hids : forall id, In id ids -> sourcesOf id cs <> []).
  { intros id Hid. apply sourcesOf_nonempty. now apply uniq_In. }
  split; [exact Hrun|]. rewrite Hrun.
  split; [|split; [apply uniq_NoDup|split]].
  - clear Hrun. induction ids as [|id ids' IH]; [reflexivity|]. simpl.
    destruct (productionLine_single materialRegistry id (sourcesOf id cs))
      as (rest & E); [apply Hids; now left|].
    rewrite E. simpl. f_equal. apply IH. intros k Hk. apply Hids. now right.
  - intro id. unfold ids. rewrite uniq_In. apply contributions_In.
  - clear Hrun. induction ids as [|id ids' IH]; [constructor|].
    cbn [flat_map].
    destruct (productionLine_single materialRegistry id (sourcesOf id cs))
      as (rest & E); [apply Hids; now left|].
    rewrite E. cbn [app]. constructor.
    + unfold startsWith. rewrite <- str_append_assoc. apply prefix_append.
    + apply IH. intros k Hk. apply Hids. now right.
Qed.

(** ** The summary sentence *)

(** A cause of a rising temperature, when one is returned, is a sentence. *)
Lemma push_becauseTemp (materialRegistry : string -> option Material)
      (reactions : list Reaction) (tile : Tile) :
  (because <- becauseTemp materialRegistry reactions tile ;;
   Returns (push_truthy [] because))
  = (because <- becauseTemp materialRegistry reactions tile ;;
     Returns (gate true because)).
Proof.
  unfold becauseTemp.
  destruct (pickActivity _ _ _) as [[entry rx]|]; [|reflexivity].
  destruct (firstn 2 (map (niceName materialRegistry) (rx_reactants rx)))
    as [|a [|b [|c l]]]; cbn [bind]; try reflexivity;
    destruct (niceName_of materialRegistry (rx_id rx)); reflexivity.
Qed.

Lemma push_becausePressure (materialRegistry : string -> option Material)
      (reactions : list Reaction) (tile : Tile) (xs : list string) :
  push_truthy xs (becausePressure materialRegistry reactions tile)
  = (xs ++ gate true (becausePressure materialRegistry reactions tile))%list.
Proof.
  unfold becausePressure.
  destruct (pickActivity _ _ _) as [[entry rx]|]; simpl;
    [reflexivity|now rewrite app_nil_r].
Qed.

Lemma push_becauseGas (materialRegistry : string -> option Material)
      (reactions : list Reaction) (tile : Tile) (xs : list string) :
  push_truthy xs (becauseGas materialRegistry reactions tile)
  = (xs ++ gate true (becauseGas materialRegistry reactions tile))%list.
Proof.
  unfold becauseGas.
  destruct (pickActivity _ _ _) as [[entry rx]|]; simpl;
    [reflexivity|now rewrite app_nil_r].
Qed.

Lemma push_becausePH (materialRegistry : string -> option Material)
      (reactions : list Reaction) (tile : Tile) (dir : string)
      (xs : list string) :
  push_truthy xs (becausePH materialRegistry reactions tile dir)
  = (xs ++ gate true (becausePH materialRegistry reactions tile dir))%list.
Proof.
  unfold becausePH.
  destruct (pickActivity _ _ _) as [[entry rx]|]; simpl;
    [|now rewrite app_nil_r].
  destruct (str_eqb dir "up"); reflexivity.
Qed.

(** The labels that [trendLabelPH] can return. *)
Lemma trendLabelPH_labels {ops : JsNumber} (history : option (list Sample)) :
  trendLabelPH history = None
  \/ trendLabelPH history = Some "neutralizing"
  \/ trendLabelPH history = Some "becoming more basic"
  \/ trendLabelPH history = Some "becoming more acidic".
Proof.
  unfold trendLabelPH.
  destruct (lastN history 3) as [h|]; [|now left].
  destruct (List.length h <? 2)%nat; [now left|].
  destruct (nth_error h 0) as [f|]; [|now left].
  destruct (last_sample h) as [l|]; [|now left].
  destruct (s_pH f) as [first|]; [|now left].
  destruct (s_pH l) as [last|]; [|now left].
  destruct (Qltb _ (dbl 0.02)); [now left|].
  destruct (_ && _); [right; now left|].
  destruct (Qgtb _ 0); right; right; [now left|now right].
Qed.

(** The causal clauses of the summary, trend by trend. *)
Lemma becauseBitsOf_run {ops : JsNumber}
      (materialRegistry : string -> option Material)
      (reactions : list Reaction) (tile : Tile) :
  let h := tile_history tile in
  becauseBitsOf materialRegistry reactions tile
  = (temp <- gated (isUp (trendOf h "temp" (dbl 0.05)))
                   (becauseTemp materialRegistry reactions tile) ;;
     Returns
       (temp
        ++ gate (isUp (trendOf h "pressure" (dbl 0.02)))
                (becausePressure materialRegistry reactions tile)
        ++ gate (is_str (trendLabelPH h) "becoming more basic")
                (becausePH materialRegistry reactions tile "up")
        ++ gate (is_str (trendLabelPH h) "becoming more acidic")
                (becausePH materialRegistry reactions tile "down")
        ++ gate (isUp (trendOf h "gasSum" (dbl 0.01)))
                (becauseGas materialRegistry reactions tile))%list).
Proof.
  intro h. unfold becauseBitsOf, trendLabelTemp, trendLabelPressure,
             trendLabelGas.
  fold h.
  assert (Htemp :
            (if includes
                  match trendOf h "temp" (dbl 0.05) with
                  | up => " (heating up)"
                  | down => " (cooling)"
                  | flat => ""
                  end "heating up"
             then because <- becauseTemp materialRegistry reactions tile ;;
                  Returns (push_truthy [] because)
             else Returns [])
            = gated (isUp (trendOf h "temp" (dbl 0.05)))
                    (becauseTemp materialRegistry reactions tile)).
  { destruct (trendOf h "temp" (dbl 0.05)); try reflexivity.
    apply push_becauseTemp. }
  rewrite Htemp. clear Htemp.
  destruct (gated (isUp (trendOf h "temp" (dbl 0.05)))
                  (becauseTemp materialRegistry reactions tile))
    as [b1|x]; [|reflexivity].
  cbn [bind]. f_equal.
  assert (Hpress :
            (if is_str
                  match trendOf h "pressure" (dbl 0.02) with
                  | up => Some "pressure building"
                  | down => Some "venting"
                  | flat => None
                  end "pressure building"
             then push_truthy b1
                    (becausePressure materialRegistry reactions tile)
             else b1)
            = (b1 ++ gate (isUp (trendOf h "pressure" (dbl 0.02)))
                          (becausePressure materialRegistry reactions tile))
                %list).
  { destruct (trendOf h "pressure" (dbl 0.02)); simpl;
      rewrite ?app_nil_r; try reflexivity.
    now rewrite push_becausePressure. }
  rewrite Hpress. clear Hpress.
  set (b2 := (b1 ++ gate (isUp (trendOf h "pressure" (dbl 0.02)))
                         (becausePressure materialRegistry reactions tile))
               %list).
  assert (Hgas : forall b3,
            (if is_str
                  match trendOf h "gasSum" (dbl 0.01) with
                  | up => Some "gas building"
                  | down => Some "gas dissipating"
                  | flat => None
                  end "gas building"
             then push_truthy b3 (becauseGas materialRegistry reactions tile)
             else b3)
            = (b3 ++ gate (isUp (trendOf h "gasSum" (dbl 0.01)))
                          (becauseGas materialRegistry reactions tile))%list).
  { intro b3. destruct (trendOf h "gasSum" (dbl 0.01)); simpl;
      rewrite ?app_nil_r; try reflexivity.
    now rewrite push_becauseGas. }
  rewrite Hgas. clear Hgas. unfold b2.
  assert (D1 : phDirection "neutralizing" = None) by reflexivity.
  assert (D2 : phDirection "becoming more basic" = Some "up")
    by reflexivity.
  assert (D3 : phDirection "becoming more acidic" = Some "down")
    by reflexivity.
  destruct (trendLabelPH_labels h) as [E|[E|[E|E]]]; rewrite E.
  - cbn [truthy_str is_str gate app]. now rewrite <- app_assoc.
  - change (truthy_str (Some "neutralizing")) with true.
    change (is_str (Some "neutralizing") "becoming more basic") with false.
    change (is_str (Some "neutralizing") "becoming more acidic") with false.
    rewrite D1. cbn [gate app]. now rewrite <- app_assoc.
  - change (truthy_str (Some "becoming more basic")) with true.
    change (is_str (Some "becoming more basic") "becoming more basic")
      with true.
    change (is_str (Some "becoming more basic") "becoming more acidic")
      with false.
    rewrite D2, push_becausePH.
    change (gate false (becausePH materialRegistry reactions tile "down"))
      with (@nil string).
    cbn [app]. now rewrite <- !app_assoc.
  - change (truthy_str (Some "becoming more acidic")) with true.
    change (is_str (Some "becoming more acidic") "becoming more basic")
      with false.
    change (is_str (Some "becoming more acidic") "becoming more acidic")
      with true.
    rewrite D3, push_becausePH.
    change (gate false (becausePH materialRegistry reactions tile "up"))
      with (@nil string).
    cbn [app]. now rewrite <- !app_assoc.
Qed.

Lemma gate_length (fired : bool) (because : option string) :
  (List.length (gate fired because) <= 1)%nat.
Proof. destruct fired, because; simpl; lia. Qed.

Lemma gated_length (fired : bool) (because : completion (option string))
      (bits : list string) :
  gated fired because = Returns bits -> (List.length bits <= 1)%nat.
Proof.
  unfold gated. destruct fired; [|intro E; inversion E; simpl; lia].
  destruct because as [[s|]|x]; cbn [bind gate]; intro E; inversion E;
    simpl; lia.
Qed.

(** X5. The "Because" clauses of the summary come in a fixed order:
    temperature, pressure, pH, gas.  Each is asked for only when its trend
    fired (temperature, pressure or gas sum trending up; pH becoming more
    basic or more acidic) and is present only when the causal selector
    found a cause; a pH that is "neutralizing" or a trend that goes down
    never gets a clause.  There are at most four clauses, of which at most
    one for pH.  The temperature question is the only one that may throw,
    and the clauses are lost with it. *)
Theorem becauseBitsOf_gated {ops : JsNumber}
        (materialRegistry : string -> option Material)
        (reactions : list Reaction) (tile : Tile) :
  let h := tile_history tile in
  becauseBitsOf materialRegistry reactions tile
  = (temp <- gated (isUp (trendOf h "temp" (dbl 0.05)))
                   (becauseTemp materialRegistry reactions tile) ;;
     Returns
       (temp
        ++ gate (isUp (trendOf h "pressure" (dbl 0.02)))
                (becausePressure materialRegistry reactions tile)
        ++ gate (is_str (trendLabelPH h) "becoming more basic")
                (becausePH materialRegistry reactions tile "up")
        ++ gate (is_str (trendLabelPH h) "becoming more acidic")
                (becausePH materialRegistry reactions tile "down")
        ++ gate (isUp (trendOf h "gasSum" (dbl 0.01)))
                (becauseGas materialRegistry reactions tile))%list)
  /\ (is_str (trendLabelPH h) "becoming more basic"
      && is_str (trendLabelPH h) "becoming more acidic" = false)
  /\ (forall becauseBits,
         becauseBitsOf materialRegistry reactions tile = Returns becauseBits ->
         (List.length becauseBits <= 4)%nat).
Proof.
  intro h. rewrite becauseBitsOf_run. fold h.
  split; [reflexivity|].
  assert (Hex : is_str (trendLabelPH h) "becoming more basic"
                && is_str (trendLabelPH h) "becoming more acidic" = false).
  { destruct (trendLabelPH_labels h) as [E|[E|[E|E]]]; rewrite E;
      reflexivity. }
  split; [exact Hex|].
  intros becauseBits.
  destruct (gated (isUp (trendOf h "temp" (dbl 0.05)))
                  (becauseTemp materialRegistry reactions tile))
    as [temp|x] eqn:Etemp; [|discriminate].
  cbn [bind]. intro E. inversion E; subst becauseBits. clear E.
  rewrite !length_app.
  assert (L1 := gated_length _ _ _ Etemp).
  assert (L2 := gate_length (isUp (trendOf h "pressure" (dbl 0.02)))
                  (becausePressure materialRegistry reactions tile)).
  assert (L5 := gate_length (isUp (trendOf h "gasSum" (dbl 0.01)))
                  (becauseGas materialRegistry reactions tile)).
  destruct (is_str (trendLabelPH h) "becoming more basic");
    destruct (is_str (trendLabelPH h) "becoming more acidic");
    try discriminate;
    cbn [gate List.length] in *;
    repeat match goal with
           | |- context [match ?o with Some _ => _ | None => _ end] =>
               destruct o
           end; simpl; lia.
Qed.

Lemma trendOf_no_window {ops : JsNumber} (history : option (list Sample)) (field : string)
      (eps : Q) :
  lastN history 3 = None -> trendOf history field eps = flat.
Proof. intro H. unfold trendOf. now rewrite H. Qed.

Lemma lastN_none_short (history : option (list Sample)) :
  (forall h, history = Some h -> (List.length h < 2)%nat) ->
  lastN history 3 = None.
Proof.
  intro H. destruct history as [h|]; [|reflexivity].
  apply lastN_short. now apply H.
Qed.

(** X6. While the history of the tile has fewer than two samples (or is
    missing), the summary mentions no trend and no cause: it is "This tile
    is ", the descriptors joined by commas, a full stop, and the notable
    species if any. *)
Theorem summarizeTile_short_history {ops : JsNumber}
        (materialRegistry : string -> option Material)
        (reactions : list Reaction) (tile : Tile) :
  (forall h, tile_history tile = Some h -> (List.length h < 2)%nat) ->
  trendLabelTemp (tile_history tile) = ""
  /\ trendBitsOf tile = []
  /\ becauseBitsOf materialRegistry reactions tile = Returns []
  /\ summarizeTile materialRegistry reactions tile
     = Returns
         ("This tile is " ++ join ", " [tempWordOf tile; pHWordOf tile]
          ++ match skipn 2 (summaryBits tile) with
             | [] => ""
             | more => ", " ++ join ", " more
             end
          ++ "." ++ speciesTextOf materialRegistry tile).
Proof.
  intro Hshort. apply lastN_none_short in Hshort.
  assert (Htrend : forall field eps,
             trendOf (tile_history tile) field eps = flat)
    by (intros; now apply trendOf_no_window).
  assert (HpH : trendLabelPH (tile_history tile) = None)
    by (unfold trendLabelPH; now rewrite Hshort).
  assert (Htemp : trendLabelTemp (tile_history tile) = "")
    by (unfold trendLabelTemp; now rewrite Htrend).
  assert (Hbits : trendBitsOf tile = []).
  { unfold trendBitsOf, trendLabelPressure, trendLabelGas.
    now rewrite !Htrend, HpH. }
  assert (Hbecause : becauseBitsOf materialRegistry reactions tile
                     = Returns []).
  { rewrite becauseBitsOf_run, !Htrend, HpH. reflexivity. }
  split; [exact Htemp|]. split; [exact Hbits|]. split; [exact Hbecause|].
  unfold summarizeTile, becauseTextOf, summaryHead.
  rewrite Hbecause, Hbits. cbn [bind]. f_equal.
  unfold summaryBits, push. rewrite Htemp.
  assert (E : tempWordOf tile ++ "" = tempWordOf tile).
  { generalize (tempWordOf tile). intro w.
    induction w as [|c w IH]; simpl; [reflexivity|now rewrite IH]. }
  rewrite E.
  destruct (Qgtb (gasLevelOf tile) 1);
    [|destruct (Qgtb (gasLevelOf tile) (dbl 0.1))];
    destruct (Qgtb (num_or0 (tile_pressure tile)) 4);
    cbn [app skipn join String.concat];
    rewrite ?str_append_assoc; reflexivity.
Qed.

Lemma summarizeTile_short_history_witness :
  summarizeTile Examples.registry [] Examples.quietCell
  = Returns "This tile is temperate, near neutral.".
Proof.
  destruct (summarizeTile_short_history
              Examples.registry [] Examples.quietCell)
    as (_ & _ & _ & H).
  - intros h E. inversion E. simpl. lia.
  - rewrite H. reflexivity.
Defined.

(** ** The failure of the temperature question *)

(** [becauseTemp] throws exactly when the winner of its selection has a
    reaction without reactants and without id. *)
Lemma becauseTemp_throws (materialRegistry : string -> option Material)
      (reactions : list Reaction) (tile : Tile) :
  becauseTemp materialRegistry reactions tile = Throws TypeError
  <-> exists entry rx,
        pickActivity reactions tile (Some heatPredicate) = Some (entry, rx)
        /\ rx_reactants rx = [] /\ rx_id rx = None.
Proof.
  unfold becauseTemp.
  destruct (pickActivity reactions tile (Some heatPredicate))
    as [[entry rx]|].
  2:{ split; [discriminate|]. intros (e & r & H & _). discriminate. }
  destruct (rx_reactants rx) as [|a [|b l]] eqn:Er; cbn [map firstn bind].
  - destruct (rx_id rx) as [id|] eqn:Eid; cbn [niceName_of bind].
    + split; [discriminate|].
      intros (e & r & H & _ & Hid). inversion H; subst. congruence.
    + split; [|reflexivity]. intros _. exists entry, rx. now repeat split.
  - split; [discriminate|].
    intros (e & r & H & Hr & _). inversion H; subst. congruence.
  - split; [discriminate|].
    intros (e & r & H & Hr & _). inversion H; subst. congruence.
Qed.

Lemma isUp_true (t : Trend) : isUp t = true <-> t = up.
Proof. destruct t; split; discriminate || reflexivity. Qed.

(** The summary throws exactly when the temperature rises and the
    temperature question throws, and otherwise starts as every summary. *)
Lemma summarizeTile_outcome {ops : JsNumber}
      (materialRegistry : string -> option Material)
      (reactions : list Reaction) (tile : Tile) :
  (summarizeTile materialRegistry reactions tile = Throws TypeError
   <-> trendOf (tile_history tile) "temp" (dbl 0.05) = up
       /\ becauseTemp materialRegistry reactions tile = Throws TypeError)
  /\ forall summary,
       summarizeTile materialRegistry reactions tile = Returns summary ->
       exists rest, summary = "This tile is " ++ rest.
Proof.
  unfold summarizeTile, becauseTextOf. rewrite becauseBitsOf_run.
  unfold gated. rewrite <- isUp_true.
  destruct (isUp (trendOf (tile_history tile) "temp" (dbl 0.05))).
  - destruct (becauseTemp materialRegistry reactions tile) as [b|[]];
      cbn [bind].
    + split; [split; [discriminate|intros [_ H]; discriminate]|].
      intros summary E. inversion E. eexists. reflexivity.
    + split; [split; [now split|reflexivity]|discriminate].
  - cbn [bind]. split; [split; [discriminate|intros [H _]; discriminate]|].
    intros summary E. inversion E. eexists. reflexivity.
Qed.

(** C8, the code fails the claim: on a cell whose temperature rises and
    whose activity holds a heat-releasing entry with the reaction id
    "constructor", which no reaction of the catalogue carries, the lookup
    in the reaction index finds the inherited member of that name,
    [becauseTemp] takes the name of its undefined id, and [narrateTile]
    throws instead of returning a list.  For every cell, [narrateTile]
    throws exactly in this way, when the temperature trend is up and the
    temperature question selects an entry whose reaction has neither
    reactants nor an id; whenever it returns, the list starts with the
    summary of [summarizeTile], a string that begins with "This tile
    is ". *)
Theorem narrateTile_throws_on_inherited_id :
  (e_id Examples.inheritedHeat = "constructor"
   /\ (forall r, In r [Examples.neutralization] -> rx_key r <> "constructor")
   /\ rxIndex [Examples.neutralization] "constructor" = Some inherited_member
   /\ trendOf (tile_history Examples.warmingCell) "temp" (dbl 0.05) = up
   /\ narrateTile Examples.registry [Examples.neutralization]
        Examples.warmingCell
      = Throws TypeError)
  /\ forall (ops : JsNumber) (materialRegistry : string -> option Material)
            (reactions : list Reaction) (tile : Tile),
      (narrateTile materialRegistry reactions tile = Throws TypeError
       <-> trendOf (tile_history tile) "temp" (dbl 0.05) = up
           /\ exists entry rx,
                pickActivity reactions tile (Some heatPredicate)
                = Some (entry, rx)
                /\ rx_reactants rx = [] /\ rx_id rx = None)
      /\ (forall lines,
             narrateTile materialRegistry reactions tile = Returns lines ->
             exists summary rest,
               lines = summary :: rest
               /\ summarizeTile materialRegistry reactions tile
                  = Returns summary
               /\ summary <> ""
               /\ startsWith summary "This tile is " = true).
Proof.
  split.
  - split; [reflexivity|]. split; [|repeat split].
    intros r [<-|[]]. discriminate.
  - intros ops materialRegistry reactions tile.
    destruct (summarizeTile_outcome materialRegistry reactions tile)
      as [Hthrow Hret].
    rewrite narrateTile_lines. rewrite <- becauseTemp_throws, <- Hthrow.
    destruct (summarizeTile materialRegistry reactions tile)
      as [summary|[]]; cbn [bind].
    + split; [split; discriminate|].
      intros lines E. inversion E. eexists. eexists.
      split; [reflexivity|]. split; [reflexivity|].
      destruct (Hret summary eq_refl) as (rest & ->).
      split; [discriminate|]. unfold startsWith. apply prefix_append.
    + split; [split; reflexivity|discriminate].
Qed.

(** Boolean comparisons of the goal and the context as propositions. *)
Ltac qprops :=
  unfold Qgeb, Qgtb, Qltb in *;
  repeat match goal with
         | H : negb _ = true |- _ => apply negb_true_iff in H
         | H : negb _ = false |- _ => apply negb_false_iff in H
         | H : Qle_bool _ _ = true |- _ => apply Qle_bool_iff in H
         | H : Qle_bool _ _ = false |- _ => apply Qle_bool_false in H
         end.

(** X7. The temperature descriptor of the summary is "very hot" from 120,
    "hot" from 60 up to 120, "freezing" up to 0, "cool" above 0 and below
    20, and "temperate" from 20 up to 60 or when the temperature is
    missing.  The pH descriptor is "strongly acidic" up to 2, "slightly
    acidic" above 2 and below 6, "near neutral" from 6 to 8 inclusive or
    when the pH is missing, "slightly basic" above 8 and below 12, and
    "strongly basic" from 12. *)
Theorem descriptors_partition (tile : Tile) :
  (tile_temp tile = None -> tempWordOf tile = "temperate")
  /\ (forall t, tile_temp tile = Some t ->
        (120 <= t -> tempWordOf tile = "very hot")
        /\ (60 <= t -> t < 120 -> tempWordOf tile = "hot")
        /\ (t <= 0 -> tempWordOf tile = "freezing")
        /\ (0 < t -> t < 20 -> tempWordOf tile = "cool")
        /\ (20 <= t -> t < 60 -> tempWordOf tile = "temperate"))
  /\ (tile_pH tile = None -> pHWordOf tile = "near neutral")
  /\ (forall p, tile_pH tile = Some p ->
        (p <= 2 -> pHWordOf tile = "strongly acidic")
        /\ (2 < p -> p < 6 -> pHWordOf tile = "slightly acidic")
        /\ (6 <= p -> p <= 8 -> pHWordOf tile = "near neutral")
        /\ (8 < p -> p < 12 -> pHWordOf tile = "slightly basic")
        /\ (12 <= p -> pHWordOf tile = "strongly basic")).
Proof.
  split; [|split; [|split]].
  - intro E. unfold tempWordOf. now rewrite E.
  - intros t E. unfold tempWordOf. rewrite E. unfold opt_cmp.
    destruct (Qgeb t 120) eqn:E1, (Qgeb t 60) eqn:E2,
             (Qle_bool t 0) eqn:E3, (Qltb t 20) eqn:E4;
      qprops; repeat split; intros; try reflexivity; exfalso; lra.
  - intro E. unfold pHWordOf. now rewrite E.
  - intros p E. unfold pHWordOf. rewrite E. unfold opt_cmp.
    destruct (Qle_bool p 2) eqn:E1, (Qltb p 6) eqn:E2,
             (Qgtb p 8) eqn:E3, (Qltb p 12) eqn:E4, (Qgeb p 12) eqn:E5;
      qprops; repeat split; intros; try reflexivity; exfalso; lra.
Qed.

Lemma gasLevelOf_fold {ops : JsNumber} (tile : Tile) :
  gasLevelOf tile = fold_left num_add (map snd (tile_gas tile)) 0.
Proof.
  unfold gasLevelOf. generalize 0 as a. generalize (tile_gas tile) as g.
  induction g as [|kv g IH]; intro a; simpl; [reflexivity|apply IH].
Qed.

(** X8. The head of the summary always starts with the temperature
    descriptor (with its trend suffix) and the pH descriptor, so the
    literal "stable" is never used; after them come "gassy" when the gas
    level is above 1, "traces of gas" when it is above 0.1 and not above
    1, and "pressurized" when the pressure is above 4: between two and
    four descriptors in all.  The gas level is the sum of the gas
    quantities that the addition of doubles gives when they are added one
    by one, in the order of the map, starting from 0. *)
Theorem summaryBits_shape {ops : JsNumber} (tile : Tile) :
  exists more,
    summaryBits tile
    = (tempWordOf tile ++ trendLabelTemp (tile_history tile))
        :: pHWordOf tile :: more
    /\ (List.length more <= 2)%nat
    /\ (In "gassy" more <-> 1 < gasLevelOf tile)
    /\ (In "traces of gas" more
        <-> dbl 0.1 < gasLevelOf tile /\ gasLevelOf tile <= 1)
    /\ (In "pressurized" more <-> 4 < num_or0 (tile_pressure tile))
    /\ gasLevelOf tile
       = fold_left num_add (map snd (tile_gas tile)) 0
    /\ summaryHead tile
       = join ", " (summaryBits tile)
         ++ match trendBitsOf tile with
            | [] => ""
            | trendBits => "; " ++ join ", " trendBits
            end.
Proof.
  unfold summaryHead, summaryBits, push.
  destruct (Qgtb (gasLevelOf tile) 1) eqn:E1;
    [|destruct (Qgtb (gasLevelOf tile) (dbl 0.1)) eqn:E2];
    destruct (Qgtb (num_or0 (tile_pressure tile)) 4) eqn:E3;
    cbn [app]; eexists; (split; [reflexivity|]);
    (split; [simpl; lia|]);
    qprops;
    repeat split; intros; simpl in *;
    repeat match goal with
           | H : _ \/ _ |- _ => destruct H
           | H : _ /\ _ |- _ => destruct H
           | H : False |- _ => destruct H
           | H : _ = _ :> string |- _ => discriminate H
           end;
    try lra; try (exfalso; lra); auto; apply gasLevelOf_fold.
Qed.

(** ** Trends follow the values *)

Lemma slope_positive {ops : JsNumber} (dv dt eps : Q) :
  0 < dt -> 0 <= eps -> eps < num_div dv dt -> 0 < dv.
Proof.
  intros Hdt Heps H. apply (num_div_pos dv dt Hdt). lra.
Qed.

Lemma slope_negative {ops : JsNumber} (dv dt eps : Q) :
  0 < dt -> 0 <= eps -> num_div dv dt < - eps -> dv < 0.
Proof.
  intros Hdt Heps H. apply (num_div_neg dv dt Hdt). lra.
Qed.

Lemma elapsed_positive {ops : JsNumber} (tf tl : Q) :
  ~ num_div (num_sub tl tf) 1000 <= 0 -> tf < tl.
Proof.
  intro H. apply Qnot_le_lt in H.
  apply num_sub_pos. apply (num_div_pos _ 1000); [reflexivity|exact H].
Qed.

(** X9. With a threshold that is not negative, [trendOf] answers "up" only
    if, between the first and the last sample of its window, the time
    advanced and the value of the field (0 when missing) rose, and "down"
    only if the time advanced and the value fell; an unchanged value is
    always "flat". *)
Theorem trendOf_sound {ops : JsNumber} (h : list Sample) (field : string) (eps : Q)
        (d : Sample) :
  0 <= eps ->
  let n := List.length h in
  let first := nth (n - Nat.min 3 n) h d in
  let last := nth (n - 1) h d in
  let firstValue := num_or0 (sample_get first field) in
  let lastValue := num_or0 (sample_get last field) in
  (trendOf (Some h) field eps = up ->
   (2 <= n)%nat /\ s_t first < s_t last /\ firstValue < lastValue)
  /\ (trendOf (Some h) field eps = down ->
      (2 <= n)%nat /\ s_t first < s_t last /\ lastValue < firstValue)
  /\ (lastValue == firstValue -> trendOf (Some h) field eps = flat).
Proof.
  intros Heps n first last firstValue lastValue.
  destruct (Nat.lt_ge_cases n 2) as [Hs|Hl].
  - assert (E : trendOf (Some h) field eps = flat)
      by (unfold trendOf; now rewrite lastN_short).
    rewrite E. repeat split; intros; discriminate || reflexivity.
  - rewrite (trendOf_run h field eps d Hl). cbv zeta.
    fold n first last firstValue lastValue.
    set (dt := num_div (num_sub (s_t last) (s_t first)) 1000).
    destruct (Qle_bool dt 0) eqn:Edt.
    { repeat split; intros; discriminate || reflexivity. }
    apply Qle_bool_false in Edt.
    assert (Htime : s_t first < s_t last) by now apply elapsed_positive.
    assert (Hdt : 0 < dt) by now apply Qnot_le_lt.
    destruct (Qgtb (num_div (num_sub lastValue firstValue) dt) eps) eqn:Eup.
    { apply Qgtb_true in Eup.
      assert (Hv := slope_positive _ _ _ Hdt Heps Eup).
      apply (proj1 (num_sub_pos _ _)) in Hv.
      split; [intros _; repeat split; [exact Hl|exact Htime|exact Hv]|].
      split; [discriminate|].
      intro Heq. exfalso. lra. }
    destruct (Qltb (num_div (num_sub lastValue firstValue) dt) (- eps))
      eqn:Edown.
    { apply Qltb_true in Edown.
      assert (Hv := slope_negative _ _ _ Hdt Heps Edown).
      apply (proj1 (num_sub_neg _ _)) in Hv.
      split; [discriminate|].
      split; [intros _; repeat split; [exact Hl|exact Htime|exact Hv]|].
      intro Heq. exfalso. lra. }
    repeat split; intros; discriminate || reflexivity.
Qed.

Lemma trendOf_sound_witness :
  (2 <= List.length Examples.warming)%nat
  /\ s_t (nth 0 Examples.warming (mkSample 0 None None None None))
     < s_t (nth 1 Examples.warming (mkSample 0 None None None None))
  /\ 20 < 25.
Proof.
  destruct (trendOf_sound Examples.warming "temp" (dbl 0.05)
                          (mkSample 0 None None None None))
    as (Hup & _).
  - discriminate.
  - apply Hup. reflexivity.
Defined.

(** ** Narration of a tile recorded by the store *)

(** X10. For a tile whose history was produced by the store alone, the
    summary can explain only a rising temperature and a building pressure:
    its "Because" clauses are the temperature clause and the pressure
    clause, each under its own trend, and never a pH or a gas clause (and
    none at all when the temperature question throws). *)
Theorem store_tile_causes {ops : JsNumber} (nows : list Q) (subs idle : list Tile) :
  StoreTrace nows subs idle ->
  Forall
    (fun tile =>
       forall materialRegistry reactions,
         becauseBitsOf materialRegistry reactions tile
         = (temp <- gated (isUp (trendOf (tile_history tile) "temp" (dbl 0.05)))
                          (becauseTemp materialRegistry reactions tile) ;;
            Returns
              (temp
               ++ gate (isUp (trendOf (tile_history tile) "pressure" (dbl 0.02)))
                       (becausePressure materialRegistry reactions tile))
              %list))
    (subs ++ idle).
Proof.
  intro Htrace. apply trace_good in Htrace. apply Forall_app in Htrace.
  apply Forall_impl with (2 := Htrace).
  intros tile (_ & Hin & _) materialRegistry reactions.
  assert (HpH : trendLabelPH (tile_history tile) = None).
  { unfold historyOf in Hin.
    destruct (tile_history tile) as [h|]; [|reflexivity].
    apply trendLabelPH_without_pH. intros s Hs. now apply Hin. }
  assert (Hgas : trendOf (tile_history tile) "gasSum" (dbl 0.01) <> up).
  { assert (H : trendLabelGas (tile_history tile) = None).
    { unfold historyOf in Hin.
      destruct (tile_history tile) as [h|]; [|reflexivity].
      apply trendLabelGas_without_gasSum. intros s Hs. now apply Hin. }
    unfold trendLabelGas in H. intro E. rewrite E in H. discriminate. }
  rewrite becauseBitsOf_run, HpH.
  destruct (gated _ _) as [temp|x]; [|reflexivity]. cbn [bind]. f_equal.
  destruct (trendOf (tile_history tile) "gasSum" (dbl 0.01)); [now elim Hgas| |];
    cbn [is_str gate isUp app]; now rewrite !app_nil_r.
Qed.

Lemma store_tile_causes_witness :
  Forall
    (fun tile =>
       forall materialRegistry reactions,
         becauseBitsOf materialRegistry reactions tile
         = (temp <- gated (isUp (trendOf (tile_history tile) "temp" (dbl 0.05)))
                          (becauseTemp materialRegistry reactions tile) ;;
            Returns
              (temp
               ++ gate (isUp (trendOf (tile_history tile) "pressure" (dbl 0.02)))
                       (becausePressure materialRegistry reactions tile))
              %list))
    (recordSubscribedHistories 2000 Examples.storeAt1000 ++ []).
Proof.
  apply (store_tile_causes
           [2000; 1000] (recordSubscribedHistories 2000 Examples.storeAt1000)
           []).
  apply trace_record. unfold Examples.storeAt1000. apply trace_record.
  apply trace_subscribe; [apply trace_empty|reflexivity].
Defined.

(** ** Display names *)

Lemma strip_id_no_underscore (s : string) :
  forall skipping,
    ~ In "_"%char (list_ascii_of_string (strip_id skipping s)).
Proof.
  induction s as [|c r IH]; intro skipping; simpl; [tauto|].
  destruct skipping.
  - destruct (c =? ")")%char; apply IH.
  - destruct (c =? "_")%char eqn:Eu.
    + destruct (str_eqb r "g" || str_eqb r "l"); simpl; [tauto|].
      intros [H|H]; [discriminate|]. now apply (IH false).
    + destruct ((c =? "(")%char && closes r); [apply IH|]. simpl.
      intros [H|H]; [|now apply (IH false)].
      subst c. discriminate.
Qed.

Lemma trimStart_In (c : ascii) (s : string) :
  In c (list_ascii_of_string (trimStart s)) ->
  In c (list_ascii_of_string s).
Proof.
  induction s as [|a r IH]; simpl; [trivial|].
  destruct (is_ws a); [|trivial]. intro H. right. now apply IH.
Qed.

Lemma trimEnd_In (c : ascii) (s : string) :
  In c (list_ascii_of_string (trimEnd s)) ->
  In c (list_ascii_of_string s).
Proof.
  induction s as [|a r IH]; simpl; [trivial|].
  destruct (trimEnd r) as [|b r'] eqn:E.
  - destruct (is_ws a); simpl; [tauto|]. intros [H|[]]. now left.
  - simpl. intros [H|H]; [now left|]. right. apply IH. exact H.
Qed.

Lemma trimEnd_cons (a : ascii) (r : string) :
  trimEnd (String a r)
  = match trimEnd r with
    | EmptyString => if is_ws a then EmptyString else String a EmptyString
    | String b r' => String a (String b r')
    end.
Proof. reflexivity. Qed.

Lemma trimEnd_idempotent (s : string) : trimEnd (trimEnd s) = trimEnd s.
Proof.
  induction s as [|a r IH]; [reflexivity|].
  rewrite (trimEnd_cons a r).
  destruct (trimEnd r) as [|b r'] eqn:E.
  - destruct (is_ws a) eqn:Ea; [reflexivity|]. simpl. now rewrite Ea.
  - rewrite trimEnd_cons, IH. reflexivity.
Qed.

(** A string that does not start with white space still does not after
    its end was trimmed. *)
Lemma trimStart_trimEnd (s : string) :
  trimStart s = s -> trimStart (trimEnd s) = trimEnd s.
Proof.
  destruct s as [|a r]; [reflexivity|]. simpl.
  destruct (is_ws a) eqn:Ea.
  - intro H. exfalso.
    assert (L : (String.length (trimStart r) <= String.length r)%nat).
    { clear. induction r as [|b r IH]; simpl; [lia|].
      destruct (is_ws b); simpl; lia. }
    rewrite H in L. simpl in L. lia.
  - intros _. destruct (trimEnd r); simpl; now rewrite Ea.
Qed.

Lemma trimStart_idempotent (s : string) :
  trimStart (trimStart s) = trimStart s.
Proof.
  induction s as [|a r IH]; simpl; [reflexivity|].
  destruct (is_ws a) eqn:Ea; [exact IH|]. simpl. now rewrite Ea.
Qed.

(** X11. The name that [niceName] derives from an id (used when the
    registry has no display name for it) contains no underscore and has no
    white space at either end: trimming it again changes nothing.  A
    non-empty display name of the registry is returned as it is. *)
Theorem niceName_clean (materialRegistry : string -> option Material)
        (id : string) :
  (~ In "_"%char (list_ascii_of_string (clean_id id)))
  /\ trim (clean_id id) = clean_id id
  /\ (materialRegistry id = None -> niceName materialRegistry id = clean_id id)
  /\ (forall m,
         materialRegistry id = Some m ->
         niceName materialRegistry id
         = match m_displayName m with
           | Some name => if str_eqb name "" then clean_id id else name
           | None => clean_id id
           end).
Proof.
  split; [|split; [|split]].
  - unfold clean_id, trim. intro H.
    apply trimEnd_In, trimStart_In in H.
    now apply strip_id_no_underscore in H.
  - unfold clean_id, trim.
    rewrite trimStart_trimEnd by apply trimStart_idempotent.
    apply trimEnd_idempotent.
  - intro E. unfold niceName. now rewrite E.
  - intros m E. unfold niceName. rewrite E.
    destruct (m_displayName m) as [[|c name]|]; reflexivity.
Qed.

(** ** Hazard tags *)

Lemma add_tag_In (t x : string) (tags : list string) :
  In t (add_tag x tags) <-> t = x \/ In t tags.
Proof.
  unfold add_tag. destruct (mem_str x tags) eqn:E.
  - apply mem_str_In in E. split; [now right|]. now intros [->|H].
  - rewrite in_app_iff. simpl. split.
    + intros [H|[H|[]]]; [now right|now left].
    + intros [H|H]; [right; now left|now left].
Qed.

Lemma add_tag_NoDup (x : string) (tags : list string) :
  NoDup tags -> NoDup (add_tag x tags).
Proof.
  intro H. unfold add_tag. destruct (mem_str x tags) eqn:E; [exact H|].
  apply NoDup_app; [exact H|repeat constructor; simpl; tauto|].
  intros y Hy [<-|[]]. apply (proj2 (mem_str_In _ _)) in Hy. congruence.
Qed.

Lemma is_str_true (x : option string) (v : string) :
  is_str x v = true <-> x = Some v.
Proof.
  unfold is_str. destruct x as [s|]; [|split; discriminate].
  rewrite str_eqb_true. split; congruence.
Qed.

Lemma cond_add_tag_NoDup (b : bool) (x : string) (tags : list string) :
  NoDup tags -> NoDup (if b then add_tag x tags else tags).
Proof. destruct b; [apply add_tag_NoDup|trivial]. Qed.

Lemma cond_add_tag_In (b : bool) (t x : string) (tags : list string) :
  In t (if b then add_tag x tags else tags)
  <-> In t tags \/ (t = x /\ b = true).
Proof.
  destruct b; [rewrite add_tag_In; tauto|].
  split; [tauto|]. now intros [H|[_ H]].
Qed.

(** X12. [hazardsFor] returns no hazard for a species that the registry
    does not know.  For a known one it returns, without duplicates, the
    hazard tags of the material together with "flammable" for a high
    flammability, "caustic" for an acid or a base, "oxidizer" for an
    oxidizer and "toxic" for a high toxicity, and nothing else. *)
Theorem hazardsFor_spec (materialRegistry : string -> option Material)
        (id : string) :
  (materialRegistry id = None -> hazardsFor materialRegistry id = [])
  /\ forall m,
       materialRegistry id = Some m ->
       NoDup (hazardsFor materialRegistry id)
       /\ forall t,
            In t (hazardsFor materialRegistry id)
            <-> In t (m_hazardTags m)
                \/ (t = "flammable" /\ m_flammability m = Some "high")
                \/ (t = "caustic"
                    /\ (m_corrosivity m = Some "base"
                        \/ m_corrosivity m = Some "acid"))
                \/ (t = "oxidizer" /\ m_corrosivity m = Some "oxidizer")
                \/ (t = "toxic" /\ m_toxicity m = Some "high").
Proof.
  split; [intro E; unfold hazardsFor; now rewrite E|].
  intros m E. unfold hazardsFor. rewrite E.
  split.
  { repeat apply cond_add_tag_NoDup. apply uniq_NoDup. }
  intro t. rewrite !cond_add_tag_In, uniq_In.
  rewrite !orb_true_iff, !is_str_true, mem_str_In.
  rewrite !cond_add_tag_In, uniq_In.
  rewrite !orb_true_iff, !is_str_true.
  split.
  - intros [[[[H|H]|H]|H]|H]; try tauto.
    destruct H as [-> [H|H]]; [tauto|].
    destruct H as [[H|H]|H]; tauto.
  - tauto.
Qed.

(** ** The gas that a cause names *)

Lemma topGas_step_best (materialRegistry : string -> option Material)
      (rx : Reaction) (seen : list Product) (st : option string * Q)
      (p : Product) :
  gas_best materialRegistry rx seen st ->
  gas_best materialRegistry rx (seen ++ [p])
           (topGas_step materialRegistry rx st p).
Proof.
  unfold gas_best, topGas_step. fold (qtyOf p).
  destruct st as [[g|] q]; simpl.
  - intros (pre & b & post & Hseen & Hg & Hgas & Hq & Hpos & Hpre & Hpost).
    subst q.
    destruct (isGasProduct materialRegistry (p_id p) rx) eqn:Ep.
    + destruct (Qgtb (qtyOf p) (qtyOf b)) eqn:E; simpl.
      * apply Qgtb_true in E.
        exists seen, p, []. repeat split; auto; [lra| |intros x []].
        intros x Hx Hxg. subst seen. apply in_app_or in Hx.
        destruct Hx as [Hx|[Hx|Hx]].
        -- specialize (Hpre x Hx Hxg). lra.
        -- now subst x.
        -- specialize (Hpost x Hx Hxg). lra.
      * apply Qgtb_false in E.
        exists pre, b, (post ++ [p])%list.
        repeat split; auto; [subst seen; now rewrite <- app_assoc|].
        intros x Hx Hxg. apply in_app_or in Hx.
        destruct Hx as [Hx|[Hx|[]]]; [now apply Hpost|subst x; lra].
    + simpl. exists pre, b, (post ++ [p])%list.
      repeat split; auto; [subst seen; now rewrite <- app_assoc|].
      intros x Hx Hxg. apply in_app_or in Hx.
      destruct Hx as [Hx|[Hx|[]]]; [now apply Hpost|subst x; congruence].
  - intros (Hq & Hnone). subst q.
    destruct (isGasProduct materialRegistry (p_id p) rx) eqn:Ep.
    + destruct (Qgtb (qtyOf p) 0) eqn:E; simpl.
      * apply Qgtb_true in E.
        exists seen, p, []. repeat split; auto; [|intros x []].
        intros x Hx Hxg. specialize (Hnone x Hx Hxg). lra.
      * apply Qgtb_false in E. split; [reflexivity|].
        intros x Hx Hxg. apply in_app_or in Hx.
        destruct Hx as [Hx|[Hx|[]]]; [now apply Hnone|now subst x].
    + simpl. split; [reflexivity|].
      intros x Hx Hxg. apply in_app_or in Hx.
      destruct Hx as [Hx|[Hx|[]]]; [now apply Hnone|subst x; congruence].
Qed.

Lemma topGas_fold_best (materialRegistry : string -> option Material)
      (rx : Reaction) (l : list Product) :
  forall seen st,
    gas_best materialRegistry rx seen st ->
    gas_best materialRegistry rx (seen ++ l)
             (fold_left (topGas_step materialRegistry rx) l st).
Proof.
  induction l as [|p l IH]; intros seen st H; simpl.
  - now rewrite app_nil_r.
  - replace (seen ++ p :: l)%list with ((seen ++ [p]) ++ l)%list
      by now rewrite <- app_assoc.
    apply IH. now apply topGas_step_best.
Qed.

(** X13. The gas that "gas increasing because ..." and "pressure building
    because ..." name is the gas-phase product of the winning entry with
    the greatest positive quantity, the first one among equals; when no
    gas-phase product has a positive quantity there is none, and the
    clause says "gas". *)
Theorem topGas_spec (materialRegistry : string -> option Material)
        (entry : Activity) (rx : Reaction) :
  (topGas materialRegistry entry rx = None
   <-> forall p, In p (e_products entry) ->
                 isGasProduct materialRegistry (p_id p) rx = true ->
                 ~ 0 < qtyOf p)
  /\ forall g,
       topGas materialRegistry entry rx = Some g ->
       exists pre p post,
         e_products entry = (pre ++ p :: post)%list
         /\ p_id p = g
         /\ isGasProduct materialRegistry (p_id p) rx = true
         /\ 0 < qtyOf p
         /\ (forall x, In x pre ->
                       isGasProduct materialRegistry (p_id x) rx = true ->
                       qtyOf x < qtyOf p)
         /\ (forall x, In x post ->
                       isGasProduct materialRegistry (p_id x) rx = true ->
                       qtyOf x <= qtyOf p).
Proof.
  assert (H := topGas_fold_best materialRegistry rx (e_products entry)
                 [] (None, 0)).
  simpl app in H. unfold topGas.
  set (st := fold_left (topGas_step materialRegistry rx)
                       (e_products entry) (None, 0)) in *.
  assert (Hinit : gas_best materialRegistry rx [] (None, 0))
    by (split; [reflexivity|intros p []]).
  specialize (H Hinit). unfold gas_best in H.
  destruct (fst st) as [g|].
  - destruct H as (pre & p & post & Hseen & Hg & Hgas & _ & Hpos & Hpre
                   & Hpost).
    split.
    + split; [discriminate|]. intro Hnone. exfalso.
      apply (Hnone p); auto. rewrite Hseen. apply in_or_app. right. now left.
    + intros g' E. inversion E; subst g'.
      exists pre, p, post. now repeat split.
  - destruct H as (_ & Hnone). split; [|discriminate].
    split; [intros _; exact Hnone|reflexivity].
Qed.

(** ** The gas clause of a reaction without gas product *)

Lemma productGasOf_none (materialRegistry : string -> option Material)
      (rx : Reaction) (products : list Product) :
  (forall p, In p products ->
             isGasProduct materialRegistry (p_id p) rx = false) ->
  productGasOf materialRegistry rx products = (None, 0).
Proof.
  unfold productGasOf. induction products as [|p l IH]; intro H; simpl.
  - reflexivity.
  - unfold productGas_step at 2. rewrite (H p) by now left.
    apply IH. intros x Hx. apply H. now right.
Qed.

(** The gas of a tile that a sentence may name: the most abundant one
    above 0.05. *)
Lemma tileGasOf_spec (g : list (string * Q)) :
  (tileGasOf (Some g) = None <-> forall kv, In kv g -> ~ dbl 0.05 < snd kv)
  /\ forall id v,
       tileGasOf (Some g) = Some (id, v) ->
       In (id, v) g /\ dbl 0.05 < v /\ forall kv, In kv g -> snd kv <= v.
Proof.
  unfold tileGasOf.
  set (f := filter (fun kv => Qgtb (snd kv) (dbl 0.05)) g).
  assert (Hperm := sort_desc_perm snd f).
  assert (Hsorted := sort_desc_sorted snd f).
  destruct (sort_desc snd f) as [|[id v] r] eqn:E; simpl.
  - apply Permutation_nil in Hperm. split; [|discriminate].
    split; [|reflexivity]. intros _ kv Hin Hgt.
    assert (Hf : In kv f)
      by (apply filter_In; split; [exact Hin|now apply Qgtb_true]).
    rewrite Hperm in Hf. destruct Hf.
  - assert (Hin : In (id, v) f)
      by (apply (Permutation_in _ Hperm); now left).
    apply filter_In in Hin. destruct Hin as [Hin Hv].
    apply Qgtb_true in Hv. simpl in Hv.
    split.
    + split; [discriminate|]. intro Hnone. exfalso.
      now apply (Hnone (id, v) Hin).
    + intros id' v' E'. inversion E'; subst id' v'.
      split; [exact Hin|]. split; [exact Hv|].
      intros kv Hkv. destruct (Qgtb (snd kv) (dbl 0.05)) eqn:Ekv.
      * assert (Hf : In kv f) by (apply filter_In; now split).
        apply (Permutation_in _ (Permutation_sym Hperm)) in Hf.
        destruct Hf as [<-|Hf]; [apply Qle_refl|].
        apply (sorted_desc_head snd (id, v) r Hsorted kv Hf).
      * apply Qgtb_false in Ekv. lra.
Qed.

(** X14. For a reaction step without gas-phase product, the gas clause
    depends on the tile alone: when the tile the entry points to holds a
    gas above 0.05, the sentence says "releasing" with the display name of
    the most abundant such gas and its hazard flair, whatever the
    reaction; otherwise the clause is "releasing gas" for a reaction with
    an emit-gas effect or a tag containing [gas_evolution], and absent for
    any other reaction. *)
Theorem describeGas_without_gas_product {ops : JsNumber}
        (materialRegistry : string -> option Material)
        (rx : Reaction) (fx : Effects) (products : list Product)
        (tile : option (list (string * Q))) :
  (forall p, In p products ->
             isGasProduct materialRegistry (p_id p) rx = false) ->
  (forall g id v,
      tile = Some g -> tileGasOf tile = Some (id, v) -> id <> "" ->
      describeGas materialRegistry rx fx products tile
      = Some ("releasing " ++ niceName materialRegistry id
              ++ hazardFlair (hazardsFor materialRegistry id))
      /\ In (id, v) g /\ dbl 0.05 < v /\ forall kv, In kv g -> snd kv <= v)
  /\ ((tile = None
       \/ (exists g, tile = Some g
                     /\ forall kv, In kv g -> ~ dbl 0.05 < snd kv)
       \/ (exists v, tileGasOf tile = Some ("", v))) ->
      describeGas materialRegistry rx fx products tile
      = if tag rx "gas_evolution" || fx_emitGas fx
        then Some "releasing gas" else None).
Proof.
  intro Hnogas.
  assert (Hrun : describeGas materialRegistry rx fx products tile
                 = match tileGasOf tile with
                   | Some (id, _) =>
                       if str_eqb id ""
                       then if tag rx "gas_evolution" || fx_emitGas fx
                            then Some "releasing gas" else None
                       else Some ("releasing " ++ niceName materialRegistry id
                                  ++ hazardFlair
                                       (hazardsFor materialRegistry id))
                   | None =>
                       if tag rx "gas_evolution" || fx_emitGas fx
                       then Some "releasing gas" else None
                   end).
  { unfold describeGas. rewrite (productGasOf_none _ _ _ Hnogas).
    destruct (tileGasOf tile) as [[id v]|]; simpl.
    - destruct id as [|c id]; simpl;
        [now rewrite orb_false_r|reflexivity].
    - now rewrite orb_false_r. }
  split.
  - intros g id v Htile Htop Hid. rewrite Hrun, Htop.
    assert (E : str_eqb id "" = false).
    { destruct (str_eqb id "") eqn:E; [|reflexivity].
      apply str_eqb_true in E. now elim Hid. }
    rewrite E. split; [reflexivity|].
    subst tile. now apply tileGasOf_spec.
  - intros [Hnone|[(g & Hg & Hlow)|(v & Hv)]]; rewrite Hrun.
    + now rewrite Hnone.
    + subst tile. apply (proj1 (tileGasOf_spec g)) in Hlow.
      now rewrite Hlow.
    + now rewrite Hv.
Qed.

Lemma describeGas_without_gas_product_witness :
  describeGas Examples.registry Examples.neutralization no_effects
    [mkProduct "H2O" (Some 2.0)] (Some [("CO2_g", 0.5); ("O2", dbl 0.2)])
  = Some "releasing CO2".
Proof.
  destruct (describeGas_without_gas_product
              Examples.registry Examples.neutralization no_effects
              [mkProduct "H2O" (Some 2.0)]
              (Some [("CO2_g", 0.5); ("O2", dbl 0.2)])) as [H _].
  - intros p [<-|[]]. reflexivity.
  - destruct (H [("CO2_g", 0.5); ("O2", dbl 0.2)] "CO2_g" 0.5
                eq_refl eq_refl) as [E _]; [discriminate|].
    rewrite E. reflexivity.
Defined.

(** ** The throttle and the expiry of the history store *)

Lemma ensureHistoryBuffer_fixed (tile : Tile) (h : list Sample)
      (m : HistoryMeta) :
  tile_history tile = Some h -> tile_historyMeta tile = Some m ->
  ensureHistoryBuffer tile = tile.
Proof.
  destruct tile. simpl. intros -> ->. reflexivity.
Qed.

Lemma recordTile_meta {ops : JsNumber} (now : Q) (tile : Tile) :
  appends now tile = true ->
  tile_historyMeta (recordTile now tile) = Some (mkMeta (Some now))
  /\ exists h, tile_history (recordTile now tile) = Some h.
Proof.
  unfold appends, recordTile. intro H. apply negb_true_iff in H.
  rewrite H.
  destruct (tile_history (ensureHistoryBuffer tile)) as [h|] eqn:Eh.
  - simpl. split; [|eexists; reflexivity].
    now destruct (tile_historyMeta tile).
  - simpl in Eh. now destruct (tile_history tile).
Qed.

(** X15. After a call that appended a sample to a tile at a time [now]
    other than 0, a call at a time [now'] leaves the tile exactly as it is
    when the difference [now' - now], as the subtraction of doubles gives
    it, is below [HISTORY_SAMPLE_MS] (150 ms), and appends again when that
    difference is at least 150 ms.  A sample appended at time 0 does not
    throttle: the next call appends whatever its time. *)
Theorem recordTile_throttle {ops : JsNumber} (now now' : Q) (tile : Tile) :
  appends now tile = true ->
  let tile1 := recordTile now tile in
  HISTORY_SAMPLE_MS == 150
  /\ (~ now == 0 -> num_sub now' now < HISTORY_SAMPLE_MS ->
      appends now' tile1 = false /\ recordTile now' tile1 = tile1)
  /\ (~ now == 0 -> HISTORY_SAMPLE_MS <= num_sub now' now ->
      appends now' tile1 = true)
  /\ (now == 0 -> appends now' tile1 = true).
Proof.
  intros Happ tile1.
  destruct (recordTile_meta now tile Happ) as (Hmeta & h & Hh).
  fold tile1 in Hmeta, Hh.
  assert (Hfix : ensureHistoryBuffer tile1 = tile1)
    by now apply ensureHistoryBuffer_fixed with h (mkMeta (Some now)).
  assert (Hsoon : appends now' tile1
                  = negb (if Qeq_bool now 0 then false
                          else Qltb (num_sub now' now) HISTORY_SAMPLE_MS)).
  { unfold appends. rewrite Hfix, Hmeta. reflexivity. }
  split; [reflexivity|]. split; [|split].
  - intros Hnz Hlt.
    assert (E0 : Qeq_bool now 0 = false).
    { destruct (Qeq_bool now 0) eqn:E; [|reflexivity].
      apply Qeq_bool_iff in E. now elim Hnz. }
    apply Qltb_true in Hlt.
    assert (Hno : appends now' tile1 = false)
      by (rewrite Hsoon, E0, Hlt; reflexivity).
    split; [exact Hno|].
    unfold appends in Hno. apply negb_false_iff in Hno.
    unfold recordTile. rewrite Hfix in *. now rewrite Hh, Hno.
  - intros Hnz Hge.
    assert (E0 : Qeq_bool now 0 = false).
    { destruct (Qeq_bool now 0) eqn:E; [|reflexivity].
      apply Qeq_bool_iff in E. now elim Hnz. }
    assert (E1 : Qltb (num_sub now' now) HISTORY_SAMPLE_MS = false)
      by (apply Qltb_false; now apply Qle_not_lt).
    now rewrite Hsoon, E0, E1.
  - intro Hz. apply Qeq_bool_iff in Hz. now rewrite Hsoon, Hz.
Qed.

Lemma recordTile_throttle_witness :
  recordTile 1100 (recordTile 1000 (subscribeHistory Examples.quietCell))
  = recordTile 1000 (subscribeHistory Examples.quietCell).
Proof.
  destruct (recordTile_throttle 1000 1100
              (subscribeHistory Examples.quietCell) eq_refl)
    as (_ & H & _).
  destruct H as [_ H].
  - intro E. vm_compute in E. discriminate.
  - vm_compute. reflexivity.
  - exact H.
Defined.

Lemma expire_split (cutoff : Q) (h : list Sample) :
  exists old,
    h = (old ++ expire cutoff h)%list
    /\ Forall (fun s => s_t s < cutoff) old.
Proof.
  induction h as [|s r (old & IH & Hold)]; simpl.
  - now exists [].
  - destruct (Qltb (s_t s) cutoff) eqn:E.
    + apply Qltb_true in E. exists (s :: old). simpl.
      split; [now rewrite <- IH|now constructor].
    + now exists [].
Qed.

(** X16. A recording only appends at the end and removes at the front: the
    history afterwards is what remains of the old history (followed by the
    new sample when one is appended) after a run of leading samples older
    than the cutoff [now - HISTORY_DURATION_MS] of the call and at most
    one more leading sample were removed; that one more sample is removed only when more than 200
    would remain, and a call that does not append removes nothing. *)
Theorem recordTile_drops {ops : JsNumber} (now : Q) (tile : Tile) :
  exists old capped,
    (if appends now tile
     then push (historyOf tile) (sampleOf now tile)
     else historyOf tile)
    = (old ++ capped ++ historyOf (recordTile now tile))%list
    /\ Forall (fun s => s_t s < num_sub now HISTORY_DURATION_MS) old
    /\ (List.length capped <= 1)%nat
    /\ (capped <> [] ->
        (200 <= List.length (historyOf (recordTile now tile)))%nat)
    /\ (appends now tile = false -> old = [] /\ capped = []).
Proof.
  rewrite recordTile_history. destruct (appends now tile).
  - set (h1 := push (historyOf tile) (sampleOf now tile)).
    destruct (expire_split (num_sub now HISTORY_DURATION_MS) h1)
      as (old & E1 & Hold).
    set (h2 := expire (num_sub now HISTORY_DURATION_MS) h1) in *.
    unfold cap. destruct (200 <? List.length h2)%nat eqn:E.
    + apply Nat.ltb_lt in E. destruct h2 as [|s r]; [simpl in E; lia|].
      exists old, [s]. simpl in *.
      repeat split; auto; try lia; discriminate.
    + exists old, []. simpl. repeat split; auto; try lia; try discriminate.
      intro H. now elim H.
  - exists [], []. simpl. repeat split; auto. intro H. now elim H.
Qed.

(** X17. Releasing a tile resets the throttle: once the tile is subscribed
    again, the next recording appends whatever its time.  Releasing with
    [clear] also empties the history, so that this recording leaves the
    new sample alone in it; releasing without [clear] keeps the history. *)
Theorem unsubscribeHistory_resets {ops : JsNumber} (tile : Tile) (clear : bool) (now : Q) :
  let released := unsubscribeHistory tile clear in
  let again := subscribeHistory released in
  appends now again = true
  /\ historyOf released = (if clear then [] else historyOf tile)
  /\ historyOf again = historyOf released
  /\ (clear = true ->
      historyOf (recordTile now again) = [sampleOf now tile]).
Proof.
  intros released again.
  assert (Happ : appends now again = true).
  { unfold appends, again, released, subscribeHistory.
    destruct tile as [t p m pr g sp [h|] [meta|] acts], clear; reflexivity. }
  assert (Hrel : historyOf released = if clear then [] else historyOf tile).
  { unfold released, historyOf, unsubscribeHistory. simpl.
    destruct (tile_history tile), clear; reflexivity. }
  assert (Hagain : historyOf again = historyOf released)
    by apply historyOf_ensure.
  split; [exact Happ|]. split; [exact Hrel|]. split; [exact Hagain|].
  intro Hclear. subst clear.
  rewrite recordTile_history, Happ, Hagain, Hrel.
  change (sampleOf now again) with (sampleOf now tile).
  unfold push. simpl app.
  assert (E : expire (num_sub now HISTORY_DURATION_MS) [sampleOf now tile]
              = [sampleOf now tile]).
  { simpl. assert (H := now_after_cutoff now).
    apply Qltb_false in H. now rewrite H. }
  now rewrite E.
Qed.

(** ** The inspector *)

(** X18. [clampPercent] returns a value between 0 and 100; it returns its
    argument when that lies between 0 and 100, 0 below and 100 above, and
    clamping twice is clamping once. *)
Theorem clampPercent_bounds (value : Q) :
  0 <= clampPercent value
  /\ clampPercent value <= 100
  /\ (0 <= value -> value <= 100 -> clampPercent value == value)
  /\ (value <= 0 -> clampPercent value == 0)
  /\ (100 <= value -> clampPercent value == 100)
  /\ clampPercent (clampPercent value) = clampPercent value.
Proof.
  unfold clampPercent, Math_max, Math_min.
  destruct (Qle_bool 100 value) eqn:E1.
  - change (Qle_bool 0 100) with true. cbv iota.
    change (Qle_bool 100 100) with true. cbv iota.
    change (Qle_bool 0 100) with true. cbv iota.
    qprops. repeat split; intros; try lra; reflexivity.
  - destruct (Qle_bool 0 value) eqn:E2.
    + rewrite E1, E2. qprops. repeat split; intros; try lra; reflexivity.
    + change (Qle_bool 100 0) with false. cbv iota.
      change (Qle_bool 0 0) with true. cbv iota.
      qprops. repeat split; intros; try lra; reflexivity.
Qed.

Lemma clampPercent_of_max4 (x : Q) :
  4 <= clampPercent (Math_max 4 x) /\ clampPercent (Math_max 4 x) <= 100.
Proof.
  unfold clampPercent, Math_max, Math_min.
  destruct (Qle_bool 4 x) eqn:E4.
  - destruct (Qle_bool 100 x) eqn:E100.
    + change (Qle_bool 0 100) with true. cbv iota. split; discriminate.
    + destruct (Qle_bool 0 x) eqn:E0; qprops; split; lra.
  - change (Qle_bool 100 4) with false. cbv iota.
    change (Qle_bool 0 4) with true. cbv iota. split; discriminate.
Qed.

Lemma clampPercent_full (x : Q) :
  x == 100 -> clampPercent (Math_max 4 x) == 100.
Proof.
  intro E. unfold clampPercent, Math_max, Math_min.
  assert (E4 : Qle_bool 4 x = true) by (apply Qle_bool_iff; lra).
  assert (E100 : Qle_bool 100 x = true) by (apply Qle_bool_iff; lra).
  rewrite E4, E100. reflexivity.
Qed.

Lemma speciesItems_spec (entries : list (string * Q)) :
  (List.length (speciesItems entries) <= 8)%nat
  /\ sorted_desc snd (speciesItems entries)
  /\ (forall kv, In kv (speciesItems entries) ->
                 In kv entries /\ dbl 0.0001 < snd kv)
  /\ ((List.length (speciesItems entries) < 8)%nat ->
      forall kv, In kv entries -> dbl 0.0001 < snd kv ->
                 In kv (speciesItems entries)).
Proof.
  unfold speciesItems.
  set (f := filter (fun kv => Qgtb (snd kv) (dbl 0.0001)) entries).
  assert (Hperm := sort_desc_perm snd f).
  assert (Hsorted := sort_desc_sorted snd f).
  set (s := sort_desc snd f) in *.
  split; [rewrite length_firstn; lia|]. split; [|split].
  - rewrite <- (firstn_skipn 8 s) in Hsorted.
    now apply sorted_desc_app_l in Hsorted.
  - intros kv Hin.
    assert (Hs : In kv s)
      by (rewrite <- (firstn_skipn 8 s); apply in_or_app; now left).
    apply (Permutation_in _ Hperm) in Hs. apply filter_In in Hs.
    destruct Hs as [Hs Hv]. apply Qgtb_true in Hv. now split.
  - intros Hlen kv Hin Hv. rewrite length_firstn in Hlen.
    rewrite firstn_all2 by lia.
    apply (Permutation_in _ (Permutation_sym Hperm)).
    apply filter_In. split; [exact Hin|now apply Qgtb_true].
Qed.

(** X19. The species panel lists at most eight rows: the entries with a
    quantity above 0.0001, in descending order of quantity (all of them
    when fewer than eight are listed).  The bar of every row is between 4
    and 100 percent wide, and the bar of the first row is 100 percent
    wide. *)
Theorem speciesBars_spec {ops : JsNumber} (entries : list (string * Q)) (bag : string)
        (materialRegistry : string -> option Material) :
  let items := speciesItems entries in
  let rows := speciesBars entries bag materialRegistry in
  map (fun row => fst (fst row)) rows = map fst items
  /\ (List.length rows <= 8)%nat
  /\ sorted_desc snd items
  /\ (forall kv, In kv items -> In kv entries /\ dbl 0.0001 < snd kv)
  /\ ((List.length items < 8)%nat ->
      forall kv, In kv entries -> dbl 0.0001 < snd kv -> In kv items)
  /\ Forall (fun row => 4 <= snd (fst row) /\ snd (fst row) <= 100) rows
  /\ (forall row rest, rows = row :: rest -> snd (fst row) == 100).
Proof.
  intros items rows.
  destruct (speciesItems_spec entries) as (Hlen & Hsorted & Hin & Hall).
  fold items in Hlen, Hsorted, Hin, Hall.
  assert (Hrows : rows
                  = match items with
                    | [] => []
                    | (_, top) :: _ =>
                        map (fun kv =>
                               (fst kv,
                                clampPercent
                                  (Math_max 4
                                     (num_mul (num_div (snd kv) top) 100)),
                                colorForSpecies (fst kv) bag materialRegistry))
                            items
                    end) by reflexivity.
  split; [|split; [|split; [exact Hsorted|split; [exact Hin|split;
                                                   [exact Hall|split]]]]].
  - rewrite Hrows. destruct items as [|[id0 top] r]; [reflexivity|].
    rewrite map_map. reflexivity.
  - rewrite Hrows. destruct items as [|[id0 top] r]; [simpl; lia|].
    now rewrite length_map.
  - rewrite Hrows. destruct items as [|[id0 top] r]; [constructor|].
    apply Forall_map. apply Forall_forall. intros kv _. simpl.
    apply clampPercent_of_max4.
  - intros row rest E. rewrite Hrows in E.
    destruct items as [|[id0 top] r] eqn:Eitems; [discriminate|].
    simpl in E. inversion E; subst row. simpl.
    apply clampPercent_full.
    assert (Htop : (dbl 0.0001) < top)
      by (apply (Hin (id0, top)); now left).
    assert (Hpos : 0 < dbl 0.0001) by reflexivity.
    apply num_mul_1_l. apply num_div_diag; [lra|reflexivity].
Qed.

Lemma includes_refl (s : string) : includes s s = true.
Proof.
  assert (H : String.prefix s s = true).
  { induction s as [|c s IH]; [reflexivity|]. simpl.
    destruct (ascii_dec c c) as [_|Hne]; [exact IH|now elim Hne]. }
  destruct s; simpl in *; [reflexivity|now rewrite H].
Qed.

(** X20. The colour of a row is one of five colours.  In the gas panel it
    is always the gas colour and in the solids panel the solid colour.
    In the aqueous panel a species that the narrator classifies as an
    acid is drawn in the acid colour, and one that it classifies as a
    base in the base colour unless it also counts as an acid; a species
    that the registry does not know is coloured by the ending of its id
    alone. *)
Theorem colorForSpecies_spec (id bag : string)
        (materialRegistry : string -> option Material) :
  let color := colorForSpecies id bag materialRegistry in
  (bag = "gas" -> color = SPECIES_COLORS.gas)
  /\ (bag = "solids" -> color = SPECIES_COLORS.solid)
  /\ (color = SPECIES_COLORS.acid \/ color = SPECIES_COLORS.base
      \/ color = SPECIES_COLORS.gas \/ color = SPECIES_COLORS.solid
      \/ color = SPECIES_COLORS.neutral)
  /\ (bag <> "gas" -> bag <> "solids" ->
      (isAcidReactant materialRegistry id = true ->
       color = SPECIES_COLORS.acid)
      /\ (isBaseReactant materialRegistry id = true ->
          color = SPECIES_COLORS.acid \/ color = SPECIES_COLORS.base)
      /\ (materialRegistry id = None ->
          color = if endsWith id "_g" || endsWith id "(g)"
                  then SPECIES_COLORS.gas
                  else if endsWith id "(s)" then SPECIES_COLORS.solid
                       else SPECIES_COLORS.neutral)).
Proof.
  intro color. unfold color, colorForSpecies.
  split; [intros ->; reflexivity|].
  split; [intros ->; reflexivity|].
  split.
  { destruct (str_eqb bag "gas"); [tauto|].
    destruct (str_eqb bag "solids"); [tauto|].
    destruct (_ || _); [tauto|]. destruct (_ || _); [tauto|].
    destruct (_ || _ || _); [tauto|]. destruct (_ || _); tauto. }
  intros Hgas Hsolids.
  assert (E1 : str_eqb bag "gas" = false).
  { destruct (str_eqb bag "gas") eqn:E; [|reflexivity].
    apply str_eqb_true in E. now elim Hgas. }
  assert (E2 : str_eqb bag "solids" = false).
  { destruct (str_eqb bag "solids") eqn:E; [|reflexivity].
    apply str_eqb_true in E. now elim Hsolids. }
  rewrite E1, E2. unfold isAcidReactant, isBaseReactant.
  destruct (materialRegistry id) as [m|].
  - split; [|split; [|discriminate]].
    + intro H. apply orb_true_iff in H.
      assert (Hacid : mem_str "acid" (m_hazardTags m)
                      || includes
                           match m_corrosivity m with
                           | Some c => c
                           | None => ""
                           end "acid" = true).
      { apply orb_true_iff. destruct H as [H|H]; [right|now left].
        apply is_str_true in H. rewrite H. apply includes_refl. }
      now rewrite Hacid.
    + intro H. apply orb_true_iff in H.
      destruct (mem_str "acid" (m_hazardTags m)
                || includes
                     match m_corrosivity m with
                     | Some c => c
                     | None => ""
                     end "acid"); [now left|].
      assert (Hbase : mem_str "base" (m_hazardTags m)
                      || includes
                           match m_corrosivity m with
                           | Some c => c
                           | None => ""
                           end "base" = true).
      { apply orb_true_iff. destruct H as [H|H]; [right|now left].
        apply is_str_true in H. rewrite H. apply includes_refl. }
      rewrite Hbase. now right.
  - split; [discriminate|]. split; [discriminate|]. intros _. reflexivity.
Qed.

Lemma speciesBars_rows {ops : JsNumber} (entries : list (string * Q)) (bag : string)
      (materialRegistry : string -> option Material) :
  map (fun row => fst (fst row)) (speciesBars entries bag materialRegistry)
  = map fst (speciesItems entries).
Proof.
  unfold speciesBars.
  destruct (speciesItems entries) as [|[id0 top] r]; [reflexivity|].
  rewrite map_map. reflexivity.
Qed.

(** X21. The notable species of the summary are the display names of the
    first two rows of the inspector's aqueous species panel. *)
Theorem notable_species_are_top_rows {ops : JsNumber}
        (materialRegistry : string -> option Material) (tile : Tile) :
  speciesPairsOf materialRegistry tile
  = map (niceName materialRegistry)
        (firstn 2 (map fst (speciesItems (tile_species tile))))
  /\ speciesPairsOf materialRegistry tile
     = map (fun row => niceName materialRegistry (fst (fst row)))
           (firstn 2 (speciesBars (tile_species tile) "species"
                                  materialRegistry)).
Proof.
  assert (H1 : speciesPairsOf materialRegistry tile
               = map (niceName materialRegistry)
                     (firstn 2 (map fst (speciesItems (tile_species tile))))).
  { unfold speciesPairsOf, speciesItems.
    rewrite firstn_map, firstn_firstn. simpl Nat.min.
    now rewrite map_map. }
  split; [exact H1|]. rewrite H1.
  rewrite <- (speciesBars_rows (tile_species tile) "species"
                              materialRegistry).
  rewrite firstn_map, !map_map. reflexivity.
Qed.

(** ** The frame of a per-reaction sentence *)

(** X22. [describeReactionEntry] returns null exactly for an entry whose
    reaction id the lookup in the reaction index does not find: an id that
    no reaction of the catalogue carries and that is not a name inherited
    from [Object.prototype].  For any other entry it
    returns a sentence that begins with the actor phrase of the reaction,
    continues with nothing or with ", " and the consequences, and ends
    with ". Intensity N%, L." where N is the intensity of the entry and L
    the description of its limiter. *)
Theorem describeReactionEntry_frame {ops : JsNumber}
        (materialRegistry : string -> option Material)
        (reactions : list Reaction) (entry : Activity) :
  (describeReactionEntry materialRegistry reactions entry = None
   <-> rxIndex reactions (e_id entry) = None)
  /\ (describeReactionEntry materialRegistry reactions entry = None
      <-> (forall r, In r reactions -> rx_key r <> e_id entry)
          /\ ~ In (e_id entry) inherited_names)
  /\ forall rx,
       rxIndex reactions (e_id entry) = Some rx ->
       exists consText,
         describeReactionEntry materialRegistry reactions entry
         = Some (actorPhrase materialRegistry rx ++ consText
                 ++ ". Intensity " ++ Z_to_string (intensityOf entry)
                 ++ "%, " ++ describeLimiter materialRegistry (e_limiter entry)
                 ++ ".")
         /\ (consText = "" \/ startsWith consText ", " = true)
         /\ (actorPhrase materialRegistry rx
             = "The acid is neutralizing the base"
             \/ actorPhrase materialRegistry rx
                = "The metal is reacting with water"
             \/ actorPhrase materialRegistry rx
                = "The acid is reacting with a reactant"
             \/ actorPhrase materialRegistry rx
                = "The base is reacting with a reactant"
             \/ actorPhrase materialRegistry rx = "A reaction is proceeding").
Proof.
  assert (Hnull : describeReactionEntry materialRegistry reactions entry = None
                  <-> rxIndex reactions (e_id entry) = None).
  { unfold describeReactionEntry.
    destruct (rxIndex reactions (e_id entry)); split;
      discriminate || reflexivity. }
  split; [exact Hnull|]. split.
  - rewrite Hnull. apply rxIndex_None.
  - intros rx Hrx. unfold describeReactionEntry. rewrite Hrx.
    eexists. split; [reflexivity|]. split.
    + match goal with
      | |- context [match ?l with [] => "" | _ => _ end] =>
          destruct l as [|c l']
      end; [now left|right; unfold startsWith; apply prefix_append].
    + unfold actorPhrase.
      destruct (_ && _); [tauto|]. destruct (_ && _); [tauto|].
      destruct (existsb _ _); [tauto|]. destruct (existsb _ _); tauto.
Qed.
